(** * SeniorSkill: the relational schema, its row-level policies and the
      completion trigger, embedded in Rocq.

    The program is the SQL of the schema migration (tables, row-level
    security policies, the trigger function [award_completion_xp]) and of the
    first migration ([calculate_level], [award_xp_and_badges]).  A table is a
    finite map from its primary key [id] (a uuid, here a number) to a row;
    a nullable column is an [option]; a statement is a function from the
    database to an error or a new database.

    What the embedding takes from PostgreSQL rather than from the migration
    text:
    - a USING expression filters the rows a statement sees: a row that fails
      it is skipped and no error is raised; a WITH CHECK expression is
      verified on the new row and raises [insufficient_privilege]; an UPDATE
      or DELETE that names its row in a WHERE clause also needs the SELECT
      policy on the row; an UPDATE policy without WITH CHECK uses its USING
      expression for the new row; an operation without any policy is denied;
    - policies bind the role [authenticated]; the role that owns the tables
      is not subject to them;
    - the trigger function is not SECURITY DEFINER, so its statements run as
      the principal whose statement fired it, and sub-queries inside policy
      expressions see the rows that principal may select;
    - a statement is atomic: an error in it or in a trigger it fires leaves
      the database as it was;
    - WHERE, IF, USING and WITH CHECK accept a condition only when it is
      true, not when it is NULL.

    Columns that no policy, constraint or function reads (names, texts,
    links, prices, creation times) are left out of the rows.  The database
    [db] holds the six tables whose policies and trigger read one another;
    sessions, user_projects and learning_communities follow as tables of
    their own.  The tables for badges and for the members,
    resources and sessions of communities are left out. *)

From stdpp Require Import gmap strings list fin_maps.
From Stdlib Require Import ZArith Ascii String.

Local Open Scope Z_scope.

(** ** SQL values: three-valued logic, integers, errors *)

Module Sql.

(** SQLSTATE classes the schema can raise. *)
Inductive error :=
| insufficient_privilege      (* 42501: row-level security *)
| not_null_violation          (* 23502 *)
| check_violation             (* 23514 *)
| unique_violation            (* 23505 *)
| foreign_key_violation       (* 23503 *)
| numeric_value_out_of_range  (* 22003 *)
| division_by_zero.           (* 22012 *)

Inductive result (A : Type) :=
| Ok (a : A)
| Err (e : error).
Arguments Ok {A} a.
Arguments Err {A} e.

#[global] Instance result_ret : MRet result := λ A a, Ok a.
#[global] Instance result_bind : MBind result := λ A B f m,
  match m with Ok a => f a | Err e => Err e end.

Definition guard (b : bool) (e : error) : result () :=
  if b then Ok () else Err e.

(** A condition is [Some true], [Some false] or NULL. *)
Definition tv := option bool.

Definition tv_and (a b : tv) : tv :=
  match a, b with
  | Some false, _ | _, Some false => Some false
  | Some true, Some true => Some true
  | _, _ => None
  end.

Definition tv_or (a b : tv) : tv :=
  match a, b with
  | Some true, _ | _, Some true => Some true
  | Some false, Some false => Some false
  | _, _ => None
  end.

(** [a = b] on nullable columns. *)
Definition eq_col `{EqDecision A} (a b : option A) : tv :=
  match a, b with
  | Some x, Some y => Some (bool_decide (x = y))
  | _, _ => None
  end.

(** [a >= b] on nullable integers. *)
Definition ge_col (a b : option Z) : tv :=
  match a, b with
  | Some x, Some y => Some (bool_decide (y ≤ x))
  | _, _ => None
  end.

(** [a IN (b, c)]. *)
Definition in2_col `{EqDecision A} (a : option A) (b c : A) : tv :=
  tv_or (eq_col a (Some b)) (eq_col a (Some c)).

(** The test WHERE, IF, USING and WITH CHECK apply. *)
Definition holds (c : tv) : bool :=
  match c with Some true => true | _ => false end.

(** A CHECK constraint fails only when its condition is false. *)
Definition check_passes (c : tv) : bool :=
  match c with Some false => false | _ => true end.

(** [integer] is 32 bits and signed; arithmetic outside it is an error. *)
Definition int4_min : Z := - 2 ^ 31.
Definition int4_max : Z := 2 ^ 31 - 1.

Definition int4 (z : option Z) : result (option Z) :=
  match z with
  | None => Ok None
  | Some v =>
      if bool_decide (int4_min ≤ v ≤ int4_max) then Ok (Some v)
      else Err numeric_value_out_of_range
  end.

Definition int4_add (a b : option Z) : result (option Z) :=
  match a, b with
  | Some x, Some y => int4 (Some (x + y))
  | _, _ => Ok None
  end.

(** Integer division truncates toward zero. *)
Definition int4_div (a b : option Z) : result (option Z) :=
  match a, b with
  | Some x, Some y =>
      if bool_decide (y = 0) then Err division_by_zero
      else int4 (Some (x ÷ y))
  | _, _ => Ok None
  end.

(** [FLOOR] of a value that is already whole is that value, now a
    [double precision]; [+] on it is not 32-bit arithmetic. *)
Definition FLOOR (a : option Z) : option Z := a.

Definition num_add (a b : option Z) : option Z :=
  match a, b with
  | Some x, Some y => Some (x + y)
  | _, _ => None
  end.

(** [GREATEST] skips NULL arguments. *)
Definition GREATEST (a b : option Z) : option Z :=
  match a, b with
  | Some x, Some y => Some (Z.max x y)
  | Some x, None | None, Some x => Some x
  | None, None => None
  end.

(** [UPPER] on the ASCII letters and [SUBSTRING(s, 1, n)]. *)
Definition upper_ascii (c : ascii) : ascii :=
  let n := nat_of_ascii c in
  if (Nat.leb 97 n && Nat.leb n 122)%bool
  then ascii_of_nat (n - 32)%nat else c.

Fixpoint UPPER (s : string) : string :=
  match s with
  | EmptyString => EmptyString
  | String c s' => String (upper_ascii c) (UPPER s')
  end.

Definition SUBSTRING_1 (n : nat) (s : string) : string :=
  String.substring 0 n s.

End Sql.
Import Sql.

(** ** The tables

    One module per table, named as the table; the record fields are the
    columns.  The key of the map is the column [id]. *)

Inductive role_name := student | mentor | admin.
Inductive request_status := pending | approved | rejected.

#[global] Instance role_name_eq_dec : EqDecision role_name.
Proof. solve_decision. Defined.
#[global] Instance request_status_eq_dec : EqDecision request_status.
Proof. solve_decision. Defined.

Module users.
(** [role] and [status] carry their CHECK (... IN ...) in their type;
    [email] is NOT NULL. *)
Record row := Row {
  email : string;
  year_of_study : option Z;
  role : option role_name;
  xp_points : option Z;
  level_number : option Z;
  is_verified : option bool
}.
End users.

Module courses.
Record row := Row {
  mentor_id : option N;
  is_active : option bool
}.
End courses.

Module enrollments.
Record row := Row {
  student_id : option N;
  course_id : option N;
  enrolled_at : option Z;
  completed_at : option Z;
  is_completed : option bool
}.
End enrollments.

Module reviews.
Record row := Row {
  student_id : option N;
  course_id : option N;
  mentor_id : option N;
  rating : option Z;
  is_helpful : option bool
}.
End reviews.

Module certificates.
Record row := Row {
  student_id : option N;
  course_id : option N;
  mentor_id : option N;
  certificate_id : string
}.
End certificates.

Module mentor_requests.
Record row := Row {
  student_id : option N;
  status : option request_status;
  reviewed_by : option N;
  reviewed_at : option Z
}.

(** The row an INSERT that gives only [student_id] stores. *)
Definition with_defaults (s : option N) : row :=
  {| student_id := s; status := Some pending;
     reviewed_by := None; reviewed_at := None |}.
End mentor_requests.

Record db := Db {
  users : gmap N users.row;
  courses : gmap N courses.row;
  enrollments : gmap N enrollments.row;
  reviews : gmap N reviews.row;
  certificates : gmap N certificates.row;
  mentor_requests : gmap N mentor_requests.row
}.

(** The acting principal: a signed-in user ([auth.uid()] is its id), or the
    role that owns the tables. *)
Inductive principal :=
| authenticated (uid : N)
| owner.

(** ** Row-level security, for any table *)

Section rls.
Context {Row : Type}.

(** The policies of a table as one principal meets them: permissive
    policies for the same command are joined by OR beforehand. *)
Record policy := Policy {
  select_using : N → Row → bool;
  insert_check : N → Row → bool;
  update_using : N → Row → bool;
  update_check : N → Row → bool;
  delete_using : N → Row → bool
}.

Definition bypass : policy :=
  {| select_using := λ _ _, true; insert_check := λ _ _, true;
     update_using := λ _ _, true; update_check := λ _ _, true;
     delete_using := λ _ _, true |}.

Definition denied : N → Row → bool := λ _ _, false.

(** [EXISTS (SELECT 1 FROM t WHERE c)]. *)
Definition exists_row (c : N → Row → bool) (t : gmap N Row) : bool :=
  existsb (λ kv, c kv.1 kv.2) (map_to_list t).

(** SELECT: the rows the principal may see. *)
Definition rls_select (pol : policy) (t : gmap N Row) : gmap N Row :=
  filter (λ kv, select_using pol kv.1 kv.2 = true) t.

(** INSERT of row [r] under key [k]: the policy first, then the table's
    constraints [chk]. *)
Definition rls_insert (pol : policy) (chk : N → Row → result ())
    (k : N) (r : Row) (t : gmap N Row) : result (gmap N Row) :=
  if insert_check pol k r then
    _ ← chk k r; Ok (<[k := r]> t)
  else Err insufficient_privilege.

(** UPDATE ... SET ... WHERE id = k.  The result also tells the row
    triggers which row was updated, with its OLD and NEW value. *)
Definition rls_update (pol : policy) (chk : N → Row → result ())
    (k : N) (set : Row → result Row) (t : gmap N Row)
    : result (option (Row * Row) * gmap N Row) :=
  match t !! k with
  | None => Ok (None, t)
  | Some old =>
      if select_using pol k old && update_using pol k old then
        new ← set old;
        if update_check pol k new && select_using pol k new then
          _ ← chk k new; Ok (Some (old, new), <[k := new]> t)
        else Err insufficient_privilege
      else Ok (None, t)
  end.

(** DELETE ... WHERE id = k; the result tells whether a row went. *)
Definition rls_delete (pol : policy) (k : N) (t : gmap N Row)
    : option Row * gmap N Row :=
  match t !! k with
  | None => (None, t)
  | Some old =>
      if select_using pol k old && delete_using pol k old
      then (Some old, delete k t) else (None, t)
  end.

(** Constraint helpers. *)
Definition pk_free (k : N) (t : gmap N Row) : result () :=
  guard (bool_decide (t !! k = None)) unique_violation.

End rls.
Arguments policy : clear implicits.

(** A foreign key: NULL, or the key of a row of the referenced table. *)
Definition references {Row} (fk : option N) (t : gmap N Row) : result () :=
  match fk with
  | None => Ok ()
  | Some k => guard (bool_decide (is_Some (t !! k))) foreign_key_violation
  end.

(** ** The policies of the schema, as a signed-in user [me] meets them *)

Definition as_principal {Row} (pol : N → policy Row) (p : principal)
    : policy Row :=
  match p with
  | authenticated me => pol me
  | owner => bypass
  end.

(** "Users can insert own profile", "Users can read all profiles",
    "Users can update own profile". *)
Definition users_policy (d : db) (me : N) : policy users.row :=
  {| select_using := λ _ _, true;
     insert_check := λ id _, holds (eq_col (Some me) (Some id));
     update_using := λ id _, holds (eq_col (Some me) (Some id));
     update_check := λ id _, holds (eq_col (Some me) (Some id));
     delete_using := denied |}.

(** "Anyone can read active courses", "Mentors can create courses",
    "Mentors can update own courses". *)
Definition courses_policy (d : db) (me : N) : policy courses.row :=
  {| select_using := λ _ c, holds (eq_col (courses.is_active c) (Some true));
     insert_check := λ _ _,
       exists_row
         (λ id u, holds (tv_and (eq_col (Some id) (Some me))
                                (in2_col (users.role u) mentor admin)))
         (rls_select (users_policy d me) (users d));
     update_using := λ _ c, holds (eq_col (courses.mentor_id c) (Some me));
     update_check := λ _ c, holds (eq_col (courses.mentor_id c) (Some me));
     delete_using := denied |}.

(** EXISTS (SELECT 1 FROM courses WHERE id = course_id
                                   AND mentor_id = auth.uid()) *)
Definition mentor_of_course (d : db) (me : N) (e : enrollments.row) : bool :=
  exists_row
    (λ id c, holds (tv_and (eq_col (Some id) (enrollments.course_id e))
                           (eq_col (courses.mentor_id c) (Some me))))
    (rls_select (courses_policy d me) (courses d)).

(** "Students can enroll in courses", "Students can read own enrollments",
    "Mentors can read enrollments for their courses", "Mentors can update
    enrollments for their courses". *)
Definition enrollments_policy (d : db) (me : N) : policy enrollments.row :=
  {| select_using := λ _ e,
       holds (eq_col (enrollments.student_id e) (Some me))
       || mentor_of_course d me e;
     insert_check := λ _ e, holds (eq_col (enrollments.student_id e) (Some me));
     update_using := λ _ e, mentor_of_course d me e;
     update_check := λ _ e, mentor_of_course d me e;
     delete_using := denied |}.

(** "Anyone can read reviews", "Students can create reviews for enrolled
    courses". *)
Definition reviews_policy (d : db) (me : N) : policy reviews.row :=
  {| select_using := λ _ _, true;
     insert_check := λ _ r,
       holds (tv_and
         (eq_col (reviews.student_id r) (Some me))
         (Some (exists_row
            (λ _ e, holds
               (tv_and (eq_col (enrollments.student_id e) (Some me))
               (tv_and (eq_col (enrollments.course_id e) (reviews.course_id r))
                       (eq_col (enrollments.is_completed e) (Some true)))))
            (rls_select (enrollments_policy d me) (enrollments d)))));
     update_using := denied;
     update_check := denied;
     delete_using := denied |}.

(** "Students can read own certificates", "Mentors can read certificates
    for their courses". *)
Definition certificates_policy (d : db) (me : N) : policy certificates.row :=
  {| select_using := λ _ c,
       holds (eq_col (certificates.student_id c) (Some me))
       || holds (eq_col (certificates.mentor_id c) (Some me));
     insert_check := denied;
     update_using := denied;
     update_check := denied;
     delete_using := denied |}.

(** "Students can create mentor requests", "Students can read own
    requests". *)
Definition mentor_requests_policy (d : db) (me : N)
    : policy mentor_requests.row :=
  {| select_using := λ _ r,
       holds (eq_col (mentor_requests.student_id r) (Some me));
     insert_check := λ _ r,
       holds (eq_col (mentor_requests.student_id r) (Some me));
     update_using := denied;
     update_check := denied;
     delete_using := denied |}.

(** ** The constraints of the tables

    In the order the store checks them: NOT NULL and CHECK, then the unique
    indexes, then the foreign keys.  [fresh_key] is set for an INSERT. *)

Definition key_check {Row} (fresh_key : bool) (k : N) (t : gmap N Row)
    : result () :=
  if fresh_key then pk_free k t else Ok ().

Definition users_constraints (fresh_key : bool) (d : db)
    (k : N) (r : users.row) : result () :=
  _ ← int4 (users.year_of_study r);
  _ ← int4 (users.xp_points r);
  _ ← int4 (users.level_number r);
  _ ← key_check fresh_key k (users d);
  guard (negb (exists_row
           (λ id u, bool_decide (id ≠ k)
                    && bool_decide (users.email u = users.email r))
           (users d)))
        unique_violation.

Definition courses_constraints (fresh_key : bool) (d : db)
    (k : N) (r : courses.row) : result () :=
  _ ← key_check fresh_key k (courses d);
  references (courses.mentor_id r) (users d).

(** UNIQUE(student_id, course_id): two rows clash when both columns are
    equal and not NULL. *)
Definition enrollments_constraints (fresh_key : bool) (d : db)
    (k : N) (r : enrollments.row) : result () :=
  _ ← key_check fresh_key k (enrollments d);
  _ ← guard (negb (exists_row
           (λ id e, bool_decide (id ≠ k)
              && holds (tv_and
                   (eq_col (enrollments.student_id e) (enrollments.student_id r))
                   (eq_col (enrollments.course_id e) (enrollments.course_id r))))
           (enrollments d)))
        unique_violation;
  _ ← references (enrollments.student_id r) (users d);
  references (enrollments.course_id r) (courses d).

(** rating integer NOT NULL CHECK (rating >= 1 AND rating <= 5) *)
Definition reviews_constraints (fresh_key : bool) (d : db)
    (k : N) (r : reviews.row) : result () :=
  _ ← guard (bool_decide (is_Some (reviews.rating r))) not_null_violation;
  _ ← guard (check_passes (tv_and (ge_col (reviews.rating r) (Some 1))
                                  (ge_col (Some 5) (reviews.rating r))))
            check_violation;
  _ ← key_check fresh_key k (reviews d);
  _ ← references (reviews.student_id r) (users d);
  _ ← references (reviews.course_id r) (courses d);
  references (reviews.mentor_id r) (users d).

Definition certificates_constraints (fresh_key : bool) (d : db)
    (k : N) (r : certificates.row) : result () :=
  _ ← key_check fresh_key k (certificates d);
  _ ← guard (negb (exists_row
           (λ id c, bool_decide (id ≠ k)
              && bool_decide (certificates.certificate_id c
                              = certificates.certificate_id r))
           (certificates d)))
        unique_violation;
  _ ← references (certificates.student_id r) (users d);
  _ ← references (certificates.course_id r) (courses d);
  references (certificates.mentor_id r) (users d).

Definition mentor_requests_constraints (fresh_key : bool) (d : db)
    (k : N) (r : mentor_requests.row) : result () :=
  _ ← key_check fresh_key k (mentor_requests d);
  _ ← references (mentor_requests.student_id r) (users d);
  references (mentor_requests.reviewed_by r) (users d).

(** ** The functions of the first migration *)

(** calculate_level(xp_points integer):
      RETURN GREATEST(1, (xp_points / 100) + 1); *)
Definition calculate_level (xp_points : option Z) : result (option Z) :=
  q ← int4_div xp_points (Some 100);
  l ← int4_add q (Some 1);
  Ok (GREATEST (Some 1) l).

(** The SET clause of award_xp_and_badges(user_id, xp_amount):
      xp_points = xp_points + xp_amount,
      level_number = calculate_level(xp_points + xp_amount) *)
Definition award_xp_and_badges_set (xp_amount : option Z) (u : users.row)
    : result users.row :=
  xp ← int4_add (users.xp_points u) xp_amount;
  lvl ← calculate_level xp;
  Ok {| users.email := users.email u;
        users.year_of_study := users.year_of_study u;
        users.role := users.role u;
        users.xp_points := xp;
        users.level_number := lvl;
        users.is_verified := users.is_verified u |}.

(** ** The trigger of the schema *)

Definition with_users (t : gmap N users.row) (d : db) : db :=
  {| users := t; courses := courses d; enrollments := enrollments d;
     reviews := reviews d; certificates := certificates d;
     mentor_requests := mentor_requests d |}.

Definition with_courses (t : gmap N courses.row) (d : db) : db :=
  {| users := users d; courses := t; enrollments := enrollments d;
     reviews := reviews d; certificates := certificates d;
     mentor_requests := mentor_requests d |}.

Definition with_enrollments (t : gmap N enrollments.row) (d : db) : db :=
  {| users := users d; courses := courses d; enrollments := t;
     reviews := reviews d; certificates := certificates d;
     mentor_requests := mentor_requests d |}.

Definition with_reviews (t : gmap N reviews.row) (d : db) : db :=
  {| users := users d; courses := courses d; enrollments := enrollments d;
     reviews := t; certificates := certificates d;
     mentor_requests := mentor_requests d |}.

Definition with_certificates (t : gmap N certificates.row) (d : db) : db :=
  {| users := users d; courses := courses d; enrollments := enrollments d;
     reviews := reviews d; certificates := t;
     mentor_requests := mentor_requests d |}.

Definition with_mentor_requests (t : gmap N mentor_requests.row) (d : db)
    : db :=
  {| users := users d; courses := courses d; enrollments := enrollments d;
     reviews := reviews d; certificates := certificates d;
     mentor_requests := t |}.

(** The two values gen_random_uuid() yields while a certificate is
    inserted: the default of [id], and the uuid whose text goes into
    [certificate_id]. *)
Record fresh := Fresh {
  certificate_key : N;
  certificate_uuid : string
}.

(** SET xp_points = xp_points + 50,
        level_number = FLOOR((xp_points + 50) / 100) + 1
    Both right-hand sides read the row as it was; the result is assigned
    to an integer column. *)
Definition award_set (u : users.row) : result users.row :=
  xp ← int4_add (users.xp_points u) (Some 50);
  s ← int4_add (users.xp_points u) (Some 50);
  q ← int4_div s (Some 100);
  lvl ← int4 (num_add (FLOOR q) (Some 1));
  Ok {| users.email := users.email u;
        users.year_of_study := users.year_of_study u;
        users.role := users.role u;
        users.xp_points := xp;
        users.level_number := lvl;
        users.is_verified := users.is_verified u |}.

(** UPDATE users SET ... WHERE id = NEW.student_id *)
Definition award_update (p : principal) (student_id : option N) (d : db)
    : result db :=
  match student_id with
  | None => Ok d
  | Some sid =>
      '(_, t) ← rls_update (as_principal (users_policy d) p)
                  (users_constraints false d) sid award_set (users d);
      Ok (with_users t d)
  end.

(** 'CERT-' || UPPER(SUBSTRING(gen_random_uuid()::text, 1, 8)) *)
Definition certificate_text (g : fresh) : string :=
  ("CERT-" ++ UPPER (SUBSTRING_1 8 (certificate_uuid g)))%string.

(** INSERT INTO certificates (student_id, course_id, mentor_id,
                              certificate_id)
    SELECT NEW.student_id, NEW.course_id, c.mentor_id, 'CERT-' || ...
    FROM courses c WHERE c.id = NEW.course_id
    [id] is the key of [courses], so the SELECT yields one row or none. *)
Definition generate_certificate (p : principal) (NEW : enrollments.row)
    (g : fresh) (d : db) : result db :=
  match enrollments.course_id NEW with
  | None => Ok d
  | Some cid =>
      match rls_select (as_principal (courses_policy d) p) (courses d) !! cid with
      | None => Ok d
      | Some c =>
          t ← rls_insert (as_principal (certificates_policy d) p)
                (certificates_constraints true d)
                (certificate_key g)
                {| certificates.student_id := enrollments.student_id NEW;
                   certificates.course_id := enrollments.course_id NEW;
                   certificates.mentor_id := courses.mentor_id c;
                   certificates.certificate_id := certificate_text g |}
                (certificates d);
          Ok (with_certificates t d)
      end
  end.

(** award_completion_xp(), fired AFTER UPDATE ON enrollments FOR EACH ROW;
    [d] is the database with the row already updated. *)
Definition award_completion_xp (p : principal) (OLD NEW : enrollments.row)
    (g : fresh) (d : db) : result db :=
  if holds (tv_and (eq_col (enrollments.is_completed NEW) (Some true))
                   (eq_col (enrollments.is_completed OLD) (Some false)))
  then
    d1 ← award_update p (enrollments.student_id NEW) d;
    generate_certificate p NEW g d1
  else Ok d.

(** ** Statements and requests *)

Inductive stmt (Row : Type) :=
| INSERT (k : N) (r : Row)
| UPDATE (k : N) (set : Row → result Row)
| DELETE (k : N).
Arguments INSERT {Row} k r.
Arguments UPDATE {Row} k set.
Arguments DELETE {Row} k.

(** A request is one statement on one table.  A statement on [enrollments]
    comes with the random values its trigger may draw. *)
Inductive request :=
| on_users (s : stmt users.row)
| on_courses (s : stmt courses.row)
| on_enrollments (s : stmt enrollments.row) (g : fresh)
| on_reviews (s : stmt reviews.row)
| on_certificates (s : stmt certificates.row)
| on_mentor_requests (s : stmt mentor_requests.row).

(** ON DELETE CASCADE.  The referential actions run as the owner of the
    tables, whatever principal deleted the referenced row. *)
Definition refers (gone : N → bool) (fk : option N) : bool :=
  match fk with
  | Some k => gone k
  | None => false
  end.

Definition cascade_courses (gone : N → bool) (d : db) : db :=
  {| users := users d;
     courses := courses d;
     enrollments :=
       filter (λ kv, refers gone (enrollments.course_id kv.2) = false)
              (enrollments d);
     reviews :=
       filter (λ kv, refers gone (reviews.course_id kv.2) = false) (reviews d);
     certificates :=
       filter (λ kv, refers gone (certificates.course_id kv.2) = false)
              (certificates d);
     mentor_requests := mentor_requests d |}.

Definition delete_course (k : N) (d : db) : db :=
  cascade_courses (λ c, bool_decide (c = k)) (with_courses (delete k (courses d)) d).

(** [mentor_requests.reviewed_by] references [users] without an action: a
    user still named there cannot be deleted. *)
Definition delete_user (k : N) (d : db) : result db :=
  let is_k := λ u, bool_decide (u = k) in
  let taught := λ c,
    match courses d !! c with
    | Some r => refers is_k (courses.mentor_id r)
    | None => false
    end in
  let d1 := cascade_courses taught
    (with_courses
       (filter (λ kv, refers is_k (courses.mentor_id kv.2) = false) (courses d))
       (with_users (delete k (users d)) d)) in
  let d2 :=
    {| users := users d1;
       courses := courses d1;
       enrollments :=
         filter (λ kv, refers is_k (enrollments.student_id kv.2) = false)
                (enrollments d1);
       reviews :=
         filter (λ kv, (refers is_k (reviews.student_id kv.2)
                        || refers is_k (reviews.mentor_id kv.2)) = false)
                (reviews d1);
       certificates :=
         filter (λ kv, (refers is_k (certificates.student_id kv.2)
                        || refers is_k (certificates.mentor_id kv.2)) = false)
                (certificates d1);
       mentor_requests :=
         filter (λ kv, refers is_k (mentor_requests.student_id kv.2) = false)
                (mentor_requests d1) |} in
  _ ← guard (negb (exists_row
                (λ _ r, refers is_k (mentor_requests.reviewed_by r))
                (mentor_requests d2)))
            foreign_key_violation;
  Ok d2.

Definition exec_users (d : db) (p : principal) (s : stmt users.row)
    : result db :=
  let pol := as_principal (users_policy d) p in
  match s with
  | INSERT k r =>
      t ← rls_insert pol (users_constraints true d) k r (users d);
      Ok (with_users t d)
  | UPDATE k set =>
      '(_, t) ← rls_update pol (users_constraints false d) k set (users d);
      Ok (with_users t d)
  | DELETE k =>
      match (rls_delete pol k (users d)).1 with
      | Some _ => delete_user k d
      | None => Ok d
      end
  end.

Definition exec_courses (d : db) (p : principal) (s : stmt courses.row)
    : result db :=
  let pol := as_principal (courses_policy d) p in
  match s with
  | INSERT k r =>
      t ← rls_insert pol (courses_constraints true d) k r (courses d);
      Ok (with_courses t d)
  | UPDATE k set =>
      '(_, t) ← rls_update pol (courses_constraints false d) k set (courses d);
      Ok (with_courses t d)
  | DELETE k =>
      match (rls_delete pol k (courses d)).1 with
      | Some _ => Ok (delete_course k d)
      | None => Ok d
      end
  end.

(** The trigger [enrollment_completion_trigger] fires for the row an
    UPDATE changed, after the change. *)
Definition exec_enrollments (d : db) (p : principal)
    (s : stmt enrollments.row) (g : fresh) : result db :=
  let pol := as_principal (enrollments_policy d) p in
  match s with
  | INSERT k r =>
      t ← rls_insert pol (enrollments_constraints true d) k r (enrollments d);
      Ok (with_enrollments t d)
  | UPDATE k set =>
      '(hit, t) ← rls_update pol (enrollments_constraints false d) k set
                    (enrollments d);
      match hit with
      | Some (OLD, NEW) => award_completion_xp p OLD NEW g (with_enrollments t d)
      | None => Ok (with_enrollments t d)
      end
  | DELETE k => Ok (with_enrollments (rls_delete pol k (enrollments d)).2 d)
  end.

Definition exec_reviews (d : db) (p : principal) (s : stmt reviews.row)
    : result db :=
  let pol := as_principal (reviews_policy d) p in
  match s with
  | INSERT k r =>
      t ← rls_insert pol (reviews_constraints true d) k r (reviews d);
      Ok (with_reviews t d)
  | UPDATE k set =>
      '(_, t) ← rls_update pol (reviews_constraints false d) k set (reviews d);
      Ok (with_reviews t d)
  | DELETE k => Ok (with_reviews (rls_delete pol k (reviews d)).2 d)
  end.

Definition exec_certificates (d : db) (p : principal)
    (s : stmt certificates.row) : result db :=
  let pol := as_principal (certificates_policy d) p in
  match s with
  | INSERT k r =>
      t ← rls_insert pol (certificates_constraints true d) k r (certificates d);
      Ok (with_certificates t d)
  | UPDATE k set =>
      '(_, t) ← rls_update pol (certificates_constraints false d) k set
                  (certificates d);
      Ok (with_certificates t d)
  | DELETE k => Ok (with_certificates (rls_delete pol k (certificates d)).2 d)
  end.

Definition exec_mentor_requests (d : db) (p : principal)
    (s : stmt mentor_requests.row) : result db :=
  let pol := as_principal (mentor_requests_policy d) p in
  match s with
  | INSERT k r =>
      t ← rls_insert pol (mentor_requests_constraints true d) k r
            (mentor_requests d);
      Ok (with_mentor_requests t d)
  | UPDATE k set =>
      '(_, t) ← rls_update pol (mentor_requests_constraints false d) k set
                  (mentor_requests d);
      Ok (with_mentor_requests t d)
  | DELETE k =>
      Ok (with_mentor_requests (rls_delete pol k (mentor_requests d)).2 d)
  end.

Definition exec (d : db) (p : principal) (q : request) : result db :=
  match q with
  | on_users s => exec_users d p s
  | on_courses s => exec_courses d p s
  | on_enrollments s g => exec_enrollments d p s g
  | on_reviews s => exec_reviews d p s
  | on_certificates s => exec_certificates d p s
  | on_mentor_requests s => exec_mentor_requests d p s
  end.

(** A failed statement leaves the database as it was. *)
Definition run (d : db) (p : principal) (q : request) : db :=
  match exec d p q with
  | Ok d' => d'
  | Err _ => d
  end.

(** The requests of signed-in users, one after the other. *)
Definition run_all (d : db) (qs : list (N * request)) : db :=
  foldl (λ d uq, run d (authenticated uq.1) uq.2) d qs.

(** SELECT * FROM t, as the principal sees it. *)
Definition read {Row} (pol : db → N → policy Row) (t : db → gmap N Row)
    (d : db) (p : principal) : gmap N Row :=
  rls_select (as_principal (pol d) p) (t d).

(** ** What the level of a user should be *)

(** max(1, floor(xp_points / 100) + 1), with the mathematical floor. *)
Definition level_of (xp : Z) : Z := Z.max 1 (xp / 100 + 1).

Definition level_invariant (d : db) : Prop :=
  ∀ k u x, users d !! k = Some u → users.xp_points u = Some x →
           users.level_number u = Some (level_of x).

(** ** A small database *)

Module sample.

Definition profile (e : string) (r : role_name) (xp lvl : Z) : users.row :=
  {| users.email := e; users.year_of_study := Some 1;
     users.role := Some r; users.xp_points := Some xp;
     users.level_number := Some lvl; users.is_verified := Some false |}.

Definition ann : N := 1.
Definition mia : N := 2.
Definition bob : N := 3.
Definition rocq_course : N := 10.

Definition enrolled (s : N) (c : option N) (done : bool) : enrollments.row :=
  {| enrollments.student_id := Some s; enrollments.course_id := c;
     enrollments.enrolled_at := Some 1754200000;
     enrollments.completed_at := None;
     enrollments.is_completed := Some done |}.

(** ann has 80 points and an open enrollment (20) in mia's course, and
    an enrollment (21) that names no course; bob has completed the
    course (22). *)
Definition store : db :=
  {| users := {[ ann := profile "ann@campus.example" student 80 1;
                 mia := profile "mia@campus.example" mentor 0 1;
                 bob := profile "bob@campus.example" student 0 1 ]};
     courses := {[ rocq_course := {| courses.mentor_id := Some mia;
                                     courses.is_active := Some true |} ]};
     enrollments := {[ 20%N := enrolled ann (Some rocq_course) false;
                       21%N := enrolled ann None false;
                       22%N := enrolled bob (Some rocq_course) true ]};
     reviews := ∅;
     certificates := ∅;
     mentor_requests := ∅ |}.

(** SET is_completed = true *)
Definition set_completed (e : enrollments.row) : result enrollments.row :=
  Ok {| enrollments.student_id := enrollments.student_id e;
        enrollments.course_id := enrollments.course_id e;
        enrollments.enrolled_at := enrollments.enrolled_at e;
        enrollments.completed_at := enrollments.completed_at e;
        enrollments.is_completed := Some true |}.

(** SET completed_at = t *)
Definition set_completed_at (t : Z) (e : enrollments.row)
    : result enrollments.row :=
  Ok {| enrollments.student_id := enrollments.student_id e;
        enrollments.course_id := enrollments.course_id e;
        enrollments.enrolled_at := enrollments.enrolled_at e;
        enrollments.completed_at := Some t;
        enrollments.is_completed := enrollments.is_completed e |}.

(** SET xp_points = x *)
Definition set_xp_points (x : Z) (u : users.row) : result users.row :=
  Ok {| users.email := users.email u;
        users.year_of_study := users.year_of_study u;
        users.role := users.role u;
        users.xp_points := Some x;
        users.level_number := users.level_number u;
        users.is_verified := users.is_verified u |}.

Definition draw : fresh :=
  {| certificate_key := 30;
     certificate_uuid := "3f2a9c1e-7b4d-4e0a-9c55-0d6e2f81a7b3" |}.

Definition review (s c : N) (stars : Z) : reviews.row :=
  {| reviews.student_id := Some s; reviews.course_id := Some c;
     reviews.mentor_id := Some mia; reviews.rating := Some stars;
     reviews.is_helpful := Some false |}.

(** SET status = 'approved', reviewed_by = m, reviewed_at = t *)
Definition set_approved (m : N) (t : Z) (r : mentor_requests.row)
    : result mentor_requests.row :=
  Ok {| mentor_requests.student_id := mentor_requests.student_id r;
        mentor_requests.status := Some approved;
        mentor_requests.reviewed_by := Some m;
        mentor_requests.reviewed_at := Some t |}.

(** The store after ann has asked to become a mentor (request 50). *)
Definition store_with_request : db :=
  run store (authenticated ann)
    (on_mentor_requests
       (INSERT 50 (mentor_requests.with_defaults (Some ann)))).

(** A request that is approved from the start. *)
Definition approved_request : mentor_requests.row :=
  {| mentor_requests.student_id := Some ann;
     mentor_requests.status := Some approved;
     mentor_requests.reviewed_by := Some mia;
     mentor_requests.reviewed_at := Some 1754300000 |}.

End sample.

(** ** Consistency of a database *)

(** A foreign key resolves: it is NULL or names a row of the table. *)
Definition resolves {Row} (fk : option N) (t : gmap N Row) : Prop :=
  ∀ k, fk = Some k → is_Some (t !! k).

(** Column [f] of every row of [t] resolves in [target]. *)
Definition refs_ok {Row Row'} (f : Row → option N) (t : gmap N Row)
    (target : gmap N Row') : Prop :=
  ∀ k r, t !! k = Some r → resolves (f r) target.

(** Every REFERENCES clause of the six tables holds. *)
Record referential_integrity (d : db) : Prop := Referential_integrity {
  ri_courses_mentor :
    refs_ok courses.mentor_id (courses d) (users d);
  ri_enrollments_student :
    refs_ok enrollments.student_id (enrollments d) (users d);
  ri_enrollments_course :
    refs_ok enrollments.course_id (enrollments d) (courses d);
  ri_reviews_student :
    refs_ok reviews.student_id (reviews d) (users d);
  ri_reviews_course :
    refs_ok reviews.course_id (reviews d) (courses d);
  ri_reviews_mentor :
    refs_ok reviews.mentor_id (reviews d) (users d);
  ri_certificates_student :
    refs_ok certificates.student_id (certificates d) (users d);
  ri_certificates_course :
    refs_ok certificates.course_id (certificates d) (courses d);
  ri_certificates_mentor :
    refs_ok certificates.mentor_id (certificates d) (users d);
  ri_mentor_requests_student :
    refs_ok mentor_requests.student_id (mentor_requests d) (users d);
  ri_mentor_requests_reviewer :
    refs_ok mentor_requests.reviewed_by (mentor_requests d) (users d)
}.

(** No two rows of [t] agree on [f], where [f] is not NULL. *)
Definition unique_on {Row A} (f : Row → option A) (t : gmap N Row) : Prop :=
  ∀ k1 k2 r1 r2 x,
    t !! k1 = Some r1 → t !! k2 = Some r2 →
    f r1 = Some x → f r2 = Some x → k1 = k2.

(** The pair (student_id, course_id), NULL when one of them is. *)
Definition enrollment_pair (e : enrollments.row) : option (N * N) :=
  match enrollments.student_id e, enrollments.course_id e with
  | Some s, Some c => Some (s, c)
  | _, _ => None
  end.

(** users.email UNIQUE, enrollments UNIQUE(student_id, course_id),
    certificates.certificate_id UNIQUE. *)
Record unique_constraints (d : db) : Prop := Unique_constraints {
  uq_users_email : unique_on (λ u, Some (users.email u)) (users d);
  uq_enrollments_pair : unique_on enrollment_pair (enrollments d);
  uq_certificates_id :
    unique_on (λ c, Some (certificates.certificate_id c)) (certificates d)
}.

(** The same consistency as tests that compute. *)
Definition refs_okb {Row Row'} (f : Row → option N) (t : gmap N Row)
    (target : gmap N Row') : bool :=
  forallb (λ kr, match f kr.2 with
                 | Some x => bool_decide (is_Some (target !! x))
                 | None => true
                 end)
          (map_to_list t).

Definition referential_integrityb (d : db) : bool :=
  refs_okb courses.mentor_id (courses d) (users d)
  && refs_okb enrollments.student_id (enrollments d) (users d)
  && refs_okb enrollments.course_id (enrollments d) (courses d)
  && refs_okb reviews.student_id (reviews d) (users d)
  && refs_okb reviews.course_id (reviews d) (courses d)
  && refs_okb reviews.mentor_id (reviews d) (users d)
  && refs_okb certificates.student_id (certificates d) (users d)
  && refs_okb certificates.course_id (certificates d) (courses d)
  && refs_okb certificates.mentor_id (certificates d) (users d)
  && refs_okb mentor_requests.student_id (mentor_requests d) (users d)
  && refs_okb mentor_requests.reviewed_by (mentor_requests d) (users d).

Definition unique_onb {Row A} `{EqDecision A} (f : Row → option A)
    (t : gmap N Row) : bool :=
  forallb (λ kr1,
    forallb (λ kr2,
      match f kr1.2, f kr2.2 with
      | Some x, Some y =>
          negb (bool_decide (x = y)) || bool_decide (kr1.1 = kr2.1)
      | _, _ => true
      end)
      (map_to_list t))
    (map_to_list t).

Definition unique_constraintsb (d : db) : bool :=
  unique_onb (λ u, Some (users.email u)) (users d)
  && unique_onb enrollment_pair (enrollments d)
  && unique_onb (λ c, Some (certificates.certificate_id c)) (certificates d).

(** The single changes of a table that the statements are made of: a row
    stored under the constraints of its table, a row removed from a table
    nothing refers to, and the two deletions that cascade. *)
Inductive write : db → db → Prop :=
| write_users d b k r :
    users_constraints b d k r = Ok () →
    write d (with_users (<[k := r]> (users d)) d)
| write_courses d b k r :
    courses_constraints b d k r = Ok () →
    write d (with_courses (<[k := r]> (courses d)) d)
| write_enrollments d b k r :
    enrollments_constraints b d k r = Ok () →
    write d (with_enrollments (<[k := r]> (enrollments d)) d)
| write_reviews d b k r :
    reviews_constraints b d k r = Ok () →
    write d (with_reviews (<[k := r]> (reviews d)) d)
| write_certificates d b k r :
    certificates_constraints b d k r = Ok () →
    write d (with_certificates (<[k := r]> (certificates d)) d)
| write_mentor_requests d b k r :
    mentor_requests_constraints b d k r = Ok () →
    write d (with_mentor_requests (<[k := r]> (mentor_requests d)) d)
| remove_enrollment d k :
    write d (with_enrollments (delete k (enrollments d)) d)
| remove_review d k :
    write d (with_reviews (delete k (reviews d)) d)
| remove_certificate d k :
    write d (with_certificates (delete k (certificates d)) d)
| remove_mentor_request d k :
    write d (with_mentor_requests (delete k (mentor_requests d)) d)
| remove_course d k :
    write d (delete_course k d)
| remove_user d k d' :
    delete_user k d = Ok d' →
    write d d'.

(** ** SET clauses *)

(** SET role = r *)
Definition SET_role (r : option role_name) (u : users.row)
    : result users.row :=
  Ok {| users.email := users.email u;
        users.year_of_study := users.year_of_study u;
        users.role := r;
        users.xp_points := users.xp_points u;
        users.level_number := users.level_number u;
        users.is_verified := users.is_verified u |}.

(** SET is_active = b *)
Definition SET_is_active (b : option bool) (c : courses.row)
    : result courses.row :=
  Ok {| courses.mentor_id := courses.mentor_id c; courses.is_active := b |}.

(** SET is_completed = b *)
Definition SET_is_completed (b : option bool) (e : enrollments.row)
    : result enrollments.row :=
  Ok {| enrollments.student_id := enrollments.student_id e;
        enrollments.course_id := enrollments.course_id e;
        enrollments.enrolled_at := enrollments.enrolled_at e;
        enrollments.completed_at := enrollments.completed_at e;
        enrollments.is_completed := b |}.

(** ** Completion requests for one enrollment *)

(** UPDATE enrollments SET is_completed = true WHERE id = k, with the
    values the trigger draws if it fires. *)
Definition completion (k : N) (g : fresh) : request :=
  on_enrollments (UPDATE k (SET_is_completed (Some true))) g.

(** N completion requests for enrollment [k], each by its principal.  The
    store runs each statement as a whole, so requests that arrive together
    take effect one after the other, in some order: the order of the
    list. *)
Definition completions (d : db) (k : N) (rs : list (principal * fresh))
    : db :=
  foldl (λ d r, run d r.1 (completion k r.2)) d rs.

(** ** The types of the columns

    A statement that carries a value outside the type of its column is
    answered with an error of class 22 before any policy is looked at.
    The rows of the model keep three kinds of column that have such
    values: integer, timestamptz (here in seconds since 1970) and, left
    out of the rows, numeric. *)

Definition is_integer (v : option Z) : bool :=
  match v with
  | None => true
  | Some z => bool_decide (int4_min ≤ z ≤ int4_max)
  end.

(** 4713 BC to 294276 AD. *)
Definition is_timestamptz (v : option Z) : bool :=
  match v with
  | None => true
  | Some t => bool_decide (-210866803200 ≤ t < 9224318016000)
  end.

Definition users_in_type (r : users.row) : bool :=
  is_integer (users.year_of_study r) && is_integer (users.xp_points r)
  && is_integer (users.level_number r).

(** The columns of [courses] and [certificates] that the rows keep are
    uuid, boolean and text. *)
Definition courses_in_type (r : courses.row) : bool := true.

Definition enrollments_in_type (r : enrollments.row) : bool :=
  is_timestamptz (enrollments.enrolled_at r)
  && is_timestamptz (enrollments.completed_at r).

Definition reviews_in_type (r : reviews.row) : bool :=
  is_integer (reviews.rating r).

Definition certificates_in_type (r : certificates.row) : bool := true.

Definition mentor_requests_in_type (r : mentor_requests.row) : bool :=
  is_timestamptz (mentor_requests.reviewed_at r).

(** A SET clause that raises no error and assigns values of the column
    types, on whatever row of the table it is evaluated. *)
Definition raises_nothing {Row} (in_type : Row → bool)
    (set : Row → result Row) : Prop :=
  ∀ r, in_type r = true → ∃ r', set r = Ok r' ∧ in_type r' = true.

(** ** The tables with a policy FOR ALL: sessions and user_projects *)

Module sessions.
(** session_date and duration_minutes are NOT NULL. *)
Record row := Row {
  course_id : option N;
  mentor_id : option N;
  session_date : option Z;
  duration_minutes : option Z;
  is_completed : option bool;
  completed_at : option Z
}.
End sessions.

Module user_projects.
(** title is NOT NULL; technologies is text[]. *)
Record row := Row {
  user_id : option N;
  title : string;
  technologies : option (list string);
  is_featured : option bool
}.
End user_projects.

(** "Anyone can read sessions" and "Mentors can manage own sessions", which
    is FOR ALL with USING (mentor_id = auth.uid()) and no WITH CHECK: the
    USING expression is also the check of new rows. *)
Definition sessions_policy (me : N) : policy sessions.row :=
  {| select_using := λ _ s,
       true || holds (eq_col (sessions.mentor_id s) (Some me));
     insert_check := λ _ s, holds (eq_col (sessions.mentor_id s) (Some me));
     update_using := λ _ s, holds (eq_col (sessions.mentor_id s) (Some me));
     update_check := λ _ s, holds (eq_col (sessions.mentor_id s) (Some me));
     delete_using := λ _ s, holds (eq_col (sessions.mentor_id s) (Some me)) |}.

(** "Anyone can read user projects" and "Users can manage own projects",
    FOR ALL with USING and WITH CHECK (user_id = auth.uid()). *)
Definition user_projects_policy (me : N) : policy user_projects.row :=
  {| select_using := λ _ r,
       true || holds (eq_col (user_projects.user_id r) (Some me));
     insert_check := λ _ r,
       holds (eq_col (user_projects.user_id r) (Some me));
     update_using := λ _ r,
       holds (eq_col (user_projects.user_id r) (Some me));
     update_check := λ _ r,
       holds (eq_col (user_projects.user_id r) (Some me));
     delete_using := λ _ r,
       holds (eq_col (user_projects.user_id r) (Some me)) |}.

Definition sessions_constraints (d : db) (t : gmap N sessions.row)
    (fresh_key : bool) (k : N) (r : sessions.row) : result () :=
  _ ← guard (bool_decide (is_Some (sessions.session_date r)))
            not_null_violation;
  _ ← guard (bool_decide (is_Some (sessions.duration_minutes r)))
            not_null_violation;
  _ ← int4 (sessions.duration_minutes r);
  _ ← key_check fresh_key k t;
  _ ← references (sessions.course_id r) (courses d);
  references (sessions.mentor_id r) (users d).

Definition user_projects_constraints (d : db) (t : gmap N user_projects.row)
    (fresh_key : bool) (k : N) (r : user_projects.row) : result () :=
  _ ← key_check fresh_key k t;
  references (user_projects.user_id r) (users d).

(** One statement on one table that has no trigger and that nothing
    refers to. *)
Definition exec_stmt {Row} (pol : policy Row)
    (chk : bool → N → Row → result ()) (t : gmap N Row) (s : stmt Row)
    : result (gmap N Row) :=
  match s with
  | INSERT k r => rls_insert pol (chk true) k r t
  | UPDATE k set => '(_, t') ← rls_update pol (chk false) k set t; Ok t'
  | DELETE k => Ok (rls_delete pol k t).2
  end.

Definition exec_sessions (d : db) (t : gmap N sessions.row) (p : principal)
    (s : stmt sessions.row) : result (gmap N sessions.row) :=
  exec_stmt (as_principal sessions_policy p) (sessions_constraints d t) t s.

Definition exec_user_projects (d : db) (t : gmap N user_projects.row)
    (p : principal) (s : stmt user_projects.row)
    : result (gmap N user_projects.row) :=
  exec_stmt (as_principal user_projects_policy p)
    (user_projects_constraints d t) t s.

(** ** The requests of the client *)

(** handleEnroll (CourseList): without a profile nothing is sent;
    otherwise insert({student_id: profile.id, course_id: courseId}) as the
    signed-in user.  [id] and [now] are the defaults the store fills in. *)
Definition handleEnroll (profile_id : option N) (courseId : N)
    (id : N) (now : Z) (g : fresh) : option (N * request) :=
  match profile_id with
  | None => None
  | Some me =>
      Some (me, on_enrollments
                  (INSERT id
                     {| enrollments.student_id := Some me;
                        enrollments.course_id := Some courseId;
                        enrollments.enrolled_at := Some now;
                        enrollments.completed_at := None;
                        enrollments.is_completed := Some false |}) g)
  end.

(** signUp (useAuth): insert({id: data.user.id, email, ...userData});
    role, xp_points, level_number and is_verified have their defaults. *)
Definition signUp (user_id : N) (email : string) (year_of_study : Z)
    : N * request :=
  (user_id, on_users
              (INSERT user_id
                 {| users.email := email;
                    users.year_of_study := Some year_of_study;
                    users.role := Some student;
                    users.xp_points := Some 0;
                    users.level_number := Some 1;
                    users.is_verified := Some false |})).

(** What the store answers to a request of the client; no request, no
    change. *)
Definition send (d : db) (r : option (N * request)) : result db :=
  match r with
  | None => Ok d
  | Some (me, q) => exec d (authenticated me) q
  end.

(** ** learning_communities *)

Module learning_communities.
(** name and category are NOT NULL texts. *)
Record row := Row {
  created_by : option N;
  course_id : option N;
  is_active : option bool
}.
End learning_communities.

(** "Anyone can read active communities", "2nd year+ students can create
    communities", "Community creators can update their communities". *)
Definition learning_communities_policy (d : db) (me : N)
    : policy learning_communities.row :=
  {| select_using := λ _ c,
       holds (eq_col (learning_communities.is_active c) (Some true));
     insert_check := λ _ _,
       exists_row
         (λ id u, holds (tv_and (eq_col (Some id) (Some me))
                                (ge_col (users.year_of_study u) (Some 2))))
         (rls_select (users_policy d me) (users d));
     update_using := λ _ c,
       holds (eq_col (learning_communities.created_by c) (Some me));
     update_check := λ _ c,
       holds (eq_col (learning_communities.created_by c) (Some me));
     delete_using := denied |}.

Definition learning_communities_constraints (d : db)
    (t : gmap N learning_communities.row) (fresh_key : bool) (k : N)
    (r : learning_communities.row) : result () :=
  _ ← key_check fresh_key k t;
  _ ← references (learning_communities.created_by r) (users d);
  references (learning_communities.course_id r) (courses d).

Definition exec_learning_communities (d : db)
    (t : gmap N learning_communities.row) (p : principal)
    (s : stmt learning_communities.row)
    : result (gmap N learning_communities.row) :=
  exec_stmt (as_principal (learning_communities_policy d) p)
    (learning_communities_constraints d t) t s.

(** ** fetchCourses of CourseList *)

(** The courses the list shows to [me], for a profile that is there:
    .from('courses').eq('is_active', true), read under the policy.  The
    order of the list is left out. *)
Definition coursesData (d : db) (me : N) : gmap N courses.row :=
  filter (λ kv, holds (eq_col (courses.is_active kv.2) (Some true)) = true)
         (read courses_policy courses d (authenticated me)).

(** .from('enrollments').select('course_id').eq('student_id', profile.id)
    .in('course_id', courseIds), and the Set of its course_id values. *)
Definition enrolledCourseIds (d : db) (me : N) : gset N :=
  let courseIds := dom (coursesData d me) in
  let enrollmentData :=
    filter (λ kv : N * enrollments.row,
              holds (eq_col (enrollments.student_id kv.2) (Some me))
              && match enrollments.course_id kv.2 with
                 | Some c => bool_decide (c ∈ courseIds)
                 | None => false
                 end = true)
           (read enrollments_policy enrollments d (authenticated me)) in
  list_to_set (omap (λ kv, enrollments.course_id kv.2)
                    (map_to_list enrollmentData)).

(** coursesData.map(course => ({...course, is_enrolled:
    enrolledCourseIds.has(course.id)})) *)
Definition coursesWithEnrollment (d : db) (me : N)
    : gmap N (courses.row * bool) :=
  map_imap (λ id course, Some (course, bool_decide (id ∈ enrolledCourseIds d me)))
           (coursesData d me).

(** ** The client: Sidebar, App, Dashboard *)

Module Sidebar.
Record item := Item {
  id : string; label : string; icon : string; color : string
}.

(** Array.prototype.splice(start, 0, ...items) *)
Definition splice {A} (start : nat) (items l : list A) : list A :=
  take start l ++ items ++ drop start l.

(** The menu for a profile with the given role (null when the column is
    NULL). *)
Definition menuItems (role : option role_name) : list item :=
  let m0 :=
    [ Item "dashboard" "Dashboard" "Home" "text-blue-600";
      Item "courses" "Explore Courses" "BookOpen" "text-green-600";
      Item "my-courses" "My Courses" "User" "text-purple-600";
      Item "achievements" "Achievements" "Award" "text-yellow-600";
      Item "reviews" "Reviews" "Star" "text-orange-600" ] in
  let m1 :=
    if bool_decide (role = Some mentor) || bool_decide (role = Some admin)
    then splice 3
           [ Item "create-course" "Create Course" "PlusCircle" "text-indigo-600";
             Item "my-students" "My Students" "Users" "text-teal-600" ] m0
    else m0 in
  let m2 :=
    if bool_decide (role = Some admin)
    then m1 ++ [ Item "analytics" "Analytics" "BarChart3" "text-pink-600";
                 Item "mentor-requests" "Mentor Requests" "Crown" "text-red-600" ]
    else m1 in
  m2 ++ [ Item "settings" "Settings" "Settings" "text-gray-600" ].
End Sidebar.

Module App.
Inductive view :=
| Dashboard | CourseList | CreateCourse | UserProfile | LearningCommunity
| ComingSoon (title : string).

(** renderContent: the switch on activeView; [None] is the default
    branch, which also renders the dashboard. *)
Definition case_of (activeView : string) : option view :=
  if String.eqb activeView "dashboard" then Some Dashboard
  else if String.eqb activeView "courses" then Some CourseList
  else if String.eqb activeView "create-course" then Some CreateCourse
  else if String.eqb activeView "profile" then Some UserProfile
  else if String.eqb activeView "community" then Some LearningCommunity
  else if String.eqb activeView "my-courses"
    then Some (ComingSoon "My Courses")
  else if String.eqb activeView "achievements"
    then Some (ComingSoon "Achievements")
  else if String.eqb activeView "reviews" then Some (ComingSoon "Reviews")
  else if String.eqb activeView "my-students"
    then Some (ComingSoon "My Students")
  else if String.eqb activeView "analytics"
    then Some (ComingSoon "Analytics")
  else if String.eqb activeView "mentor-requests"
    then Some (ComingSoon "Mentor Requests")
  else if String.eqb activeView "settings" then Some (ComingSoon "Settings")
  else None.

Definition renderContent (activeView : string) : view :=
  default Dashboard (case_of activeView).
End App.

(** A row of [courses] as a client sends it, with the columns that the
    rows of the model leave out.  [number] is the type of the numbers of
    the client; a field that may be null is an [option]. *)
Module courses_json.
Record row {number : Type} := Row {
  mentor_id : N;
  title : string;
  description : string;
  domain : string;
  price : number;
  duration_hours : number;
  max_students : option number;
  session_link : string;
  course_image : option string
}.
Arguments row : clear implicits.
End courses_json.

(** The INSERT of such a row by the store.  The numbers are JavaScript
    numbers sent as JSON, and how they are read into the columns
      price numeric(10,2), duration_hours integer NOT NULL,
      max_students integer
    is not code of the repository: the two conversions are parameters.
    [to_integer] gives the integer read, NULL for a number that is sent as
    null, or the error raised; [to_numeric_10_2] gives the error raised, if
    any.  A conversion that fails fails the statement before any policy is
    looked at; NOT NULL is checked after the policy, with the other
    constraints.  [is_active] has its default, true. *)
Section courses_json_insert.
Context {number : Type}.
Variable to_numeric_10_2 : number → result ().
Variable to_integer : number → result (option Z).

(** The conversions; the result is the duration_hours read. *)
Definition convert (b : courses_json.row number) : result (option Z) :=
  _ ← to_numeric_10_2 (courses_json.price b);
  hours ← to_integer (courses_json.duration_hours b);
  _ ← match courses_json.max_students b with
      | Some n => to_integer n
      | None => Ok None
      end;
  Ok hours.

Definition insert_courses_json (d : db) (p : principal) (id : N)
    (b : courses_json.row number) : result db :=
  hours ← convert b;
  t ← rls_insert (as_principal (courses_policy d) p)
        (λ k r, _ ← guard (bool_decide (is_Some hours)) not_null_violation;
                courses_constraints true d k r)
        id
        {| courses.mentor_id := Some (courses_json.mentor_id b);
           courses.is_active := Some true |}
        (courses d);
  Ok (with_courses t d).

End courses_json_insert.

Module CreateCourse.
(** The guard before the form of CreateCourse:
      if (role !== 'mentor' && role !== 'admin')
        if (year_of_study < 2) return <2nd Year+ Required>
    [null < 2] is true in JavaScript, so a NULL year is turned away. *)
Definition shows_form (role : option role_name) (year_of_study : option Z)
    : bool :=
  if bool_decide (role ≠ Some mentor) && bool_decide (role ≠ Some admin)
  then
    if match year_of_study with
       | Some y => bool_decide (y < 2)
       | None => true
       end
    then false else true
  else true.

(** The state of the form.  [price] and [duration_hours] are numbers,
    [max_students] is the text of its field. *)
Record formData {number : Type} := FormData {
  title : string;
  description : string;
  domain : string;
  price : number;
  duration_hours : number;
  max_students : string;
  session_link : string;
  course_image : string
}.
Arguments formData : clear implicits.

(** A string is true in a condition when it is not empty. *)
Definition truthy (s : string) : bool := negb (String.eqb s "").

Section handleSubmit.
Context {number : Type}.
(** parseInt of JavaScript. *)
Variable parseInt : string → number.

(** The argument of insert():
      mentor_id: profile.id, title, description, domain, price,
      duration_hours,
      max_students: formData.max_students
                      ? parseInt(formData.max_students) : null,
      session_link, course_image: formData.course_image || null *)
Definition values (profile_id : N) (f : formData number)
    : courses_json.row number :=
  {| courses_json.mentor_id := profile_id;
     courses_json.title := title f;
     courses_json.description := description f;
     courses_json.domain := domain f;
     courses_json.price := price f;
     courses_json.duration_hours := duration_hours f;
     courses_json.max_students :=
       if truthy (max_students f) then Some (parseInt (max_students f))
       else None;
     courses_json.session_link := session_link f;
     courses_json.course_image :=
       if truthy (course_image f) then Some (course_image f) else None |}.

(** handleSubmit: if (!profile) return; otherwise the insert, as the
    signed-in user. *)
Definition handleSubmit (profile_id : option N) (f : formData number)
    : option (N * courses_json.row number) :=
  match profile_id with
  | None => None
  | Some me => Some (me, values me f)
  end.

Variable to_numeric_10_2 : number → result ().
Variable to_integer : number → result (option Z).

(** What the store answers; [id] is the default it draws for the key.  No
    request, no change. *)
Definition submit (d : db) (id : N)
    (r : option (N * courses_json.row number)) : result db :=
  match r with
  | None => Ok d
  | Some (me, b) =>
      insert_courses_json to_numeric_10_2 to_integer d (authenticated me) id b
  end.

End handleSubmit.
End CreateCourse.

Module Dashboard.
(** const nextLevelXP = (profile.level_number * 100) - profile.xp_points
    Both are integers well inside the exact range of a JS number. *)
Definition nextLevelXP (level_number xp_points : Z) : Z :=
  level_number * 100 - xp_points.
End Dashboard.

(** ** More sample data *)

Module more_samples.

(** The store after the owner has completed enrollment 20. *)
Definition completed_store : db :=
  run sample.store owner
    (on_enrollments (UPDATE 20%N sample.set_completed) sample.draw).

(** A second draw: a new key, and a uuid with the same first eight
    characters as the first, in capitals. *)
Definition colliding_draw : fresh :=
  {| certificate_key := 31;
     certificate_uuid := "3F2A9C1E-1111-4222-8333-444455556666" |}.

(** A third draw, unlike the first. *)
Definition second_draw : fresh :=
  {| certificate_key := 32;
     certificate_uuid := "a1b2c3d4-5e6f-4789-8abc-def012345678" |}.

(** ann two points below the largest integer. *)
Definition rich_store : db :=
  with_users
    (<[sample.ann := sample.profile "ann@campus.example" student 2147483645 1]>
       (users sample.store))
    sample.store.

Definition talk : sessions.row :=
  {| sessions.course_id := Some sample.rocq_course;
     sessions.mentor_id := Some sample.mia;
     sessions.session_date := Some 1754400000;
     sessions.duration_minutes := Some 60;
     sessions.is_completed := Some false;
     sessions.completed_at := None |}.

(** sam is a student in the third year. *)
Definition sam : N := 4.
Definition sam_profile : users.row :=
  {| users.email := "sam@campus.example"; users.year_of_study := Some 3;
     users.role := Some student; users.xp_points := Some 0;
     users.level_number := Some 1; users.is_verified := Some false |}.
Definition senior_store : db :=
  with_users (<[sam := sam_profile]> (users sample.store)) sample.store.

(** A form whose numbers are whole: a course of 12 hours for 499, the
    field max_students left empty.  With whole numbers of a few digits for
    [number], the conversions are range checks; [parseInt] is not called
    on this form. *)
Definition form : CreateCourse.formData Z :=
  {| CreateCourse.title := "Rocq for beginners";
     CreateCourse.description := "Proofs, from the first lemma on";
     CreateCourse.domain := "Python";
     CreateCourse.price := 499;
     CreateCourse.duration_hours := 12;
     CreateCourse.max_students := "";
     CreateCourse.session_link := "";
     CreateCourse.course_image := "" |}.
Definition whole_to_numeric_10_2 (n : Z) : result () :=
  guard (bool_decide (- 10 ^ 8 < n < 10 ^ 8)) numeric_value_out_of_range.
Definition whole_to_integer (n : Z) : result (option Z) := int4 (Some n).
Definition no_text (s : string) : Z := 0.

(** The same course for 100000000. *)
Definition expensive_form : CreateCourse.formData Z :=
  {| CreateCourse.title := "Rocq for beginners";
     CreateCourse.description := "Proofs, from the first lemma on";
     CreateCourse.domain := "Python";
     CreateCourse.price := 100000000;
     CreateCourse.duration_hours := 12;
     CreateCourse.max_students := "";
     CreateCourse.session_link := "";
     CreateCourse.course_image := "" |}.

End more_samples.

(** * Properties *)

(** ** The result monad and the generic statements *)

Lemma bind_Ok {A B} (m : result A) (f : A → result B) (b : B) :
  m ≫= f = Ok b ↔ ∃ a, m = Ok a ∧ f a = Ok b.
Proof.
  destruct m as [a|e]; simpl; split.
  - intros H. by exists a.
  - by intros (a' & [= <-] & H).
  - intros [=].
  - by intros (a' & [=] & _).
Qed.

Lemma guard_Ok (b : bool) (e : error) (u : ()) : guard b e = Ok u ↔ b = true.
Proof. destruct b, u; simpl; split; congruence. Qed.

Section rls_facts.
Context {Row : Type}.
Implicit Types (pol : policy Row) (t : gmap N Row) (k : N) (r : Row).

Lemma exists_row_true (c : N → Row → bool) t :
  exists_row c t = true ↔ ∃ k r, t !! k = Some r ∧ c k r = true.
Proof.
  unfold exists_row. rewrite existsb_exists. split.
  - intros ([k r] & Hin & Hc). exists k, r. split; [|done].
    apply elem_of_map_to_list. by apply list_elem_of_In.
  - intros (k & r & Hl & Hc). exists (k, r). split; [|done].
    apply list_elem_of_In. by apply elem_of_map_to_list.
Qed.

Lemma exists_row_false (c : N → Row → bool) t :
  exists_row c t = false ↔ ∀ k r, t !! k = Some r → c k r = false.
Proof.
  split.
  - intros H k r Hl. destruct (c k r) eqn:Hc; [|done].
    assert (exists_row c t = true) by (apply exists_row_true; eauto).
    congruence.
  - intros H. destruct (exists_row c t) eqn:He; [|done].
    apply exists_row_true in He as (k & r & Hl & Hc).
    rewrite (H k r Hl) in Hc. done.
Qed.

Lemma rls_select_lookup pol t k r :
  rls_select pol t !! k = Some r ↔ t !! k = Some r ∧ select_using pol k r = true.
Proof. unfold rls_select. by rewrite map_lookup_filter_Some. Qed.

Lemma rls_select_bypass t : rls_select bypass t = t.
Proof.
  apply map_eq. intros k. apply option_eq. intros r.
  rewrite rls_select_lookup. simpl. naive_solver.
Qed.

Lemma rls_insert_Ok pol chk k r t t' :
  rls_insert pol chk k r t = Ok t' ↔
  insert_check pol k r = true ∧ chk k r = Ok () ∧ t' = <[k := r]> t.
Proof.
  unfold rls_insert. destruct (insert_check pol k r); [|naive_solver].
  destruct (chk k r) as [[]|e]; simpl; naive_solver.
Qed.

(** What an UPDATE that returned did: nothing, or it replaced one row
    that the principal could see and update. *)
Lemma rls_update_Ok pol chk k set t hit t' :
  rls_update pol chk k set t = Ok (hit, t') →
  (hit = None ∧ t' = t ∧
     ∀ old, t !! k = Some old →
            select_using pol k old && update_using pol k old = false)
  ∨ (∃ old new, hit = Some (old, new) ∧ t' = <[k := new]> t ∧
       t !! k = Some old ∧ set old = Ok new ∧
       select_using pol k old = true ∧ update_using pol k old = true ∧
       update_check pol k new = true ∧ select_using pol k new = true ∧
       chk k new = Ok ()).
Proof.
  unfold rls_update. destruct (t !! k) as [old|] eqn:Hk.
  - destruct (select_using pol k old && update_using pol k old) eqn:Hu.
    + apply andb_true_iff in Hu as [Hs Hu].
      destruct (set old) as [new|e] eqn:Hset; simpl; [|done].
      destruct (update_check pol k new && select_using pol k new) eqn:Hc;
        [|done].
      apply andb_true_iff in Hc as [Hc Hs'].
      destruct (chk k new) as [[]|e] eqn:Hchk; simpl; [|done].
      intros [= <- <-]. right. exists old, new. naive_solver.
    + intros [= <- <-]. left. naive_solver.
  - intros [= <- <-]. left. naive_solver.
Qed.

Lemma rls_delete_denied pol k t :
  (∀ r, delete_using pol k r = false) → rls_delete pol k t = (None, t).
Proof.
  intros H. unfold rls_delete. destruct (t !! k) as [old|]; [|done].
  by rewrite H, andb_false_r.
Qed.

End rls_facts.

Lemma with_users_id d : with_users (users d) d = d.
Proof. by destruct d. Qed.
Lemma with_courses_id d : with_courses (courses d) d = d.
Proof. by destruct d. Qed.
Lemma with_enrollments_id d : with_enrollments (enrollments d) d = d.
Proof. by destruct d. Qed.
Lemma with_reviews_id d : with_reviews (reviews d) d = d.
Proof. by destruct d. Qed.
Lemma with_certificates_id d : with_certificates (certificates d) d = d.
Proof. by destruct d. Qed.
Lemma with_mentor_requests_id d : with_mentor_requests (mentor_requests d) d = d.
Proof. by destruct d. Qed.

(** ** The completion trigger *)

Lemma edge_true (new old : option bool) :
  holds (tv_and (eq_col new (Some true)) (eq_col old (Some false))) = true
  ↔ old = Some false ∧ new = Some true.
Proof. destruct new as [[]|], old as [[]|]; simpl; naive_solver. Qed.

Lemma award_completion_xp_off_edge p OLD NEW g d :
  ¬ (enrollments.is_completed OLD = Some false
     ∧ enrollments.is_completed NEW = Some true) →
  award_completion_xp p OLD NEW g d = Ok d.
Proof.
  intros H. unfold award_completion_xp.
  destruct (holds _) eqn:He; [|done]. by apply edge_true in He.
Qed.

Lemma award_completion_xp_on_edge p OLD NEW g d :
  enrollments.is_completed OLD = Some false →
  enrollments.is_completed NEW = Some true →
  award_completion_xp p OLD NEW g d =
    award_update p (enrollments.student_id NEW) d
      ≫= generate_certificate p NEW g.
Proof.
  intros Ho Hn. unfold award_completion_xp.
  destruct (holds _) eqn:He; [done|].
  assert (holds (tv_and (eq_col (enrollments.is_completed NEW) (Some true))
                        (eq_col (enrollments.is_completed OLD) (Some false)))
          = true) by by apply edge_true.
  congruence.
Qed.

(** What a returned UPDATE of an enrollment did: it skipped the row, or it
    stored the new row and ran the trigger on it. *)
Lemma update_enrollments_Ok d p k set g d' :
  exec d p (on_enrollments (UPDATE k set) g) = Ok d' →
  (d' = d ∧
     ∀ old, enrollments d !! k = Some old →
       let pol := as_principal (enrollments_policy d) p in
       select_using pol k old && update_using pol k old = false)
  ∨ (∃ old new,
       enrollments d !! k = Some old ∧ set old = Ok new ∧
       update_check (as_principal (enrollments_policy d) p) k new = true ∧
       enrollments_constraints false d k new = Ok () ∧
       award_completion_xp p old new g
         (with_enrollments (<[k := new]> (enrollments d)) d) = Ok d').
Proof.
  simpl. intros H. apply bind_Ok in H as ([hit t] & Hu & H).
  apply rls_update_Ok in Hu
    as [(-> & -> & Hd)|(old & new & -> & -> & Hk & Hs & _ & _ & Hc & _ & Hchk)].
  - left. rewrite with_enrollments_id in H. naive_solver.
  - right. exists old, new. naive_solver.
Qed.

Lemma award_update_frame p s d d' :
  award_update p s d = Ok d' →
  courses d' = courses d ∧ enrollments d' = enrollments d ∧
  reviews d' = reviews d ∧ certificates d' = certificates d ∧
  mentor_requests d' = mentor_requests d.
Proof.
  unfold award_update. destruct s as [sid|]; [|by intros [= <-]].
  intros H. apply bind_Ok in H as ([hit t] & _ & [= <-]). done.
Qed.

Lemma generate_certificate_frame p NEW g d d' :
  generate_certificate p NEW g d = Ok d' →
  users d' = users d ∧ courses d' = courses d ∧
  enrollments d' = enrollments d ∧ reviews d' = reviews d ∧
  mentor_requests d' = mentor_requests d.
Proof.
  unfold generate_certificate.
  destruct (enrollments.course_id NEW) as [cid|]; [|by intros [= <-]].
  destruct (_ !! cid) as [c|]; [|by intros [= <-]].
  intros H. apply bind_Ok in H as (t & _ & [= <-]). done.
Qed.

(** The trigger never touches the enrollment it fired for. *)
Lemma award_completion_xp_frame p OLD NEW g d d' :
  award_completion_xp p OLD NEW g d = Ok d' →
  courses d' = courses d ∧ enrollments d' = enrollments d ∧
  reviews d' = reviews d ∧ mentor_requests d' = mentor_requests d.
Proof.
  unfold award_completion_xp. destruct (holds _); [|by intros [= <-]].
  intros H. apply bind_Ok in H as (d1 & H1 & H2).
  apply award_update_frame in H1. apply generate_certificate_frame in H2.
  naive_solver congruence.
Qed.

(** C3: completing an enrollment whose [is_completed] is already true
    awards nothing: whatever the UPDATE sets, the users (their xp_points and
    level_number) and the certificates are as before.  And the trigger acts
    only on the edge: when OLD.is_completed is not false or NEW.is_completed
    is not true it returns the database unchanged. *)
Theorem completion_only_on_edge :
  (∀ d p k set g old,
     enrollments d !! k = Some old →
     enrollments.is_completed old = Some true →
     let d' := run d p (on_enrollments (UPDATE k set) g) in
     users d' = users d ∧ certificates d' = certificates d)
  ∧ (∀ p OLD NEW g d,
       ¬ (enrollments.is_completed OLD = Some false
          ∧ enrollments.is_completed NEW = Some true) →
       award_completion_xp p OLD NEW g d = Ok d).
Proof.
  split; [|apply award_completion_xp_off_edge].
  intros d p k set g old Hk Hold d'. subst d'. unfold run.
  destruct (exec _ _ _) as [d'|e] eqn:He; [|done].
  apply update_enrollments_Ok in He as [[-> _]|(old' & new & Hk' & _ & _ & _ & Ht)];
    [done|].
  rewrite award_completion_xp_off_edge in Ht by naive_solver.
  by injection Ht as <-.
Qed.

(** ** Conditions *)

Lemma holds_and (a b : tv) :
  holds (tv_and a b) = true ↔ holds a = true ∧ holds b = true.
Proof. destruct a as [[]|], b as [[]|]; simpl; naive_solver. Qed.

Lemma holds_or (a b : tv) :
  holds (tv_or a b) = true ↔ holds a = true ∨ holds b = true.
Proof. destruct a as [[]|], b as [[]|]; simpl; naive_solver. Qed.

Lemma holds_eq_col `{EqDecision A} (a b : option A) :
  holds (eq_col a b) = true ↔ ∃ x, a = Some x ∧ b = Some x.
Proof.
  destruct a as [x|], b as [y|]; simpl; try naive_solver.
  case_bool_decide; naive_solver.
Qed.

Lemma holds_eq_col_Some `{EqDecision A} (a : option A) (y : A) :
  holds (eq_col a (Some y)) = true ↔ a = Some y.
Proof. rewrite holds_eq_col. naive_solver. Qed.

Lemma holds_Some (b : bool) : holds (Some b) = b.
Proof. by destruct b. Qed.

(** The sub-query of the enrollment policies finds the course of the row
    when the course is active and taught by [me]. *)
Lemma mentor_of_course_true d me e :
  mentor_of_course d me e = true ↔
  ∃ cid c, enrollments.course_id e = Some cid ∧ courses d !! cid = Some c ∧
           courses.is_active c = Some true ∧ courses.mentor_id c = Some me.
Proof.
  unfold mentor_of_course. rewrite exists_row_true. split.
  - intros (cid & c & Hl & Hc). apply rls_select_lookup in Hl as [Hl Hs].
    simpl in Hs. apply holds_eq_col_Some in Hs.
    apply holds_and in Hc as [Hid Hm].
    apply holds_eq_col in Hid as (x & [= <-] & Hid).
    apply holds_eq_col_Some in Hm. naive_solver.
  - intros (cid & c & He & Hl & Ha & Hm). exists cid, c. split.
    + apply rls_select_lookup. split; [done|]. simpl.
      by apply holds_eq_col_Some.
    + apply holds_and. split.
      * apply holds_eq_col. eauto.
      * by apply holds_eq_col_Some.
Qed.

(** A signed-in user cannot insert a certificate, so for such a user the
    trigger's INSERT fails whenever its SELECT finds the course. *)
Lemma generate_certificate_authenticated me NEW g d d' :
  generate_certificate (authenticated me) NEW g d = Ok d' →
  d' = d ∧
  ∀ cid c, enrollments.course_id NEW = Some cid →
           courses d !! cid = Some c → courses.is_active c ≠ Some true.
Proof.
  unfold generate_certificate.
  destruct (enrollments.course_id NEW) as [cid|]; [|by intros [= <-]].
  destruct (_ !! cid) as [c|] eqn:Hc; [done|].
  intros [= <-]. split; [done|]. intros ? c' [= <-] Hl Ha.
  assert (rls_select (as_principal (courses_policy d) (authenticated me))
            (courses d) !! cid = Some c') as Hv.
  { apply rls_select_lookup. split; [done|]. simpl.
    by apply holds_eq_col_Some. }
  congruence.
Qed.

Lemma generate_certificate_owner NEW g d d' cid c :
  generate_certificate owner NEW g d = Ok d' →
  enrollments.course_id NEW = Some cid →
  courses d !! cid = Some c →
  certificates d !! certificate_key g = None ∧
  d' = with_certificates
         (<[certificate_key g :=
              {| certificates.student_id := enrollments.student_id NEW;
                 certificates.course_id := Some cid;
                 certificates.mentor_id := courses.mentor_id c;
                 certificates.certificate_id := certificate_text g |}]>
            (certificates d)) d.
Proof.
  unfold generate_certificate. intros H Hcid Hc. rewrite Hcid in H.
  simpl in H. rewrite rls_select_bypass, Hc in H.
  apply bind_Ok in H as (t & Hi & [= <-]).
  apply rls_insert_Ok in Hi as (_ & Hchk & ->). split; [|done].
  unfold certificates_constraints in Hchk.
  apply bind_Ok in Hchk as ([] & Hpk & _). simpl in Hpk.
  apply guard_Ok in Hpk. by apply bool_decide_eq_true in Hpk.
Qed.

Lemma generate_certificate_no_course p NEW g d :
  enrollments.course_id NEW = None →
  generate_certificate p NEW g d = Ok d.
Proof. intros H. unfold generate_certificate. by rewrite H. Qed.

(** The SET clause of the trigger, on a row whose xp_points is not NULL. *)
Lemma award_set_Ok u u' :
  award_set u = Ok u' →
  users.email u' = users.email u ∧
  users.year_of_study u' = users.year_of_study u ∧
  users.role u' = users.role u ∧
  users.is_verified u' = users.is_verified u ∧
  users.xp_points u' = num_add (users.xp_points u) (Some 50) ∧
  users.level_number u' =
    match users.xp_points u with
    | Some x => Some ((x + 50) ÷ 100 + 1)
    | None => None
    end.
Proof.
  unfold award_set. destruct (users.xp_points u) as [x|]; simpl.
  - destruct (bool_decide (int4_min ≤ x + 50 ≤ int4_max)); simpl; [|done].
    destruct (bool_decide (int4_min ≤ (x + 50) ÷ 100 ≤ int4_max)); simpl; [|done].
    destruct (bool_decide (int4_min ≤ (x + 50) ÷ 100 + 1 ≤ int4_max)); simpl;
      [|done].
    by intros [= <-].
  - by intros [= <-].
Qed.

Lemma award_update_owner sid u d d' :
  award_update owner (Some sid) d = Ok d' →
  users d !! sid = Some u →
  ∃ u', award_set u = Ok u' ∧ d' = with_users (<[sid := u']> (users d)) d.
Proof.
  unfold award_update. intros H Hu.
  apply bind_Ok in H as ([hit t] & H & [= <-]).
  apply rls_update_Ok in H as [(_ & _ & Hd)|(old & new & _ & -> & Hk & Hs & _)].
  - by specialize (Hd u Hu).
  - exists new. naive_solver.
Qed.

(** The UPDATE of the trigger changes nothing, or the one user it names,
    by its SET clause. *)
Lemma award_update_Ok p s d d' :
  award_update p s d = Ok d' →
  d' = d ∨ ∃ sid u u', s = Some sid ∧ users d !! sid = Some u ∧
                       award_set u = Ok u' ∧
                       d' = with_users (<[sid := u']> (users d)) d.
Proof.
  unfold award_update. destruct s as [sid|]; [|intros [= <-]; by left].
  intros H. apply bind_Ok in H as ([hit t] & H & [= <-]).
  apply rls_update_Ok in H as [(_ & -> & _)|(old & new & _ & -> & Hk & Hs & _)].
  - left. apply with_users_id.
  - right. exists sid, old, new. naive_solver.
Qed.

(** A signed-in user can flip no enrollment from false to true: the policy
    on the new row needs the course to be visible, and then the trigger's
    INSERT into [certificates], which has no INSERT policy, fails the whole
    statement.  Only the owner of the tables completes an enrollment. *)
Lemma authenticated_cannot_complete d me k set g d' old new :
  exec d (authenticated me) (on_enrollments (UPDATE k set) g) = Ok d' →
  enrollments d !! k = Some old →
  enrollments d' !! k = Some new →
  enrollments.is_completed old = Some false →
  enrollments.is_completed new = Some true →
  False.
Proof.
  intros He Hk Hk' Ho Hn.
  apply update_enrollments_Ok in He
    as [[-> _]|(old' & new' & Hko & Hset & Hc & _ & Ht)]; [congruence|].
  assert (old' = old) as -> by congruence.
  pose proof (award_completion_xp_frame _ _ _ _ _ _ Ht) as (_ & Hen & _).
  simpl in Hen. rewrite Hen, lookup_insert_eq in Hk'.
  assert (new' = new) as -> by congruence.
  rewrite award_completion_xp_on_edge in Ht by done.
  apply bind_Ok in Ht as (d2 & Hu & Hg).
  apply award_update_frame in Hu as (Hco & _).
  apply generate_certificate_authenticated in Hg as [_ Hg].
  simpl in Hc. apply mentor_of_course_true in Hc as (cid & c & Hcid & Hl & Ha & _).
  eapply Hg; [done| |done]. by rewrite Hco.
Qed.

(** C5: a user with 80 xp_points at level 1 whose enrollment is flipped
    from not completed to completed, the course being there, has 130
    xp_points and level 2 afterwards; no other user changes; and the
    certificates are those of before plus one row under a new key, with the
    user as student_id and the mentor_id of the course. *)
Theorem completion_80_xp_gives_130_level_2
    d p k set g d' old new sid cid u c :
  enrollments d !! k = Some old →
  enrollments.is_completed old = Some false →
  exec d p (on_enrollments (UPDATE k set) g) = Ok d' →
  enrollments d' !! k = Some new →
  enrollments.is_completed new = Some true →
  enrollments.student_id new = Some sid →
  enrollments.course_id new = Some cid →
  users d !! sid = Some u →
  users.xp_points u = Some 80 →
  users.level_number u = Some 1 →
  courses d !! cid = Some c →
  users d' =
    <[sid := {| users.email := users.email u;
                users.year_of_study := users.year_of_study u;
                users.role := users.role u;
                users.xp_points := Some 130;
                users.level_number := Some 2;
                users.is_verified := users.is_verified u |}]> (users d)
  ∧ certificates d !! certificate_key g = None
  ∧ ∃ cert,
      certificates d' = <[certificate_key g := cert]> (certificates d) ∧
      certificates.student_id cert = Some sid ∧
      certificates.course_id cert = Some cid ∧
      certificates.mentor_id cert = courses.mentor_id c.
Proof.
  intros Hk Ho He Hk' Hn Hsid Hcid Hu Hxp Hlvl Hc.
  destruct p as [me|].
  { destruct (authenticated_cannot_complete _ _ _ _ _ _ _ _ He Hk Hk' Ho Hn). }
  apply update_enrollments_Ok in He
    as [[-> _]|(old' & new' & Hko & Hset & _ & _ & Ht)]; [congruence|].
  assert (old' = old) as -> by congruence.
  pose proof (award_completion_xp_frame _ _ _ _ _ _ Ht) as (_ & Hen & _).
  simpl in Hen. rewrite Hen, lookup_insert_eq in Hk'.
  assert (new' = new) as -> by congruence.
  rewrite award_completion_xp_on_edge in Ht by done.
  apply bind_Ok in Ht as (d2 & Hau & Hg). rewrite Hsid in Hau.
  eapply award_update_owner in Hau as (u' & Hset' & ->); [|exact Hu].
  eapply generate_certificate_owner in Hg as [Hfree ->]; [|done|exact Hc].
  apply award_set_Ok in Hset' as (He1 & He2 & He3 & He4 & He5 & He6).
  rewrite Hxp in He5, He6. simpl in *.
  split; [|split; [done|]].
  - f_equal. destruct u'; simpl in *. by subst.
  - eexists. split; [done|]. simpl. by rewrite Hsid.
Qed.

Lemma completion_only_on_edge_witness :
  let d' := run sample.store owner
              (on_enrollments (UPDATE 22%N sample.set_completed) sample.draw) in
  users d' = users sample.store ∧ certificates d' = certificates sample.store.
Proof.
  apply (proj1 completion_only_on_edge sample.store owner 22%N
           sample.set_completed sample.draw
           (sample.enrolled sample.bob (Some sample.rocq_course) true));
    reflexivity.
Defined.

Lemma completion_80_xp_gives_130_level_2_witness :
  let d' := run sample.store owner
              (on_enrollments (UPDATE 20%N sample.set_completed) sample.draw) in
  users d' =
    <[sample.ann := sample.profile "ann@campus.example" student 130 2]>
      (users sample.store)
  ∧ certificates sample.store !! 30%N = None
  ∧ ∃ cert,
      certificates d' = <[30%N := cert]> (certificates sample.store) ∧
      certificates.student_id cert = Some sample.ann ∧
      certificates.course_id cert = Some sample.rocq_course ∧
      certificates.mentor_id cert = Some sample.mia.
Proof.
  apply (completion_80_xp_gives_130_level_2 sample.store owner 20%N
           sample.set_completed sample.draw
           (run sample.store owner
              (on_enrollments (UPDATE 20%N sample.set_completed) sample.draw))
           (sample.enrolled sample.ann (Some sample.rocq_course) false)
           (sample.enrolled sample.ann (Some sample.rocq_course) true)
           sample.ann sample.rocq_course
           (sample.profile "ann@campus.example" student 80 1)
           {| courses.mentor_id := Some sample.mia;
              courses.is_active := Some true |});
    vm_compute; reflexivity.
Defined.

(** ** Levels *)

Lemma quot_100_level (x : Z) : 0 ≤ x → x ÷ 100 + 1 = level_of x.
Proof.
  intros Hx. unfold level_of. rewrite Z.quot_div_nonneg by lia.
  pose proof (Z.div_pos x 100). lia.
Qed.

Lemma GREATEST_quot_100_level (x : Z) : Z.max 1 (x ÷ 100 + 1) = level_of x.
Proof.
  destruct (decide (0 ≤ x)) as [Hx|Hx].
  - rewrite quot_100_level by done. unfold level_of. lia.
  - unfold level_of.
    assert (x ÷ 100 ≤ 0) by (Z.quot_rem_to_equations; lia).
    assert (x / 100 < 0) by (Z.div_mod_to_equations; lia).
    lia.
Qed.

Lemma calculate_level_int4 (x : Z) :
  int4_min ≤ x ≤ int4_max → calculate_level (Some x) = Ok (Some (level_of x)).
Proof.
  intros Hx. unfold calculate_level, int4_min, int4_max in *. simpl.
  assert (-21474836 ≤ x ÷ 100 ≤ 21474836) as Hq.
  { Z.quot_rem_to_equations. lia. }
  rewrite bool_decide_eq_true_2 by (unfold int4_min, int4_max; lia). simpl.
  rewrite bool_decide_eq_true_2 by (unfold int4_min, int4_max; lia). simpl.
  by rewrite GREATEST_quot_100_level.
Qed.

(** An UPDATE of an enrollment changes a user only through the SET clause
    of the trigger. *)
Lemma update_enrollments_users d p k set g d' sid u u' :
  exec d p (on_enrollments (UPDATE k set) g) = Ok d' →
  users d !! sid = Some u → users d' !! sid = Some u' → u' ≠ u →
  award_set u = Ok u'.
Proof.
  intros He Hu Hu' Hne.
  apply update_enrollments_Ok in He
    as [[-> _]|(old & new & _ & _ & _ & _ & Ht)]; [congruence|].
  unfold award_completion_xp in Ht.
  destruct (holds _); [|injection Ht as <-; simpl in *; congruence].
  apply bind_Ok in Ht as (d2 & Hau & Hg).
  apply generate_certificate_frame in Hg as (Hus & _). rewrite Hus in Hu'.
  apply award_update_Ok in Hau
    as [->|(sid' & v & v' & _ & Hv & Hset & ->)]; simpl in *; [congruence|].
  destruct (decide (sid' = sid)) as [->|Hd].
  - rewrite lookup_insert_eq in Hu'. congruence.
  - rewrite lookup_insert_ne in Hu' by done. congruence.
Qed.

(** C1, as amended: when a completion changes a user and leaves xp_points
    that are not NULL and not negative, the user had 50 xp_points less
    before and the new level_number is max(1, floor(xp_points / 100) + 1).
    The function
    calculate_level of the first migration returns that level for every
    32-bit xp_points.  (Writes of a user to the own profile are not
    covered: the policies let them set both columns.) *)
Theorem completion_sets_level_of_xp :
  (∀ d p k set g d' sid u u' x,
     exec d p (on_enrollments (UPDATE k set) g) = Ok d' →
     users d !! sid = Some u → users d' !! sid = Some u' → u' ≠ u →
     users.xp_points u' = Some x → 0 ≤ x →
     users.xp_points u = Some (x - 50)
     ∧ users.level_number u' = Some (level_of x))
  ∧ (∀ x, int4_min ≤ x ≤ int4_max →
          calculate_level (Some x) = Ok (Some (level_of x))).
Proof.
  split; [|apply calculate_level_int4].
  intros d p k set g d' sid u u' x He Hu Hu' Hne Hx Hpos.
  pose proof (update_enrollments_users _ _ _ _ _ _ _ _ _ He Hu Hu' Hne) as Hset.
  apply award_set_Ok in Hset as (_ & _ & _ & _ & Hxp & Hlvl).
  rewrite Hx in Hxp. destruct (users.xp_points u) as [x0|]; [|done].
  injection Hxp as ->. split; [f_equal; lia|].
  by rewrite Hlvl, quot_100_level.
Qed.

Lemma completion_sets_level_of_xp_witness :
  users.xp_points (sample.profile "ann@campus.example" student 80 1)
    = Some (130 - 50)
  ∧ users.level_number (sample.profile "ann@campus.example" student 130 2)
    = Some (level_of 130).
Proof.
  apply (proj1 completion_sets_level_of_xp sample.store owner 20%N
           sample.set_completed sample.draw
           (run sample.store owner
              (on_enrollments (UPDATE 20%N sample.set_completed) sample.draw))
           sample.ann);
    [vm_compute; reflexivity ..| |reflexivity|lia].
  intros [=].
Defined.

(** C1 as stated fails: ann may write 500 into her own xp_points; her
    level_number stays 1. *)
Lemma level_invariant_lost_by_profile_update :
  level_invariant sample.store
  ∧ ¬ level_invariant
        (run sample.store (authenticated sample.ann)
           (on_users (UPDATE sample.ann (sample.set_xp_points 500)))).
Proof.
  split.
  - intros k u x Hk. apply elem_of_map_to_list in Hk.
    remember (map_to_list (users sample.store)) as l eqn:Hl.
    vm_compute in Hl. subst l. revert x.
    repeat (apply elem_of_cons in Hk as [[= -> ->]|Hk];
            [intros x [= <-]; reflexivity|]).
    by apply not_elem_of_nil in Hk.
  - intros H.
    specialize (H sample.ann
                  (sample.profile "ann@campus.example" student 500 1) 500).
    discriminate H; reflexivity.
Qed.

(** The trigger of the schema has no GREATEST: below zero its level is not
    the one of [calculate_level]. *)
Example award_set_below_zero :
  award_set (sample.profile "ann@campus.example" student (-250) 1)
    = Ok (sample.profile "ann@campus.example" student (-200) (-1))
  ∧ calculate_level (Some (-200)) = Ok (Some 1).
Proof. split; reflexivity. Qed.

(** ** Failure of the completion *)

(** When the trigger fails for the row an UPDATE would store, nothing of the
    statement stays: not the award, not the flag. *)
Lemma trigger_failure_rolls_back d p k set g old new e :
  enrollments d !! k = Some old →
  set old = Ok new →
  award_completion_xp p old new g
    (with_enrollments (<[k := new]> (enrollments d)) d) = Err e →
  run d p (on_enrollments (UPDATE k set) g) = d.
Proof.
  intros Hk Hset Ht. unfold run.
  destruct (exec _ _ _) as [d'|e'] eqn:He; [|done].
  apply update_enrollments_Ok in He
    as [[-> _]|(old' & new' & Hk' & Hset' & _ & _ & Ht')]; [done|].
  congruence.
Qed.

(** C2, as amended: a statement that fails leaves the database as it was,
    and so does an UPDATE whose trigger fails at any step (the flag is not
    flipped either).  A missing course is no failure: when the completed
    enrollment names no course the UPDATE commits, the certificates are as
    before, and the student has the award. *)
Theorem completion_is_atomic_but_needs_no_course :
  (∀ d p q e, exec d p q = Err e → run d p q = d)
  ∧ (∀ d p k set g old new e,
       enrollments d !! k = Some old →
       set old = Ok new →
       award_completion_xp p old new g
         (with_enrollments (<[k := new]> (enrollments d)) d) = Err e →
       run d p (on_enrollments (UPDATE k set) g) = d)
  ∧ (∀ d p k set g d' old new,
       exec d p (on_enrollments (UPDATE k set) g) = Ok d' →
       enrollments d !! k = Some old →
       enrollments d' !! k = Some new →
       enrollments.is_completed old = Some false →
       enrollments.is_completed new = Some true →
       enrollments.course_id new = None →
       certificates d' = certificates d
       ∧ ∀ sid u, enrollments.student_id new = Some sid →
                  users d !! sid = Some u →
                  ∃ u', award_set u = Ok u'
                        ∧ users d' = <[sid := u']> (users d)).
Proof.
  split; [|split; [apply trigger_failure_rolls_back|]].
  { intros d p q e He. unfold run. by rewrite He. }
  intros d p k set g d' old new He Hk Hk' Ho Hn Hc.
  destruct p as [me|].
  { destruct (authenticated_cannot_complete _ _ _ _ _ _ _ _ He Hk Hk' Ho Hn). }
  apply update_enrollments_Ok in He
    as [[-> _]|(old' & new' & Hko & Hset & _ & _ & Ht)]; [congruence|].
  assert (old' = old) as -> by congruence.
  pose proof (award_completion_xp_frame _ _ _ _ _ _ Ht) as (_ & Hen & _).
  simpl in Hen. rewrite Hen, lookup_insert_eq in Hk'.
  assert (new' = new) as -> by congruence.
  rewrite award_completion_xp_on_edge in Ht by done.
  apply bind_Ok in Ht as (d2 & Hau & Hg).
  rewrite generate_certificate_no_course in Hg by done. injection Hg as <-.
  split.
  - by apply award_update_frame in Hau as (_ & _ & _ & -> & _).
  - intros sid u Hsid Hu. rewrite Hsid in Hau.
    eapply award_update_owner in Hau as (u' & Hu' & ->); [|exact Hu].
    by exists u'.
Qed.

Lemma completion_is_atomic_but_needs_no_course_witness :
  let d' := run sample.store owner
              (on_enrollments (UPDATE 21%N sample.set_completed) sample.draw) in
  certificates d' = certificates sample.store
  ∧ ∀ sid u,
      enrollments.student_id (sample.enrolled sample.ann None true) = Some sid →
      users sample.store !! sid = Some u →
      ∃ u', award_set u = Ok u' ∧ users d' = <[sid := u']> (users sample.store).
Proof.
  apply (proj2 (proj2 completion_is_atomic_but_needs_no_course)
           sample.store owner 21%N sample.set_completed sample.draw
           (run sample.store owner
              (on_enrollments (UPDATE 21%N sample.set_completed) sample.draw))
           (sample.enrolled sample.ann None false)
           (sample.enrolled sample.ann None true));
    vm_compute; reflexivity.
Defined.

(** C2 as stated fails: enrollment 21 names no course; completing it
    commits, ann has her 50 points and level 2, and there is no
    certificate. *)
Lemma completion_without_course_is_not_rolled_back :
  ∃ d', exec sample.store owner
          (on_enrollments (UPDATE 21%N sample.set_completed) sample.draw)
        = Ok d'
    ∧ d' ≠ sample.store
    ∧ enrollments d' !! 21%N = Some (sample.enrolled sample.ann None true)
    ∧ users d' !! sample.ann
      = Some (sample.profile "ann@campus.example" student 130 2)
    ∧ certificates d' = ∅.
Proof.
  eexists. split; [vm_compute; reflexivity|].
  split; [|by vm_compute]. intros H.
  apply (f_equal (λ d, users.xp_points <$> users d !! sample.ann)) in H.
  vm_compute in H. discriminate H.
Qed.

(** ** The column completed_at *)

(** C7, as amended: nothing in the store writes completed_at.  After an
    UPDATE of an enrollment the row is the one the SET clause computed (or
    the old one, when the row was skipped) and the other enrollments are as
    before; after an INSERT the row is the one given.  The trigger changes
    no enrollment, so completed_at has the value a statement gave it,
    whatever is_completed does. *)
Theorem completed_at_is_what_statements_set :
  (∀ d p k set g d' old,
     exec d p (on_enrollments (UPDATE k set) g) = Ok d' →
     enrollments d !! k = Some old →
     enrollments d' !! k = Some old
     ∨ ∃ new, set old = Ok new ∧ enrollments d' !! k = Some new)
  ∧ (∀ d p k set g d' j,
       exec d p (on_enrollments (UPDATE k set) g) = Ok d' →
       j ≠ k → enrollments d' !! j = enrollments d !! j)
  ∧ (∀ d p k r g d',
       exec d p (on_enrollments (INSERT k r) g) = Ok d' →
       enrollments d' !! k = Some r).
Proof.
  split; [|split].
  - intros d p k set g d' old He Hk.
    apply update_enrollments_Ok in He
      as [[-> _]|(old' & new & Hk' & Hset & _ & _ & Ht)]; [by left|].
    right. exists new. split; [congruence|].
    apply award_completion_xp_frame in Ht as (_ & -> & _).
    simpl. apply lookup_insert_eq.
  - intros d p k set g d' j He Hj.
    apply update_enrollments_Ok in He
      as [[-> _]|(old' & new & Hk' & Hset & _ & _ & Ht)]; [done|].
    apply award_completion_xp_frame in Ht as (_ & -> & _).
    simpl. by apply lookup_insert_ne.
  - intros d p k r g d' He. simpl in He.
    apply bind_Ok in He as (t & Hi & [= <-]).
    apply rls_insert_Ok in Hi as (_ & _ & ->). simpl. apply lookup_insert_eq.
Qed.

Lemma completed_at_is_what_statements_set_witness :
  let d' := run sample.store (authenticated sample.mia)
              (on_enrollments (UPDATE 20%N (sample.set_completed_at 1754300000))
                              sample.draw) in
  enrollments d' !! 20%N
    = Some (sample.enrolled sample.ann (Some sample.rocq_course) false)
  ∨ ∃ new,
      sample.set_completed_at 1754300000
        (sample.enrolled sample.ann (Some sample.rocq_course) false) = Ok new
      ∧ enrollments d' !! 20%N = Some new.
Proof.
  apply (proj1 completed_at_is_what_statements_set sample.store
           (authenticated sample.mia) 20%N
           (sample.set_completed_at 1754300000) sample.draw);
    vm_compute; reflexivity.
Defined.

(** C7 as stated fails in both directions: the owner flips enrollment 20
    to completed and completed_at stays NULL; mia, the mentor of the
    course, sets completed_at on it while is_completed stays false. *)
Lemma completed_at_is_independent_of_the_flag :
  (∃ d' e, exec sample.store owner
             (on_enrollments (UPDATE 20%N sample.set_completed) sample.draw)
           = Ok d'
     ∧ enrollments d' !! 20%N = Some e
     ∧ enrollments.is_completed e = Some true
     ∧ enrollments.completed_at e = None)
  ∧ (∃ d' e, exec sample.store (authenticated sample.mia)
               (on_enrollments
                  (UPDATE 20%N (sample.set_completed_at 1754300000))
                  sample.draw)
             = Ok d'
       ∧ enrollments d' !! 20%N = Some e
       ∧ enrollments.is_completed e = Some false
       ∧ enrollments.completed_at e = Some 1754300000).
Proof.
  split; do 2 eexists; (split; [vm_compute; reflexivity|]);
    (split; [vm_compute; reflexivity|]); done.
Qed.

(** ** Courses *)

Lemma holds_in2_col `{EqDecision A} (a : option A) (b c : A) :
  holds (in2_col a b c) = true ↔ a = Some b ∨ a = Some c.
Proof. unfold in2_col. by rewrite holds_or, !holds_eq_col_Some. Qed.

(** "Mentors can create courses" looks at the role of the acting user and
    at nothing in the new row. *)
Lemma courses_insert_check_true d me k r :
  insert_check (courses_policy d me) k r = true ↔
  ∃ u, users d !! me = Some u
       ∧ (users.role u = Some mentor ∨ users.role u = Some admin).
Proof.
  unfold courses_policy. cbn [insert_check]. rewrite exists_row_true. split.
  - intros (id & u & Hl & Hc). apply rls_select_lookup in Hl as [Hl _].
    apply holds_and in Hc as [Hid Hr].
    apply holds_eq_col in Hid as (x & [= <-] & [= ->]).
    apply holds_in2_col in Hr. eauto.
  - intros (u & Hl & Hr). exists me, u. split.
    + by apply rls_select_lookup.
    + apply holds_and. split.
      * apply holds_eq_col. eauto.
      * by apply holds_in2_col.
Qed.




(** ** Reviews *)

(** The policy "Students can create reviews for enrolled courses": its
    sub-query runs over the enrollments the student may read, which include
    all the student's own. *)
Lemma reviews_insert_check_true d me k r :
  insert_check (reviews_policy d me) k r = true ↔
  reviews.student_id r = Some me
  ∧ ∃ ek e c, enrollments d !! ek = Some e ∧
              enrollments.student_id e = Some me ∧
              enrollments.course_id e = Some c ∧
              reviews.course_id r = Some c ∧
              enrollments.is_completed e = Some true.
Proof.
  unfold reviews_policy. cbn [insert_check].
  rewrite holds_and, holds_eq_col_Some, holds_Some, exists_row_true.
  split.
  - intros (Hs & ek & e & Hl & Hc). split; [done|].
    apply rls_select_lookup in Hl as [Hl _].
    apply holds_and in Hc as (He & Hc). apply holds_and in Hc as (Hc & Hd).
    apply holds_eq_col_Some in He, Hd. apply holds_eq_col in Hc as (c & ? & ?).
    by exists ek, e, c.
  - intros (Hs & ek & e & c & Hl & He & Hc & Hrc & Hd). split; [done|].
    exists ek, e. split.
    + apply rls_select_lookup. split; [done|].
      unfold enrollments_policy. cbn [select_using].
      apply orb_true_iff. left. by apply holds_eq_col_Some.
    + rewrite !holds_and, !holds_eq_col_Some. repeat split; [done| |done].
      apply holds_eq_col. by exists c.
Qed.

Lemma exec_reviews_insert d me k r :
  exec d (authenticated me) (on_reviews (INSERT k r)) =
  if insert_check (reviews_policy d me) k r
  then reviews_constraints true d k r
         ≫= λ _, Ok (with_reviews (<[k := r]> (reviews d)) d)
  else Err insufficient_privilege.
Proof.
  unfold exec, exec_reviews, rls_insert. cbn [as_principal].
  destruct (insert_check _ _ _); [|done].
  by destruct (reviews_constraints true d k r) as [[]|].
Qed.

(** C8: student [s], signed in, inserts a review of course [c] that meets
    the constraints of the table.  The INSERT goes through exactly when an
    enrollment of [s] in [c] with is_completed = true exists; without one
    it fails with insufficient_privilege, and so does the INSERT of a
    review in the name of [s] by anybody else. *)
Theorem review_needs_completed_enrollment d s c k r :
  reviews.student_id r = Some s →
  reviews.course_id r = Some c →
  reviews_constraints true d k r = Ok () →
  let completed :=
    ∃ ek e, enrollments d !! ek = Some e ∧
            enrollments.student_id e = Some s ∧
            enrollments.course_id e = Some c ∧
            enrollments.is_completed e = Some true in
  (exec d (authenticated s) (on_reviews (INSERT k r))
     = Ok (with_reviews (<[k := r]> (reviews d)) d) ↔ completed)
  ∧ (¬ completed →
     exec d (authenticated s) (on_reviews (INSERT k r))
       = Err insufficient_privilege)
  ∧ (∀ me, me ≠ s →
     exec d (authenticated me) (on_reviews (INSERT k r))
       = Err insufficient_privilege).
Proof.
  intros Hs Hc Hchk completed.
  assert (insert_check (reviews_policy d s) k r = true ↔ completed) as Hpol.
  { rewrite reviews_insert_check_true. subst completed. split.
    - intros (_ & ek & e & c' & Hl & He & Hec & Hrc & Hd).
      exists ek, e. repeat split; congruence.
    - intros (ek & e & Hl & He & Hec & Hd). split; [done|].
      by exists ek, e, c. }
  rewrite !exec_reviews_insert, Hchk.
  split; [|split].
  - rewrite <- Hpol. destruct (insert_check _ _ _); naive_solver.
  - intros Hno. destruct (insert_check _ _ _); [|done].
    destruct Hno. by apply Hpol.
  - intros me Hme. rewrite exec_reviews_insert.
    destruct (insert_check (reviews_policy d me) k r) eqn:Hi; [|done].
    apply reviews_insert_check_true in Hi as [Hi _]. congruence.
Qed.

Lemma review_needs_completed_enrollment_witness :
  let r := sample.review sample.bob sample.rocq_course 5 in
  let completed :=
    ∃ ek e, enrollments sample.store !! ek = Some e ∧
            enrollments.student_id e = Some sample.bob ∧
            enrollments.course_id e = Some sample.rocq_course ∧
            enrollments.is_completed e = Some true in
  (exec sample.store (authenticated sample.bob) (on_reviews (INSERT 40%N r))
     = Ok (with_reviews (<[40%N := r]> (reviews sample.store)) sample.store)
   ↔ completed)
  ∧ (¬ completed →
     exec sample.store (authenticated sample.bob) (on_reviews (INSERT 40%N r))
       = Err insufficient_privilege)
  ∧ (∀ me, me ≠ sample.bob →
     exec sample.store (authenticated me) (on_reviews (INSERT 40%N r))
       = Err insufficient_privilege).
Proof.
  apply (review_needs_completed_enrollment sample.store sample.bob
           sample.rocq_course 40%N
           (sample.review sample.bob sample.rocq_course 5));
    reflexivity.
Defined.

(** bob, who completed the course, may review it; ann, whose enrollment is
    open, may not. *)
Example review_by_bob_and_by_ann :
  exec sample.store (authenticated sample.bob)
    (on_reviews (INSERT 40%N (sample.review sample.bob sample.rocq_course 5)))
  = Ok (with_reviews
          {[ 40%N := sample.review sample.bob sample.rocq_course 5 ]}
          sample.store)
  ∧ exec sample.store (authenticated sample.ann)
      (on_reviews (INSERT 40%N (sample.review sample.ann sample.rocq_course 5)))
    = Err insufficient_privilege.
Proof. split; vm_compute; reflexivity. Qed.

(** ** Mentor requests *)

Lemma key_check_fresh {Row} k (t : gmap N Row) :
  key_check true k t = Ok () → t !! k = None.
Proof.
  unfold key_check, pk_free. intros H%guard_Ok.
  by apply bool_decide_eq_true in H.
Qed.

(** One request of a signed-in user keeps every mentor request there is. *)
Lemma run_keeps_mentor_requests d me q k r :
  mentor_requests d !! k = Some r →
  mentor_requests (run d (authenticated me) q) !! k = Some r.
Proof.
  intros Hk. unfold run.
  destruct (exec d (authenticated me) q) as [d'|e] eqn:He; [|done].
  destruct q as [s|s|s g|s|s|s];
    unfold exec, exec_users, exec_courses, exec_enrollments, exec_reviews,
      exec_certificates, exec_mentor_requests in He;
    cbn [as_principal] in He.
  - destruct s as [k' r'|k' set|k'].
    + by apply bind_Ok in He as (t & _ & [= <-]).
    + by apply bind_Ok in He as ([hit t] & _ & [= <-]).
    + rewrite rls_delete_denied in He by done. by injection He as <-.
  - destruct s as [k' r'|k' set|k'].
    + by apply bind_Ok in He as (t & _ & [= <-]).
    + by apply bind_Ok in He as ([hit t] & _ & [= <-]).
    + rewrite rls_delete_denied in He by done. by injection He as <-.
  - destruct s as [k' r'|k' set|k'].
    + by apply bind_Ok in He as (t & _ & [= <-]).
    + apply bind_Ok in He as ([[[OLD NEW]|] t] & _ & He).
      * by apply award_completion_xp_frame in He as (_ & _ & _ & ->).
      * by injection He as <-.
    + by injection He as <-.
  - destruct s as [k' r'|k' set|k'].
    + by apply bind_Ok in He as (t & _ & [= <-]).
    + by apply bind_Ok in He as ([hit t] & _ & [= <-]).
    + by injection He as <-.
  - destruct s as [k' r'|k' set|k'].
    + by apply bind_Ok in He as (t & _ & [= <-]).
    + by apply bind_Ok in He as ([hit t] & _ & [= <-]).
    + by injection He as <-.
  - destruct s as [k' r'|k' set|k'].
    + apply bind_Ok in He as (t & Hi & [= <-]).
      apply rls_insert_Ok in Hi as (_ & Hchk & ->). simpl.
      unfold mentor_requests_constraints in Hchk.
      apply bind_Ok in Hchk as ([] & Hfree%key_check_fresh & _).
      rewrite lookup_insert_ne; [done|congruence].
    + apply bind_Ok in He as ([hit t] & Hu & [= <-]).
      apply rls_update_Ok in Hu as [(_ & -> & _)|(? & ? & _ & _ & _ & _ & _ & Hu & _)];
        [done|]. done.
    + injection He as <-. by rewrite rls_delete_denied.
Qed.

(** C10, as amended: whatever signed-in users request, a mentor request
    keeps the values it was inserted with: nobody can update or delete it.
    An INSERT stores the row as given if it names the acting user as
    student_id; its status is pending when the statement leaves the
    defaults, and is not looked at otherwise. *)
Theorem mentor_requests_never_change :
  (∀ qs d k r,
     mentor_requests d !! k = Some r →
     mentor_requests (run_all d qs) !! k = Some r)
  ∧ (∀ d me k r d',
       exec d (authenticated me) (on_mentor_requests (INSERT k r)) = Ok d' →
       mentor_requests d' !! k = Some r
       ∧ mentor_requests.student_id r = Some me)
  ∧ (∀ s, mentor_requests.status (mentor_requests.with_defaults s)
            = Some pending
          ∧ mentor_requests.reviewed_by (mentor_requests.with_defaults s)
            = None
          ∧ mentor_requests.reviewed_at (mentor_requests.with_defaults s)
            = None).
Proof.
  split; [|split; [|done]].
  - unfold run_all. induction qs as [|[me q] qs IH]; intros d k r Hk; [done|].
    simpl. apply IH. by apply run_keeps_mentor_requests.
  - intros d me k r d' He. simpl in He.
    apply bind_Ok in He as (t & Hi & [= <-]).
    apply rls_insert_Ok in Hi as (Hc & _ & ->). simpl in *.
    rewrite lookup_insert_eq. by apply holds_eq_col_Some in Hc.
Qed.

Lemma mentor_requests_never_change_witness :
  mentor_requests
    (run_all sample.store_with_request
       [ (sample.mia,
          on_mentor_requests (UPDATE 50%N (sample.set_approved sample.mia 1754300000)));
         (sample.ann,
          on_mentor_requests (UPDATE 50%N (sample.set_approved sample.ann 1754300000)));
         (sample.ann, on_mentor_requests (DELETE 50%N)) ])
    !! 50%N
  = Some (mentor_requests.with_defaults (Some sample.ann)).
Proof.
  apply (proj1 mentor_requests_never_change).
  vm_compute; reflexivity.
Defined.

(** C10 as stated fails: ann inserts a request that is approved and
    reviewed from the start. *)
Lemma mentor_request_inserted_as_approved :
  ∃ d' r,
    exec sample.store (authenticated sample.ann)
      (on_mentor_requests (INSERT 51%N sample.approved_request)) = Ok d'
    ∧ mentor_requests d' !! 51%N = Some r
    ∧ mentor_requests.status r = Some approved
    ∧ mentor_requests.reviewed_by r = Some sample.mia
    ∧ mentor_requests.reviewed_at r = Some 1754300000.
Proof.
  do 2 eexists. split; [vm_compute; reflexivity|].
  split; [vm_compute; reflexivity|]. done.
Qed.

(** ** The completion goes through for the owner *)

(** The conditions under which the owner's UPDATE of an enrollment from
    not completed to completed commits, and the database it leaves: the
    constraints of the three rows written are all there is to fail. *)
Lemma owner_completion_commits d k set g old new sid cid u u' c :
  enrollments d !! k = Some old →
  set old = Ok new →
  enrollments_constraints false d k new = Ok () →
  enrollments.is_completed old = Some false →
  enrollments.is_completed new = Some true →
  enrollments.student_id new = Some sid →
  enrollments.course_id new = Some cid →
  users d !! sid = Some u →
  award_set u = Ok u' →
  courses d !! cid = Some c →
  let d1 := with_enrollments (<[k := new]> (enrollments d)) d in
  let d2 := with_users (<[sid := u']> (users d)) d1 in
  let cert :=
    {| certificates.student_id := Some sid;
       certificates.course_id := Some cid;
       certificates.mentor_id := courses.mentor_id c;
       certificates.certificate_id := certificate_text g |} in
  users_constraints false d1 sid u' = Ok () →
  certificates_constraints true d2 (certificate_key g) cert = Ok () →
  exec d owner (on_enrollments (UPDATE k set) g)
    = Ok (with_certificates
            (<[certificate_key g := cert]> (certificates d)) d2).
Proof.
  intros Hk Hset Hchk Ho Hn Hsid Hcid Hu Hau Hc d1 d2 cert Hcu Hcc.
  unfold exec, exec_enrollments, rls_update. cbn [as_principal].
  rewrite Hk. cbn [bypass select_using update_using update_check andb].
  rewrite Hset. simpl. rewrite Hchk. simpl.
  rewrite award_completion_xp_on_edge by done.
  unfold award_update, rls_update. rewrite Hsid. cbn [as_principal].
  change (users (with_enrollments (<[k:=new]> (enrollments d)) d))
    with (users d).
  rewrite Hu. cbn [bypass select_using update_using update_check andb].
  rewrite Hau. simpl. fold d1. rewrite Hcu. simpl. fold d1. fold d2.
  unfold generate_certificate. rewrite Hcid. cbn [as_principal].
  rewrite rls_select_bypass.
  change (courses d2) with (courses d). rewrite Hc.
  unfold rls_insert. cbn [bypass insert_check].
  rewrite Hsid. fold cert. by rewrite Hcc.
Qed.

(** ** Reading *)

(** bob reads the mentor requests: there is one, it is ann's, and bob gets
    the empty table and no error; ann gets her request. *)
Example read_mentor_requests :
  read mentor_requests_policy mentor_requests sample.store_with_request
    (authenticated sample.bob) = ∅
  ∧ read mentor_requests_policy mentor_requests sample.store_with_request
      (authenticated sample.ann)
    = {[ 50%N := mentor_requests.with_defaults (Some sample.ann) ]}.
Proof. split; vm_compute; reflexivity. Qed.

(** * More properties of the schema *)

(** ** Statements as sequences of writes *)

Lemma rls_delete_cases {Row} (pol : policy Row) k (t : gmap N Row) :
  rls_delete pol k t = (None, t)
  ∨ ∃ old, t !! k = Some old ∧ rls_delete pol k t = (Some old, delete k t).
Proof.
  unfold rls_delete. destruct (t !! k) as [old|]; [|by left].
  destruct (_ && _); [right; by exists old|by left].
Qed.

Lemma award_update_writes p s d d' :
  award_update p s d = Ok d' → rtc write d d'.
Proof.
  unfold award_update. destruct s as [sid|]; [|by intros [= <-]].
  intros H. apply bind_Ok in H as ([hit t] & H & [= <-]).
  apply rls_update_Ok in H
    as [(_ & -> & _)|(old & new & _ & -> & _ & _ & _ & _ & _ & _ & Hchk)].
  - by rewrite with_users_id.
  - apply rtc_once. by eapply write_users.
Qed.

Lemma generate_certificate_writes p NEW g d d' :
  generate_certificate p NEW g d = Ok d' → rtc write d d'.
Proof.
  unfold generate_certificate.
  destruct (enrollments.course_id NEW) as [cid|]; [|by intros [= <-]].
  destruct (_ !! cid) as [c|]; [|by intros [= <-]].
  intros H. apply bind_Ok in H as (t & Hi & [= <-]).
  apply rls_insert_Ok in Hi as (_ & Hchk & ->).
  apply rtc_once. by eapply write_certificates.
Qed.

Lemma award_completion_xp_writes p OLD NEW g d d' :
  award_completion_xp p OLD NEW g d = Ok d' → rtc write d d'.
Proof.
  unfold award_completion_xp. destruct (holds _); [|by intros [= <-]].
  intros H. apply bind_Ok in H as (d1 & H1 & H2).
  etrans; [by eapply award_update_writes|by eapply generate_certificate_writes].
Qed.

(** Every statement that returns is a sequence of writes, each under the
    constraints of its table. *)
Lemma exec_writes d p q d' : exec d p q = Ok d' → rtc write d d'.
Proof.
  intros He.
  destruct q as [s|s|s g|s|s|s];
    unfold exec, exec_users, exec_courses, exec_enrollments, exec_reviews,
      exec_certificates, exec_mentor_requests in He;
    destruct s as [k r|k set|k].
  - apply bind_Ok in He as (t & Hi & [= <-]).
    apply rls_insert_Ok in Hi as (_ & Hchk & ->).
    apply rtc_once. by eapply write_users.
  - apply bind_Ok in He as ([hit t] & Hu & [= <-]).
    apply rls_update_Ok in Hu
      as [(_ & -> & _)|(old & new & _ & -> & _ & _ & _ & _ & _ & _ & Hchk)].
    + by rewrite with_users_id.
    + apply rtc_once. by eapply write_users.
  - destruct (rls_delete_cases (as_principal (users_policy d) p) k (users d))
      as [Hd|(old & _ & Hd)]; rewrite Hd in He; simpl in He.
    + by injection He as <-.
    + apply rtc_once. by eapply remove_user.
  - apply bind_Ok in He as (t & Hi & [= <-]).
    apply rls_insert_Ok in Hi as (_ & Hchk & ->).
    apply rtc_once. by eapply write_courses.
  - apply bind_Ok in He as ([hit t] & Hu & [= <-]).
    apply rls_update_Ok in Hu
      as [(_ & -> & _)|(old & new & _ & -> & _ & _ & _ & _ & _ & _ & Hchk)].
    + by rewrite with_courses_id.
    + apply rtc_once. by eapply write_courses.
  - destruct (rls_delete_cases (as_principal (courses_policy d) p) k (courses d))
      as [Hd|(old & _ & Hd)]; rewrite Hd in He; simpl in He;
      injection He as <-; [done|].
    apply rtc_once. apply remove_course.
  - apply bind_Ok in He as (t & Hi & [= <-]).
    apply rls_insert_Ok in Hi as (_ & Hchk & ->).
    apply rtc_once. by eapply write_enrollments.
  - apply bind_Ok in He as ([hit t] & Hu & He).
    apply rls_update_Ok in Hu
      as [(-> & -> & _)|(old & new & -> & -> & _ & _ & _ & _ & _ & _ & Hchk)].
    + injection He as <-. by rewrite with_enrollments_id.
    + etrans; [apply rtc_once; by eapply write_enrollments|].
      by eapply award_completion_xp_writes.
  - injection He as <-.
    destruct (rls_delete_cases (as_principal (enrollments_policy d) p) k
                (enrollments d)) as [Hd|(old & _ & Hd)]; rewrite Hd; simpl.
    + by rewrite with_enrollments_id.
    + apply rtc_once. apply remove_enrollment.
  - apply bind_Ok in He as (t & Hi & [= <-]).
    apply rls_insert_Ok in Hi as (_ & Hchk & ->).
    apply rtc_once. by eapply write_reviews.
  - apply bind_Ok in He as ([hit t] & Hu & [= <-]).
    apply rls_update_Ok in Hu
      as [(_ & -> & _)|(old & new & _ & -> & _ & _ & _ & _ & _ & _ & Hchk)].
    + by rewrite with_reviews_id.
    + apply rtc_once. by eapply write_reviews.
  - injection He as <-.
    destruct (rls_delete_cases (as_principal (reviews_policy d) p) k
                (reviews d)) as [Hd|(old & _ & Hd)]; rewrite Hd; simpl.
    + by rewrite with_reviews_id.
    + apply rtc_once. apply remove_review.
  - apply bind_Ok in He as (t & Hi & [= <-]).
    apply rls_insert_Ok in Hi as (_ & Hchk & ->).
    apply rtc_once. by eapply write_certificates.
  - apply bind_Ok in He as ([hit t] & Hu & [= <-]).
    apply rls_update_Ok in Hu
      as [(_ & -> & _)|(old & new & _ & -> & _ & _ & _ & _ & _ & _ & Hchk)].
    + by rewrite with_certificates_id.
    + apply rtc_once. by eapply write_certificates.
  - injection He as <-.
    destruct (rls_delete_cases (as_principal (certificates_policy d) p) k
                (certificates d)) as [Hd|(old & _ & Hd)]; rewrite Hd; simpl.
    + by rewrite with_certificates_id.
    + apply rtc_once. apply remove_certificate.
  - apply bind_Ok in He as (t & Hi & [= <-]).
    apply rls_insert_Ok in Hi as (_ & Hchk & ->).
    apply rtc_once. by eapply write_mentor_requests.
  - apply bind_Ok in He as ([hit t] & Hu & [= <-]).
    apply rls_update_Ok in Hu
      as [(_ & -> & _)|(old & new & _ & -> & _ & _ & _ & _ & _ & _ & Hchk)].
    + by rewrite with_mentor_requests_id.
    + apply rtc_once. by eapply write_mentor_requests.
  - injection He as <-.
    destruct (rls_delete_cases (as_principal (mentor_requests_policy d) p) k
                (mentor_requests d)) as [Hd|(old & _ & Hd)]; rewrite Hd; simpl.
    + by rewrite with_mentor_requests_id.
    + apply rtc_once. apply remove_mentor_request.
Qed.

(** ** Referential integrity *)

Lemma references_resolves {Row} (fk : option N) (t : gmap N Row) :
  references fk t = Ok () ↔ resolves fk t.
Proof.
  unfold references, resolves. destruct fk as [k|]; [|naive_solver].
  rewrite guard_Ok, bool_decide_eq_true. naive_solver.
Qed.

Section refs_ok_facts.
Context {Row Row' : Type}.
Implicit Types (f : Row → option N) (t : gmap N Row) (tg : gmap N Row').

Lemma refs_ok_insert f t tg k r :
  refs_ok f t tg → resolves (f r) tg → refs_ok f (<[k := r]> t) tg.
Proof.
  intros Ht Hr k' r' Hl. destruct (decide (k = k')) as [->|Hne].
  - rewrite lookup_insert_eq in Hl. by injection Hl as <-.
  - rewrite lookup_insert_ne in Hl by done. by eapply Ht.
Qed.

Lemma refs_ok_subseteq f t t' tg :
  refs_ok f t tg → t' ⊆ t → refs_ok f t' tg.
Proof.
  intros Ht Hs k r Hl. eapply Ht. by eapply lookup_weaken.
Qed.

Lemma refs_ok_delete f t tg k :
  refs_ok f t tg → refs_ok f (delete k t) tg.
Proof. intros Ht. eapply refs_ok_subseteq; [done|apply delete_subseteq]. Qed.

Lemma refs_ok_filter f t tg (P : N * Row → Prop) `{∀ x, Decision (P x)} :
  refs_ok f t tg → refs_ok f (filter P t) tg.
Proof. intros Ht. eapply refs_ok_subseteq; [done|apply map_filter_subseteq]. Qed.

Lemma refs_ok_target f t tg (tg' : gmap N Row') :
  refs_ok f t tg →
  (∀ k r x, t !! k = Some r → f r = Some x →
            is_Some (tg !! x) → is_Some (tg' !! x)) →
  refs_ok f t tg'.
Proof. intros Ht Hm k r Hl x Hx. eapply Hm; [done..|]. by eapply Ht. Qed.

Lemma refs_ok_target_insert f t tg k r' :
  refs_ok f t tg → refs_ok f t (<[k := r']> tg).
Proof.
  intros Ht. eapply refs_ok_target; [done|]. intros k' r x _ _ Hs.
  rewrite lookup_insert. case_decide; [by eexists|done].
Qed.

End refs_ok_facts.

Lemma refers_false (gone : N → bool) (fk : option N) (x : N) :
  refers gone fk = false → fk = Some x → gone x = false.
Proof. by intros H ->. Qed.

Lemma courses_constraints_refs b d k r :
  courses_constraints b d k r = Ok () →
  resolves (courses.mentor_id r) (users d).
Proof.
  unfold courses_constraints. intros H.
  apply bind_Ok in H as ([] & _ & H). by apply references_resolves.
Qed.

Lemma enrollments_constraints_refs b d k r :
  enrollments_constraints b d k r = Ok () →
  resolves (enrollments.student_id r) (users d)
  ∧ resolves (enrollments.course_id r) (courses d).
Proof.
  unfold enrollments_constraints. intros H.
  do 3 apply bind_Ok in H as ([] & ? & H).
  split; by apply references_resolves.
Qed.

Lemma reviews_constraints_refs b d k r :
  reviews_constraints b d k r = Ok () →
  resolves (reviews.student_id r) (users d)
  ∧ resolves (reviews.course_id r) (courses d)
  ∧ resolves (reviews.mentor_id r) (users d).
Proof.
  unfold reviews_constraints. intros H.
  do 5 apply bind_Ok in H as ([] & ? & H).
  repeat split; by apply references_resolves.
Qed.

Lemma certificates_constraints_refs b d k r :
  certificates_constraints b d k r = Ok () →
  resolves (certificates.student_id r) (users d)
  ∧ resolves (certificates.course_id r) (courses d)
  ∧ resolves (certificates.mentor_id r) (users d).
Proof.
  unfold certificates_constraints. intros H.
  do 4 apply bind_Ok in H as ([] & ? & H).
  repeat split; by apply references_resolves.
Qed.

Lemma mentor_requests_constraints_refs b d k r :
  mentor_requests_constraints b d k r = Ok () →
  resolves (mentor_requests.student_id r) (users d)
  ∧ resolves (mentor_requests.reviewed_by r) (users d).
Proof.
  unfold mentor_requests_constraints. intros H.
  do 2 apply bind_Ok in H as ([] & ? & H).
  split; by apply references_resolves.
Qed.

(** Rows that refer to a course that goes are gone with it. *)
Lemma cascade_courses_integrity (gone : N → bool) d (cs : gmap N courses.row) :
  referential_integrity d →
  cs ⊆ courses d →
  (∀ c, is_Some (courses d !! c) → gone c = false → is_Some (cs !! c)) →
  referential_integrity (cascade_courses gone (with_courses cs d)).
Proof.
  intros [] Hsub Hkept. split; simpl.
  - by eapply refs_ok_subseteq.
  - by apply refs_ok_filter.
  - eapply refs_ok_target; [by apply refs_ok_filter|].
    intros k r x [Hl Hp]%map_lookup_filter_Some Hx Hs. simpl in Hp.
    apply Hkept; [done|]. by eapply refers_false.
  - by apply refs_ok_filter.
  - eapply refs_ok_target; [by apply refs_ok_filter|].
    intros k r x [Hl Hp]%map_lookup_filter_Some Hx Hs. simpl in Hp.
    apply Hkept; [done|]. by eapply refers_false.
  - by apply refs_ok_filter.
  - by apply refs_ok_filter.
  - eapply refs_ok_target; [by apply refs_ok_filter|].
    intros k r x [Hl Hp]%map_lookup_filter_Some Hx Hs. simpl in Hp.
    apply Hkept; [done|]. by eapply refers_false.
  - by apply refs_ok_filter.
  - done.
  - done.
Qed.

Lemma refs_ok_without {Row Row'} (f : Row → option N) (t : gmap N Row)
    (us : gmap N Row') (k : N) :
  refs_ok f t us →
  (∀ k0 r, t !! k0 = Some r → refers (λ u, bool_decide (u = k)) (f r) = false) →
  refs_ok f t (delete k us).
Proof.
  intros Ht Hp. eapply refs_ok_target; [done|]. intros k0 r x Hl Hx Hs.
  specialize (Hp k0 r Hl). rewrite Hx in Hp. simpl in Hp.
  apply bool_decide_eq_false in Hp. by rewrite lookup_delete_ne.
Qed.

(** Deleting a user keeps the foreign keys: what referred to the user, or
    to a course of the user, is gone too, and the deletion fails when a
    mentor request that stays names the user as reviewer. *)
Lemma delete_user_integrity k d d' :
  referential_integrity d → delete_user k d = Ok d' →
  referential_integrity d'.
Proof.
  intros Hri H. unfold delete_user in H.
  apply bind_Ok in H as ([] & Hg & [= <-]).
  apply guard_Ok, negb_true_iff in Hg. simpl in Hg.
  pose proof (proj1 (exists_row_false _ _) Hg) as Hrev. clear Hg.
  set (is_k := λ u : N, bool_decide (u = k)) in *.
  set (taught := λ c : N,
         match courses d !! c with
         | Some r => refers is_k (courses.mentor_id r)
         | None => false
         end) in *.
  set (cs := filter (λ kv : N * courses.row,
                       refers is_k (courses.mentor_id kv.2) = false)
                    (courses d)) in *.
  assert (referential_integrity (cascade_courses taught (with_courses cs d)))
    as [].
  { apply cascade_courses_integrity; [done|apply map_filter_subseteq|].
    intros c [r Hc] Ht. exists r. apply map_lookup_filter_Some.
    split; [done|]. subst taught. simpl in *. by rewrite Hc in Ht. }
  simpl in *. split; simpl.
  - apply refs_ok_without; [done|].
    by intros k0 r [_ Hp]%map_lookup_filter_Some.
  - apply refs_ok_without; [by apply refs_ok_filter|].
    by intros k0 r [_ Hp]%map_lookup_filter_Some.
  - by apply refs_ok_filter.
  - apply refs_ok_without; [by apply refs_ok_filter|].
    by intros k0 r [_ [Hp _]%orb_false_iff]%map_lookup_filter_Some.
  - by apply refs_ok_filter.
  - apply refs_ok_without; [by apply refs_ok_filter|].
    by intros k0 r [_ [_ Hp]%orb_false_iff]%map_lookup_filter_Some.
  - apply refs_ok_without; [by apply refs_ok_filter|].
    by intros k0 r [_ [Hp _]%orb_false_iff]%map_lookup_filter_Some.
  - by apply refs_ok_filter.
  - apply refs_ok_without; [by apply refs_ok_filter|].
    by intros k0 r [_ [_ Hp]%orb_false_iff]%map_lookup_filter_Some.
  - apply refs_ok_without; [by apply refs_ok_filter|].
    by intros k0 r [_ Hp]%map_lookup_filter_Some.
  - apply refs_ok_without; [by apply refs_ok_filter|].
    intros k0 r Hl. by eapply Hrev.
Qed.

(** A write keeps the foreign keys. *)
Lemma write_integrity d d' :
  write d d' → referential_integrity d → referential_integrity d'.
Proof.
  intros Hw Hri. destruct Hw.
  - destruct Hri. split; simpl; by try apply refs_ok_target_insert.
  - destruct Hri. split; simpl; try done; try by apply refs_ok_target_insert.
    apply refs_ok_insert; [done|]. by eapply courses_constraints_refs.
  - destruct Hri. pose proof (enrollments_constraints_refs _ _ _ _ H) as [].
    split; simpl; try done; by apply refs_ok_insert.
  - destruct Hri. pose proof (reviews_constraints_refs _ _ _ _ H) as (? & ? & ?).
    split; simpl; try done; by apply refs_ok_insert.
  - destruct Hri.
    pose proof (certificates_constraints_refs _ _ _ _ H) as (? & ? & ?).
    split; simpl; try done; by apply refs_ok_insert.
  - destruct Hri.
    pose proof (mentor_requests_constraints_refs _ _ _ _ H) as (? & ?).
    split; simpl; try done; by apply refs_ok_insert.
  - destruct Hri. split; simpl; try done; by apply refs_ok_delete.
  - destruct Hri. split; simpl; try done; by apply refs_ok_delete.
  - destruct Hri. split; simpl; try done; by apply refs_ok_delete.
  - destruct Hri. split; simpl; try done; by apply refs_ok_delete.
  - apply cascade_courses_integrity; [done|apply delete_subseteq|].
    intros c Hc Hg. apply bool_decide_eq_false in Hg.
    by rewrite lookup_delete_ne.
  - by eapply delete_user_integrity.
Qed.

(** X1: every statement of every principal keeps referential integrity:
    if all foreign keys of the six tables resolve before a request, they
    resolve after it, whether the request commits or fails. *)
Theorem referential_integrity_kept d p q :
  referential_integrity d → referential_integrity (run d p q).
Proof.
  intros Hri. unfold run. destruct (exec d p q) as [d'|e] eqn:He; [|done].
  apply exec_writes in He. induction He as [|d1 d2 d3 Hw _ IH]; [done|].
  apply IH. by eapply write_integrity.
Qed.

Lemma refs_okb_true {Row Row'} (f : Row → option N) (t : gmap N Row)
    (tg : gmap N Row') :
  refs_okb f t tg = true → refs_ok f t tg.
Proof.
  unfold refs_okb. rewrite forallb_forall. intros H k r Hl x Hx.
  specialize (H (k, r)). simpl in H. rewrite Hx in H.
  eapply bool_decide_eq_true_1, H, list_elem_of_In.
  by apply elem_of_map_to_list.
Qed.

Lemma referential_integrityb_true d :
  referential_integrityb d = true → referential_integrity d.
Proof.
  unfold referential_integrityb. rewrite !andb_true_iff.
  intros [[[[[[[[[[? ?] ?] ?] ?] ?] ?] ?] ?] ?] ?].
  split; by apply refs_okb_true.
Qed.

Lemma referential_integrity_kept_witness :
  referential_integrity
    (run sample.store owner (on_users (DELETE sample.mia))).
Proof.
  apply (referential_integrity_kept sample.store owner
           (on_users (DELETE sample.mia))).
  apply referential_integrityb_true. vm_compute. reflexivity.
Defined.

(** Deleting mia takes her course and the two enrollments in it along. *)
Example delete_mia_cascades :
  let d' := run sample.store owner (on_users (DELETE sample.mia)) in
  users d' !! sample.mia = None
  ∧ courses d' = ∅
  ∧ enrollments d' = {[ 21%N := sample.enrolled sample.ann None false ]}.
Proof. repeat split; vm_compute; reflexivity. Qed.

(** ** Unique constraints *)

Section unique_on_facts.
Context {Row A : Type}.
Implicit Types (f : Row → option A) (t : gmap N Row).

Lemma unique_on_subseteq f t t' :
  unique_on f t → t' ⊆ t → unique_on f t'.
Proof.
  intros Hu Hs k1 k2 r1 r2 x H1 H2. eapply Hu; by eapply lookup_weaken.
Qed.

Lemma unique_on_insert f t k r :
  unique_on f t →
  (∀ k' r' x, t !! k' = Some r' → k' ≠ k → f r' = Some x → f r ≠ Some x) →
  unique_on f (<[k := r]> t).
Proof.
  intros Hu Hn k1 k2 r1 r2 x H1 H2 Hx1 Hx2.
  destruct (decide (k1 = k)) as [->|Hk1], (decide (k2 = k)) as [->|Hk2];
    [done| | |].
  - rewrite lookup_insert_eq in H1. rewrite lookup_insert_ne in H2 by done.
    injection H1 as <-. by destruct (Hn k2 r2 x).
  - rewrite lookup_insert_eq in H2. rewrite lookup_insert_ne in H1 by done.
    injection H2 as <-. by destruct (Hn k1 r1 x).
  - rewrite lookup_insert_ne in H1, H2 by done. by eapply Hu.
Qed.

Lemma unique_onb_true `{EqDecision A} f t :
  unique_onb f t = true → unique_on f t.
Proof.
  unfold unique_onb. rewrite forallb_forall.
  intros H k1 k2 r1 r2 x H1 H2 Hx1 Hx2.
  specialize (H (k1, r1)). rewrite forallb_forall in H.
  assert (In (k1, r1) (map_to_list t)) as Hi1
    by by apply list_elem_of_In, elem_of_map_to_list.
  assert (In (k2, r2) (map_to_list t)) as Hi2
    by by apply list_elem_of_In, elem_of_map_to_list.
  specialize (H Hi1 (k2, r2) Hi2). simpl in H. rewrite Hx1, Hx2 in H.
  rewrite bool_decide_eq_true_2 in H by done. simpl in H.
  by apply bool_decide_eq_true in H.
Qed.

End unique_on_facts.

Lemma users_constraints_email b d k r :
  users_constraints b d k r = Ok () →
  ∀ k' u', users d !! k' = Some u' → k' ≠ k →
           users.email u' ≠ users.email r.
Proof.
  unfold users_constraints. intros H.
  do 4 apply bind_Ok in H as (? & ? & H).
  apply guard_Ok, negb_true_iff in H.
  intros k' u' Hl Hne He.
  pose proof (proj1 (exists_row_false _ _) H k' u' Hl) as Hf. simpl in Hf.
  rewrite !bool_decide_eq_true_2 in Hf by done. done.
Qed.

Lemma enrollments_constraints_pair b d k r :
  enrollments_constraints b d k r = Ok () →
  ∀ k' e' x, enrollments d !! k' = Some e' → k' ≠ k →
             enrollment_pair e' = Some x → enrollment_pair r ≠ Some x.
Proof.
  unfold enrollments_constraints. intros H.
  apply bind_Ok in H as (? & ? & H). apply bind_Ok in H as ([] & Hg & H).
  apply guard_Ok, negb_true_iff in Hg.
  intros k' e' [s c] Hl Hne He Hr.
  pose proof (proj1 (exists_row_false _ _) Hg k' e' Hl) as Hf. simpl in Hf.
  rewrite bool_decide_eq_true_2 in Hf by done. simpl in Hf.
  unfold enrollment_pair in *.
  destruct (enrollments.student_id e') as [s1|], (enrollments.course_id e')
    as [c1|], (enrollments.student_id r) as [s2|], (enrollments.course_id r)
    as [c2|]; try done.
  injection He as -> ->. injection Hr as -> ->. simpl in Hf.
  by rewrite !bool_decide_eq_true_2 in Hf.
Qed.

Lemma certificates_constraints_id b d k r :
  certificates_constraints b d k r = Ok () →
  ∀ k' c', certificates d !! k' = Some c' → k' ≠ k →
           certificates.certificate_id c' ≠ certificates.certificate_id r.
Proof.
  unfold certificates_constraints. intros H.
  apply bind_Ok in H as (? & ? & H). apply bind_Ok in H as ([] & Hg & H).
  apply guard_Ok, negb_true_iff in Hg.
  intros k' c' Hl Hne He.
  pose proof (proj1 (exists_row_false _ _) Hg k' c' Hl) as Hf. simpl in Hf.
  rewrite !bool_decide_eq_true_2 in Hf by done. done.
Qed.

Lemma unique_constraintsb_true d :
  unique_constraintsb d = true → unique_constraints d.
Proof.
  unfold unique_constraintsb. rewrite !andb_true_iff. intros [[? ?] ?].
  split; by apply unique_onb_true.
Qed.

Lemma delete_user_unique k d d' :
  unique_constraints d → delete_user k d = Ok d' → unique_constraints d'.
Proof.
  intros [] H. unfold delete_user in H.
  apply bind_Ok in H as ([] & _ & [= <-]). split; simpl.
  - eapply unique_on_subseteq; [done|apply delete_subseteq].
  - eapply unique_on_subseteq; [done|].
    etrans; apply map_filter_subseteq.
  - eapply unique_on_subseteq; [done|].
    etrans; apply map_filter_subseteq.
Qed.

Lemma write_unique d d' :
  write d d' → unique_constraints d → unique_constraints d'.
Proof.
  intros Hw Hu. destruct Hw; try (destruct Hu; by split).
  - destruct Hu. split; simpl; try done.
    apply unique_on_insert; [done|]. intros k' u' x Hl Hne [= <-] [= He].
    by eapply users_constraints_email.
  - destruct Hu. split; simpl; try done.
    apply unique_on_insert; [done|]. by eapply enrollments_constraints_pair.
  - destruct Hu. split; simpl; try done.
    apply unique_on_insert; [done|]. intros k' c' x Hl Hne [= <-] [= He].
    by eapply certificates_constraints_id.
  - destruct Hu. split; simpl; try done.
    eapply unique_on_subseteq; [done|apply delete_subseteq].
  - destruct Hu. split; simpl; try done.
    eapply unique_on_subseteq; [done|apply delete_subseteq].
  - destruct Hu. split; simpl; try done;
      (eapply unique_on_subseteq; [done|apply map_filter_subseteq]).
  - by eapply delete_user_unique.
Qed.

(** X2: every statement of every principal keeps the unique constraints:
    no two users with one email, no two enrollments of one student in one
    course, no two certificates with one certificate_id. *)
Theorem unique_constraints_kept d p q :
  unique_constraints d → unique_constraints (run d p q).
Proof.
  intros Hu. unfold run. destruct (exec d p q) as [d'|e] eqn:He; [|done].
  apply exec_writes in He. induction He as [|d1 d2 d3 Hw _ IH]; [done|].
  apply IH. by eapply write_unique.
Qed.

Lemma unique_constraints_kept_witness :
  unique_constraints
    (run sample.store owner
       (on_enrollments (UPDATE 20%N sample.set_completed) sample.draw)).
Proof.
  apply (unique_constraints_kept sample.store owner
           (on_enrollments (UPDATE 20%N sample.set_completed) sample.draw)).
  apply unique_constraintsb_true. vm_compute. reflexivity.
Defined.

(** ** What a signed-in user cannot do *)

Lemma users_insert_own d me k r :
  insert_check (users_policy d me) k r = true → k = me.
Proof. cbn. case_bool_decide; naive_solver. Qed.

Lemma users_update_own d me k r :
  update_using (users_policy d me) k r = true → k = me.
Proof. cbn. case_bool_decide; naive_solver. Qed.

Lemma award_update_authenticated me s d d' :
  award_update (authenticated me) s d = Ok d' →
  d' = d ∨ ∃ u', d' = with_users (<[me := u']> (users d)) d
                 ∧ is_Some (users d !! me).
Proof.
  unfold award_update. destruct s as [sid|]; [|intros [= <-]; by left].
  intros H. apply bind_Ok in H as ([hit t] & H & [= <-]).
  apply rls_update_Ok in H
    as [(_ & -> & _)|(old & new & _ & -> & Hk & _ & _ & Hu & _)].
  - left. apply with_users_id.
  - right. apply (users_update_own d) in Hu as ->.
    exists new. by rewrite Hk.
Qed.

(** One request of the signed-in user [me] that returns: it touches no
    profile but that of [me], removes no user, course or enrollment, leaves
    reviews and mentor requests as they are, and leaves the certificates
    alone altogether. *)
Lemma authenticated_step d me q d' :
  exec d (authenticated me) q = Ok d' →
  (∀ k, k ≠ me → users d' !! k = users d !! k)
  ∧ (∀ k, is_Some (users d !! k) → is_Some (users d' !! k))
  ∧ (∀ k, is_Some (courses d !! k) → is_Some (courses d' !! k))
  ∧ (∀ k, is_Some (enrollments d !! k) → is_Some (enrollments d' !! k))
  ∧ (∀ k r, reviews d !! k = Some r → reviews d' !! k = Some r)
  ∧ certificates d' = certificates d.
Proof.
  intros He.
  assert (∀ {A} (t : gmap N A) k0 r k,
            is_Some (t !! k) → is_Some (<[k0 := r]> t !! k)) as Hkeep.
  { intros A t k0 r k Hs. rewrite lookup_insert. by case_decide. }
  destruct q as [s|s|s g|s|s|s];
    unfold exec, exec_users, exec_courses, exec_enrollments, exec_reviews,
      exec_certificates, exec_mentor_requests in He;
    cbn [as_principal] in He; destruct s as [k0 r0|k0 set|k0].
  - apply bind_Ok in He as (t & Hi & [= <-]).
    apply rls_insert_Ok in Hi as (Hc & _ & ->).
    apply (users_insert_own d) in Hc as ->. simpl.
    split; [|by auto]. intros k Hk. by rewrite lookup_insert_ne.
  - apply bind_Ok in He as ([hit t] & Hu & [= <-]).
    apply rls_update_Ok in Hu
      as [(_ & -> & _)|(old & new & _ & -> & _ & _ & _ & Hu & _)]; simpl;
      [done|].
    apply (users_update_own d) in Hu as ->.
    split; [|by auto]. intros k Hk. by rewrite lookup_insert_ne.
  - rewrite rls_delete_denied in He by done. by injection He as <-.
  - apply bind_Ok in He as (t & Hi & [= <-]). simpl.
    apply rls_insert_Ok in Hi as (_ & _ & ->). by auto 10.
  - apply bind_Ok in He as ([hit t] & Hu & [= <-]). simpl.
    apply rls_update_Ok in Hu as [(_ & -> & _)|(old & new & _ & -> & _)];
      by auto 10.
  - rewrite rls_delete_denied in He by done. by injection He as <-.
  - apply bind_Ok in He as (t & Hi & [= <-]). simpl.
    apply rls_insert_Ok in Hi as (_ & _ & ->). by auto 10.
  - apply bind_Ok in He as ([hit t] & Hu & He).
    apply rls_update_Ok in Hu
      as [(-> & -> & _)|(old & new & -> & -> & _)].
    { injection He as <-. by rewrite with_enrollments_id. }
    unfold award_completion_xp in He.
    destruct (holds _); [|injection He as <-; simpl; by auto 10].
    apply bind_Ok in He as (d2 & Hau & Hg).
    apply generate_certificate_authenticated in Hg as [-> _].
    apply award_update_authenticated in Hau as [->|(u' & -> & Hs)]; simpl;
      [by auto 10|].
    split; [|by auto 10]. intros k Hk. by rewrite lookup_insert_ne.
  - injection He as <-. rewrite rls_delete_denied by done. cbn [snd].
    by rewrite with_enrollments_id.
  - apply bind_Ok in He as (t & Hi & [= <-]). simpl.
    apply rls_insert_Ok in Hi as (_ & Hchk & ->).
    unfold reviews_constraints in Hchk.
    do 2 apply bind_Ok in Hchk as ([] & _ & Hchk).
    apply bind_Ok in Hchk as ([] & Hfree%key_check_fresh & _).
    repeat split; try done. intros k r Hl.
    rewrite lookup_insert_ne; [done|congruence].
  - apply bind_Ok in He as ([hit t] & Hu & [= <-]). simpl.
    apply rls_update_Ok in Hu
      as [(_ & -> & _)|(? & ? & _ & _ & _ & _ & _ & Hu & _)]; done.
  - injection He as <-. rewrite rls_delete_denied by done. cbn [snd].
    by rewrite with_reviews_id.
  - apply bind_Ok in He as (t & Hi & _).
    by apply rls_insert_Ok in Hi as (Hc & _).
  - apply bind_Ok in He as ([hit t] & Hu & [= <-]). simpl.
    apply rls_update_Ok in Hu
      as [(_ & -> & _)|(? & ? & _ & _ & _ & _ & _ & Hu & _)]; done.
  - injection He as <-. rewrite rls_delete_denied by done. cbn [snd].
    by rewrite with_certificates_id.
  - apply bind_Ok in He as (t & _ & [= <-]). done.
  - apply bind_Ok in He as ([hit t] & _ & [= <-]). done.
  - injection He as <-. done.
Qed.

Lemma authenticated_run d me q :
  let d' := run d (authenticated me) q in
  (∀ k, k ≠ me → users d' !! k = users d !! k)
  ∧ (∀ k, is_Some (users d !! k) → is_Some (users d' !! k))
  ∧ (∀ k, is_Some (courses d !! k) → is_Some (courses d' !! k))
  ∧ (∀ k, is_Some (enrollments d !! k) → is_Some (enrollments d' !! k))
  ∧ (∀ k r, reviews d !! k = Some r → reviews d' !! k = Some r)
  ∧ certificates d' = certificates d.
Proof.
  unfold run. destruct (exec d (authenticated me) q) as [d'|e] eqn:He;
    [by apply (authenticated_step d me q)|done].
Qed.

(** X3: the profile of a user changes only by requests of that user:
    whatever the other signed-in users request, in whatever order, the row
    of [k] in users stays as it is (or stays absent). *)
Theorem profile_changes_only_by_its_user qs d k :
  (∀ uq, uq ∈ qs → uq.1 ≠ k) →
  users (run_all d qs) !! k = users d !! k.
Proof.
  unfold run_all. revert d. induction qs as [|[me q] qs IH]; intros d Hqs;
    [done|].
  simpl. rewrite IH by (intros uq Hin; apply Hqs; by right).
  destruct (authenticated_run d me q) as [Hother _]. apply Hother.
  intros ->. apply (Hqs (me, q)); [by left|done].
Qed.

Lemma profile_changes_only_by_its_user_witness :
  users
    (run_all sample.store
       [ (sample.ann, on_users (UPDATE sample.bob (sample.set_xp_points 9000)));
         (sample.mia,
          on_enrollments (UPDATE 22%N sample.set_completed) sample.draw);
         (sample.ann, on_users (DELETE sample.bob)) ])
    !! sample.bob
  = users sample.store !! sample.bob.
Proof.
  apply profile_changes_only_by_its_user.
  intros uq Hin. repeat (apply elem_of_cons in Hin as [->|Hin]; [done|]).
  by apply not_elem_of_nil in Hin.
Defined.

(** X4: through signed-in users the table of certificates never changes:
    there is no policy to insert, update or delete, and the INSERT of the
    trigger runs as the user whose UPDATE fired it. *)
Theorem certificates_fixed_for_signed_in_users qs d :
  certificates (run_all d qs) = certificates d.
Proof.
  unfold run_all. revert d. induction qs as [|[me q] qs IH]; intros d; [done|].
  simpl. rewrite IH. by destruct (authenticated_run d me q) as (_ & _ & _ & _ & _ & ?).
Qed.




(** ** The two award functions *)

Lemma int4_Ok (z : option Z) (r : option Z) :
  int4 z = Ok r ↔
  r = z ∧ ∀ v, z = Some v → int4_min ≤ v ≤ int4_max.
Proof.
  unfold int4. destruct z as [v|]; [|naive_solver].
  case_bool_decide; naive_solver.
Qed.

Lemma calculate_level_NULL : calculate_level None = Ok (Some 1).
Proof. reflexivity. Qed.

(** X6: the award of the first migration keeps the level for every
    xp_points, negative ones too: after award_xp_and_badges has updated a
    user, level_number is max(1, floor(xp_points / 100) + 1), and it is 1
    when xp_points is NULL. *)
Theorem award_xp_and_badges_keeps_level amount u u' :
  award_xp_and_badges_set amount u = Ok u' →
  users.xp_points u' = num_add (users.xp_points u) amount
  ∧ (∀ x, users.xp_points u' = Some x →
          users.level_number u' = Some (level_of x))
  ∧ (users.xp_points u' = None → users.level_number u' = Some 1).
Proof.
  unfold award_xp_and_badges_set. intros H.
  apply bind_Ok in H as (xp & Hxp & H). apply bind_Ok in H as (lvl & Hl & H).
  injection H as <-. simpl.
  assert (xp = num_add (users.xp_points u) amount
          ∧ ∀ v, xp = Some v → int4_min ≤ v ≤ int4_max) as [-> Hr].
  { unfold int4_add in Hxp.
    destruct (users.xp_points u) as [x|], amount as [a|]; simpl;
      try (injection Hxp as <-; naive_solver).
    apply int4_Ok in Hxp as [-> Hr]. naive_solver. }
  split; [done|]. split.
  - intros x Hx. rewrite Hx in Hl, Hr.
    rewrite calculate_level_int4 in Hl by auto. by injection Hl as <-.
  - intros Hx. rewrite Hx in Hl. by injection Hl as <-.
Qed.

Lemma award_xp_and_badges_keeps_level_witness :
  let u' := sample.profile "ann@campus.example" student (-200) 1 in
  users.xp_points u'
    = num_add (users.xp_points
                 (sample.profile "ann@campus.example" student (-250) 1))
              (Some 50)
  ∧ (∀ x, users.xp_points u' = Some x →
          users.level_number u' = Some (level_of x))
  ∧ (users.xp_points u' = None → users.level_number u' = Some 1).
Proof.
  apply (award_xp_and_badges_keeps_level (Some 50)
           (sample.profile "ann@campus.example" student (-250) 1)).
  reflexivity.
Defined.

Lemma award_set_cases u x :
  users.xp_points u = Some x →
  int4_min ≤ x ≤ int4_max →
  (int4_max - 50 < x ∧ award_set u = Err numeric_value_out_of_range
   ∧ award_xp_and_badges_set (Some 50) u = Err numeric_value_out_of_range)
  ∨ (x ≤ int4_max - 50
     ∧ award_set u
       = Ok {| users.email := users.email u;
               users.year_of_study := users.year_of_study u;
               users.role := users.role u;
               users.xp_points := Some (x + 50);
               users.level_number := Some ((x + 50) ÷ 100 + 1);
               users.is_verified := users.is_verified u |}
     ∧ award_xp_and_badges_set (Some 50) u
       = Ok {| users.email := users.email u;
               users.year_of_study := users.year_of_study u;
               users.role := users.role u;
               users.xp_points := Some (x + 50);
               users.level_number := Some (level_of (x + 50));
               users.is_verified := users.is_verified u |}).
Proof.
  intros Hx Hr. unfold award_set, award_xp_and_badges_set.
  rewrite Hx. unfold int4_min, int4_max in *. simpl.
  destruct (decide (x ≤ 2 ^ 31 - 1 - 50)) as [Hle|Hgt].
  - right. split; [done|].
    rewrite (bool_decide_eq_true_2 (_ ≤ x + 50 ≤ _))
      by (unfold int4_min, int4_max; lia).
    simpl.
    assert (-21474836 ≤ (x + 50) ÷ 100 ≤ 21474836)
      by (Z.quot_rem_to_equations; lia).
    rewrite (bool_decide_eq_true_2 (_ ≤ (x + 50) ÷ 100 ≤ _))
      by (unfold int4_min, int4_max; lia).
    simpl.
    rewrite (bool_decide_eq_true_2 (_ ≤ (x + 50) ÷ 100 + 1 ≤ _))
      by (unfold int4_min, int4_max; lia).
    simpl. split; [done|].
    unfold calculate_level. simpl.
    rewrite (bool_decide_eq_true_2 (_ ≤ (x + 50) ÷ 100 ≤ _))
      by (unfold int4_min, int4_max; lia).
    simpl.
    rewrite (bool_decide_eq_true_2 (_ ≤ (x + 50) ÷ 100 + 1 ≤ _))
      by (unfold int4_min, int4_max; lia).
    simpl. by rewrite GREATEST_quot_100_level.
  - left. split; [lia|].
    rewrite (bool_decide_eq_false_2 (_ ≤ x + 50 ≤ _))
      by (unfold int4_min, int4_max; lia).
    done.
Qed.

(** X7: on a user whose xp_points is a stored integer [x], the award of the
    trigger and the award of the first migration with 50 points give the
    same result exactly when x > -150.  When xp_points is NULL they
    differ. *)
Theorem award_versions_agree u :
  (∀ x, users.xp_points u = Some x → int4_min ≤ x ≤ int4_max →
        (award_set u = award_xp_and_badges_set (Some 50) u ↔ -150 < x))
  ∧ (users.xp_points u = None →
     award_set u ≠ award_xp_and_badges_set (Some 50) u).
Proof.
  split.
  - intros x Hx Hr.
    destruct (award_set_cases u x Hx Hr)
      as [(Hgt & -> & ->)|(Hle & -> & ->)].
    + unfold int4_max in Hgt. split; [lia|done].
    + split.
      * intros [= He]. rewrite <- GREATEST_quot_100_level in He.
        Z.quot_rem_to_equations. lia.
      * intros Hlow. do 2 f_equal. f_equal.
        rewrite <- GREATEST_quot_100_level.
        Z.quot_rem_to_equations. lia.
  - intros Hx. unfold award_set, award_xp_and_badges_set. rewrite Hx.
    simpl. intros [=].
Qed.

Lemma award_versions_agree_witness :
  (award_set (sample.profile "ann@campus.example" student 80 1)
   = award_xp_and_badges_set (Some 50)
       (sample.profile "ann@campus.example" student 80 1)
   ↔ -150 < 80).
Proof.
  apply (proj1 (award_versions_agree
                  (sample.profile "ann@campus.example" student 80 1)) 80);
    [reflexivity|unfold int4_min, int4_max; lia].
Defined.

(** X8: the award overflows exactly above 2147483597 xp_points, and then
    the owner's completion of an enrollment of that student fails with
    numeric_value_out_of_range and leaves the database as it was, the flag
    included. *)
Theorem completion_overflows_above_2147483597 :
  (∀ u x, users.xp_points u = Some x → int4_min ≤ x ≤ int4_max →
          (award_set u = Err numeric_value_out_of_range ↔ 2147483597 < x))
  ∧ (∀ d k set g old new sid u x,
       enrollments d !! k = Some old →
       set old = Ok new →
       enrollments_constraints false d k new = Ok () →
       enrollments.is_completed old = Some false →
       enrollments.is_completed new = Some true →
       enrollments.student_id new = Some sid →
       users d !! sid = Some u →
       users.xp_points u = Some x →
       2147483597 < x ≤ int4_max →
       exec d owner (on_enrollments (UPDATE k set) g)
         = Err numeric_value_out_of_range
       ∧ run d owner (on_enrollments (UPDATE k set) g) = d).
Proof.
  split.
  - intros u x Hx Hr.
    destruct (award_set_cases u x Hx Hr) as [(Hgt & -> & _)|(Hle & -> & _)];
      unfold int4_max in *; split; (done || lia).
  - intros d k set g old new sid u x Hk Hset Hchk Ho Hn Hsid Hu Hx Hr.
    assert (exec d owner (on_enrollments (UPDATE k set) g)
            = Err numeric_value_out_of_range) as He.
    { unfold exec, exec_enrollments, rls_update. cbn [as_principal].
      rewrite Hk. cbn [bypass select_using update_using update_check andb].
      rewrite Hset. simpl. rewrite Hchk. simpl.
      rewrite award_completion_xp_on_edge by done.
      unfold award_update, rls_update. rewrite Hsid. cbn [as_principal].
      change (users (with_enrollments (<[k:=new]> (enrollments d)) d))
        with (users d).
      rewrite Hu. cbn [bypass select_using update_using update_check andb].
      destruct (award_set_cases u x Hx) as [(_ & -> & _)|(Hle & _)];
        unfold int4_min, int4_max in *; (done || lia). }
    split; [done|]. unfold run. by rewrite He.
Qed.

Lemma completion_overflows_above_2147483597_witness :
  exec more_samples.rich_store owner
    (on_enrollments (UPDATE 20%N sample.set_completed) sample.draw)
    = Err numeric_value_out_of_range
  ∧ run more_samples.rich_store owner
      (on_enrollments (UPDATE 20%N sample.set_completed) sample.draw)
    = more_samples.rich_store.
Proof.
  apply (proj2 completion_overflows_above_2147483597
           more_samples.rich_store 20%N sample.set_completed sample.draw
           (sample.enrolled sample.ann (Some sample.rocq_course) false)
           (sample.enrolled sample.ann (Some sample.rocq_course) true)
           sample.ann
           (sample.profile "ann@campus.example" student 2147483645 1)
           2147483645);
    try (vm_compute; reflexivity).
  unfold int4_max. lia.
Defined.

Lemma level_of_plus_50 (x : Z) :
  0 ≤ x →
  level_of (x + 50)
  = level_of x + (if bool_decide (50 ≤ x `mod` 100) then 1 else 0).
Proof.
  intros Hx. unfold level_of. case_bool_decide; Z.div_mod_to_equations; lia.
Qed.

(** X9: for a user with xp_points x ≥ 0 at the level of x, one completion
    raises the level by one exactly when the last two digits of x are 50 or
    more, and leaves it otherwise; two completions raise it by exactly
    one. *)
Theorem award_raises_level u u' x :
  award_set u = Ok u' →
  users.xp_points u = Some x →
  0 ≤ x →
  users.level_number u'
    = Some (level_of x + (if bool_decide (50 ≤ x `mod` 100) then 1 else 0))
  ∧ ∀ u'', award_set u' = Ok u'' →
           users.xp_points u'' = Some (x + 100)
           ∧ users.level_number u'' = Some (level_of x + 1).
Proof.
  intros H Hx Hpos.
  apply award_set_Ok in H as (_ & _ & _ & _ & Hxp & Hlvl).
  rewrite Hx in Hxp, Hlvl. simpl in Hxp. split.
  - by rewrite Hlvl, quot_100_level, level_of_plus_50 by lia.
  - intros u'' H'. apply award_set_Ok in H' as (_ & _ & _ & _ & Hxp' & Hlvl').
    rewrite Hxp in Hxp', Hlvl'. simpl in Hxp'.
    split; [rewrite Hxp'; f_equal; lia|].
    rewrite Hlvl', quot_100_level by lia. f_equal.
    unfold level_of. Z.div_mod_to_equations. lia.
Qed.

Lemma award_raises_level_witness :
  users.level_number (sample.profile "ann@campus.example" student 130 2)
    = Some (level_of 80 + (if bool_decide (50 ≤ 80 `mod` 100) then 1 else 0))
  ∧ ∀ u'',
      award_set (sample.profile "ann@campus.example" student 130 2) = Ok u'' →
      users.xp_points u'' = Some (80 + 100)
      ∧ users.level_number u'' = Some (level_of 80 + 1).
Proof.
  apply (award_raises_level
           (sample.profile "ann@campus.example" student 80 1)
           (sample.profile "ann@campus.example" student 130 2) 80);
    [reflexivity|reflexivity|lia].
Defined.

(** ** The certificate_id *)

Lemma length_UPPER (s : string) : String.length (UPPER s) = String.length s.
Proof. induction s as [|c s IH]; simpl; congruence. Qed.

Lemma length_SUBSTRING_1 (n : nat) (s : string) :
  String.length (SUBSTRING_1 n s) = Nat.min n (String.length s).
Proof.
  unfold SUBSTRING_1. revert s.
  induction n as [|n IH]; intros [|c s]; simpl; try done.
  by rewrite IH.
Qed.

Lemma upper_ascii_idemp (c : ascii) : upper_ascii (upper_ascii c) = upper_ascii c.
Proof.
  destruct c as [[] [] [] [] [] [] [] []]; reflexivity.
Qed.

Lemma UPPER_idemp (s : string) : UPPER (UPPER s) = UPPER s.
Proof.
  induction s as [|c s IH]; simpl; [done|].
  by rewrite upper_ascii_idemp, IH.
Qed.

Lemma get_UPPER (i : nat) (s : string) :
  String.get i (UPPER s) = upper_ascii <$> String.get i s.
Proof.
  revert i. induction s as [|c s IH]; intros [|i]; simpl; auto.
Qed.

Lemma get_SUBSTRING_1 (n i : nat) (s : string) :
  (i < n)%nat → String.get i (SUBSTRING_1 n s) = String.get i s.
Proof.
  intros Hi. unfold SUBSTRING_1.
  rewrite (String.substring_correct1 s 0 n i Hi). by rewrite Nat.add_0_r.
Qed.

(** X10: a certificate_id is CERT- followed by the first eight characters
    of the uuid drawn (all of it, if it is shorter), each in upper case: so
    many characters, and the i-th of them the upper case of the i-th of
    the uuid.  It is decided by those eight characters.  When the id drawn
    is one that a certificate already has, the INSERT of the trigger fails
    with unique_violation, and with it the trigger: the completion is not
    carried out. *)
Theorem certificate_id_is_8_characters :
  (∀ g, (∃ t, certificate_text g = ("CERT-" ++ t)%string
               ∧ String.length t
                 = Nat.min 8 (String.length (certificate_uuid g))
               ∧ (∀ i, (i < 8)%nat →
                       String.get i t
                       = upper_ascii <$> String.get i (certificate_uuid g))
               ∧ UPPER t = t)
        ∧ ∀ g', SUBSTRING_1 8 (certificate_uuid g)
                = SUBSTRING_1 8 (certificate_uuid g') →
                certificate_text g = certificate_text g')
  ∧ (∀ OLD NEW g d d1 cid c k' c',
       enrollments.is_completed OLD = Some false →
       enrollments.is_completed NEW = Some true →
       award_update owner (enrollments.student_id NEW) d = Ok d1 →
       enrollments.course_id NEW = Some cid →
       courses d !! cid = Some c →
       certificates d !! certificate_key g = None →
       certificates d !! k' = Some c' →
       certificates.certificate_id c' = certificate_text g →
       award_completion_xp owner OLD NEW g d = Err unique_violation).
Proof.
  split.
  - intros g. split.
    + eexists. split; [done|]. split; [|split].
      * by rewrite length_UPPER, length_SUBSTRING_1.
      * intros i Hi. by rewrite get_UPPER, get_SUBSTRING_1.
      * apply UPPER_idemp.
    + intros g' H. unfold certificate_text. by rewrite H.
  - intros OLD NEW g d d1 cid c k' c' Ho Hn Hau Hcid Hc Hfree Hk' Hid.
    rewrite award_completion_xp_on_edge, Hau by done. simpl.
    apply award_update_frame in Hau as (Hco & _ & _ & Hce & _).
    unfold generate_certificate. rewrite Hcid. cbn [as_principal].
    rewrite rls_select_bypass, Hco, Hc.
    unfold rls_insert. cbn [bypass insert_check].
    unfold certificates_constraints, key_check, pk_free. rewrite Hce, Hfree.
    simpl.
    assert (exists_row
              (λ id c0, bool_decide (id ≠ certificate_key g)
                 && bool_decide (certificates.certificate_id c0
                                 = certificate_text g))
              (certificates d) = true) as ->; [|done].
    apply exists_row_true. exists k', c'. split; [done|].
    rewrite !bool_decide_eq_true_2; [done..|]. congruence.
Qed.

Lemma certificate_id_is_8_characters_witness :
  award_completion_xp owner
    (sample.enrolled sample.bob (Some sample.rocq_course) false)
    (sample.enrolled sample.bob (Some sample.rocq_course) true)
    more_samples.colliding_draw more_samples.completed_store
  = Err unique_violation.
Proof.
  apply (proj2 certificate_id_is_8_characters
           (sample.enrolled sample.bob (Some sample.rocq_course) false)
           (sample.enrolled sample.bob (Some sample.rocq_course) true)
           more_samples.colliding_draw more_samples.completed_store
           (with_users
              (<[sample.bob := sample.profile "bob@campus.example" student 50 1]>
                 (users more_samples.completed_store))
              more_samples.completed_store)
           sample.rocq_course
           {| courses.mentor_id := Some sample.mia;
              courses.is_active := Some true |}
           30%N
           {| certificates.student_id := Some sample.ann;
              certificates.course_id := Some sample.rocq_course;
              certificates.mentor_id := Some sample.mia;
              certificates.certificate_id := "CERT-3F2A9C1E" |});
    vm_compute; reflexivity.
Defined.

(** ** What the policies let a signed-in user do *)

Lemma holds_eq_col_refl `{EqDecision A} (x : A) :
  holds (eq_col (Some x) (Some x)) = true.
Proof. apply holds_eq_col. eauto. Qed.

(** X11: the policy for enrolling looks at student_id only.  A student
    can insert an enrollment of the own that is completed from the start,
    and with it in the table the review of that course goes through: no
    mentor has to complete anything. *)
Theorem self_completed_enrollment_allows_review d s c ke e g kr r :
  enrollments.student_id e = Some s →
  enrollments.course_id e = Some c →
  enrollments.is_completed e = Some true →
  enrollments_constraints true d ke e = Ok () →
  let d1 := with_enrollments (<[ke := e]> (enrollments d)) d in
  reviews.student_id r = Some s →
  reviews.course_id r = Some c →
  reviews_constraints true d1 kr r = Ok () →
  exec d (authenticated s) (on_enrollments (INSERT ke e) g) = Ok d1
  ∧ exec d1 (authenticated s) (on_reviews (INSERT kr r))
    = Ok (with_reviews (<[kr := r]> (reviews d1)) d1).
Proof.
  intros Hs Hc Hdone Hchk d1 Hrs Hrc Hrchk. split.
  - unfold exec, exec_enrollments, rls_insert.
    cbn [as_principal enrollments_policy insert_check].
    by rewrite Hs, holds_eq_col_refl, Hchk.
  - rewrite exec_reviews_insert, Hrchk.
    rewrite (proj2 (reviews_insert_check_true d1 s kr r)); [done|].
    split; [done|]. exists ke, e, c. subst d1. simpl.
    by rewrite lookup_insert_eq.
Qed.

Lemma self_completed_enrollment_allows_review_witness :
  let e := sample.enrolled sample.ann (Some sample.rocq_course) true in
  let r := sample.review sample.ann sample.rocq_course 1 in
  let store := with_enrollments (delete 20%N (enrollments sample.store))
                 sample.store in
  let d1 := with_enrollments (<[23%N := e]> (enrollments store)) store in
  exec store (authenticated sample.ann)
    (on_enrollments (INSERT 23%N e) sample.draw) = Ok d1
  ∧ exec d1 (authenticated sample.ann) (on_reviews (INSERT 40%N r))
    = Ok (with_reviews (<[40%N := r]> (reviews d1)) d1).
Proof.
  apply (self_completed_enrollment_allows_review
           (with_enrollments (delete 20%N (enrollments sample.store))
              sample.store)
           sample.ann sample.rocq_course 23%N
           (sample.enrolled sample.ann (Some sample.rocq_course) true)
           sample.draw 40%N
           (sample.review sample.ann sample.rocq_course 1));
    vm_compute; reflexivity.
Defined.

(** X12: every signed-in user with a profile can write admin into the own
    role, and from then on passes the policy for creating courses,
    whatever the role was. *)
Theorem any_user_can_become_admin d me u :
  users d !! me = Some u →
  let u' := {| users.email := users.email u;
               users.year_of_study := users.year_of_study u;
               users.role := Some admin;
               users.xp_points := users.xp_points u;
               users.level_number := users.level_number u;
               users.is_verified := users.is_verified u |} in
  users_constraints false d me u' = Ok () →
  let d1 := with_users (<[me := u']> (users d)) d in
  exec d (authenticated me) (on_users (UPDATE me (SET_role (Some admin))))
    = Ok d1
  ∧ ∀ k r, courses_constraints true d1 k r = Ok () →
           exec d1 (authenticated me) (on_courses (INSERT k r))
           = Ok (with_courses (<[k := r]> (courses d1)) d1).
Proof.
  intros Hu u' Hchk d1. split.
  - unfold exec, exec_users, rls_update. cbn [as_principal]. rewrite Hu.
    cbn [users_policy select_using update_using update_check].
    rewrite holds_eq_col_refl. simpl. fold u'. by rewrite Hchk.
  - intros k r Hc. unfold exec, exec_courses, rls_insert. cbn [as_principal].
    rewrite (proj2 (courses_insert_check_true d1 me k r)), Hc; [done|].
    exists u'. subst d1. simpl. rewrite lookup_insert_eq. auto.
Qed.

Lemma any_user_can_become_admin_witness :
  let u' := sample.profile "ann@campus.example" admin 80 1 in
  let d1 := with_users (<[sample.ann := u']> (users sample.store))
              sample.store in
  exec sample.store (authenticated sample.ann)
    (on_users (UPDATE sample.ann (SET_role (Some admin)))) = Ok d1
  ∧ ∀ k r, courses_constraints true d1 k r = Ok () →
           exec d1 (authenticated sample.ann) (on_courses (INSERT k r))
           = Ok (with_courses (<[k := r]> (courses d1)) d1).
Proof.
  apply (any_user_can_become_admin sample.store sample.ann
           (sample.profile "ann@campus.example" student 80 1));
    vm_compute; reflexivity.
Defined.

(** X13: a mentor cannot take an own course out of the list: the UPDATE
    that sets is_active to anything but true fails with
    insufficient_privilege, because the new row must be one the mentor may
    still read.  And a course that is not active is out of the reach of
    every signed-in user: an UPDATE of it finds no row and changes
    nothing. *)
Theorem mentor_cannot_deactivate_course :
  (∀ d me k c b,
     courses d !! k = Some c →
     courses.mentor_id c = Some me →
     courses.is_active c = Some true →
     b ≠ Some true →
     exec d (authenticated me) (on_courses (UPDATE k (SET_is_active b)))
       = Err insufficient_privilege)
  ∧ (∀ d me k c set,
       courses d !! k = Some c →
       courses.is_active c ≠ Some true →
       exec d (authenticated me) (on_courses (UPDATE k set)) = Ok d).
Proof.
  split.
  - intros d me k c b Hk Hm Ha Hb.
    unfold exec, exec_courses, rls_update. cbn [as_principal]. rewrite Hk.
    cbn [courses_policy select_using update_using update_check].
    rewrite Ha, Hm, !holds_eq_col_refl. simpl.
    rewrite Hm, holds_eq_col_refl. by destruct b as [[]|].
  - intros d me k c set Hk Ha.
    unfold exec, exec_courses, rls_update. cbn [as_principal]. rewrite Hk.
    cbn [courses_policy select_using].
    assert (holds (eq_col (courses.is_active c) (Some true)) = false) as ->.
    { destruct (holds _) eqn:Hh; [|done].
      by apply holds_eq_col_Some in Hh. }
    simpl. by rewrite with_courses_id.
Qed.

Lemma mentor_cannot_deactivate_course_witness :
  exec sample.store (authenticated sample.mia)
    (on_courses (UPDATE sample.rocq_course (SET_is_active (Some false))))
  = Err insufficient_privilege.
Proof.
  apply (proj1 mentor_cannot_deactivate_course sample.store sample.mia
           sample.rocq_course
           {| courses.mentor_id := Some sample.mia;
              courses.is_active := Some true |}
           (Some false));
    done.
Defined.

(** X14: who reads an enrollment: the student of the row, and the mentor
    of its course as long as the course is active.  Nobody else, and not
    the mentor of a course that is not active. *)
Theorem enrollment_is_read_by_student_and_mentor d me k e :
  read enrollments_policy enrollments d (authenticated me) !! k = Some e ↔
  enrollments d !! k = Some e
  ∧ (enrollments.student_id e = Some me
     ∨ ∃ cid c, enrollments.course_id e = Some cid ∧
                courses d !! cid = Some c ∧
                courses.is_active c = Some true ∧
                courses.mentor_id c = Some me).
Proof.
  unfold read. rewrite rls_select_lookup. cbn [as_principal].
  unfold enrollments_policy. cbn [select_using].
  by rewrite orb_true_iff, holds_eq_col_Some, mentor_of_course_true.
Qed.

(** ** The requests of the client *)

Lemma handleEnroll_result d me c id now g u co :
  users d !! me = Some u →
  courses d !! c = Some co →
  enrollments d !! id = None →
  let already :=
    ∃ k e, enrollments d !! k = Some e ∧
           enrollments.student_id e = Some me ∧
           enrollments.course_id e = Some c in
  let d' :=
    with_enrollments
      (<[id := {| enrollments.student_id := Some me;
                  enrollments.course_id := Some c;
                  enrollments.enrolled_at := Some now;
                  enrollments.completed_at := None;
                  enrollments.is_completed := Some false |}]>
         (enrollments d)) d in
  (already → send d (handleEnroll (Some me) c id now g) = Err unique_violation)
  ∧ (¬ already →
     send d (handleEnroll (Some me) c id now g) = Ok d'
     ∧ ∀ kr r, reviews.student_id r = Some me →
               reviews.course_id r = Some c →
               exec d' (authenticated me) (on_reviews (INSERT kr r))
               = Err insufficient_privilege)
  ∧ send d (handleEnroll None c id now g) = Ok d.
Proof.
  intros Hu Hc Hid already d'.
  assert (exists_row
            (λ k e, bool_decide (k ≠ id)
               && holds (tv_and (eq_col (enrollments.student_id e) (Some me))
                                (eq_col (enrollments.course_id e) (Some c))))
            (enrollments d) = true ↔ already) as Hex.
  { rewrite exists_row_true. subst already. split.
    - intros (k & e & Hl & [_ Hh]%andb_true_iff).
      apply holds_and in Hh as [?%holds_eq_col_Some ?%holds_eq_col_Some].
      by exists k, e.
    - intros (k & e & Hl & Hs & Hco). exists k, e. split; [done|].
      rewrite bool_decide_eq_true_2 by congruence. simpl.
      apply holds_and. by rewrite Hs, Hco, !holds_eq_col_refl. }
  assert (send d (handleEnroll (Some me) c id now g)
          = if exists_row
                 (λ k e, bool_decide (k ≠ id)
                    && holds (tv_and
                                (eq_col (enrollments.student_id e) (Some me))
                                (eq_col (enrollments.course_id e) (Some c))))
                 (enrollments d)
            then Err unique_violation else Ok d') as Hsend.
  { unfold send, handleEnroll, exec, exec_enrollments, rls_insert.
    cbn [as_principal enrollments_policy insert_check enrollments.student_id].
    rewrite holds_eq_col_refl.
    unfold enrollments_constraints, key_check, pk_free.
    cbn [enrollments.student_id enrollments.course_id references].
    rewrite Hid, Hu, Hc. simpl. by destruct (exists_row _ _). }
  split; [|split; [|done]].
  - intros Ha. apply Hex in Ha. by rewrite Hsend, Ha.
  - intros Hna. rewrite Hsend.
    destruct (exists_row _ _); [destruct Hna; by apply Hex|].
    split; [done|]. intros kr r Hrs Hrc. rewrite exec_reviews_insert.
    destruct (insert_check _ _ _) eqn:Hi; [|done].
    apply reviews_insert_check_true in Hi
      as (_ & ek & e & c' & Hl & Hs & Hco & Hrc' & Hdone).
    assert (c' = c) as -> by congruence. subst d'. simpl in Hl.
    destruct (decide (ek = id)) as [->|Hne].
    + rewrite lookup_insert_eq in Hl. by injection Hl as <-.
    + rewrite lookup_insert_ne in Hl by done. destruct Hna. by exists ek, e.
Qed.

(** X15: handleEnroll.  For a signed-in student with a profile, a course
    that exists and a new key, the request fails with unique_violation
    when the student already has an enrollment in the course, and goes
    through otherwise; the enrollment it stores is not completed, so that a
    review of the course by the student is still refused afterwards.
    Without a profile nothing is sent. *)
Theorem handleEnroll_enrolls_once d me c id now g u co :
  users d !! me = Some u →
  courses d !! c = Some co →
  enrollments d !! id = None →
  let already :=
    ∃ k e, enrollments d !! k = Some e ∧
           enrollments.student_id e = Some me ∧
           enrollments.course_id e = Some c in
  let d' :=
    with_enrollments
      (<[id := {| enrollments.student_id := Some me;
                  enrollments.course_id := Some c;
                  enrollments.enrolled_at := Some now;
                  enrollments.completed_at := None;
                  enrollments.is_completed := Some false |}]>
         (enrollments d)) d in
  (already → send d (handleEnroll (Some me) c id now g) = Err unique_violation)
  ∧ (¬ already →
     send d (handleEnroll (Some me) c id now g) = Ok d'
     ∧ ∀ kr r, reviews.student_id r = Some me →
               reviews.course_id r = Some c →
               exec d' (authenticated me) (on_reviews (INSERT kr r))
               = Err insufficient_privilege)
  ∧ send d (handleEnroll None c id now g) = Ok d.
Proof. apply handleEnroll_result. Qed.

Lemma handleEnroll_enrolls_once_witness :
  send sample.store
    (handleEnroll (Some sample.ann) sample.rocq_course 23%N 1754300000
       sample.draw)
  = Err unique_violation.
Proof.
  apply (handleEnroll_enrolls_once sample.store sample.ann sample.rocq_course
           23%N 1754300000 sample.draw
           (sample.profile "ann@campus.example" student 80 1)
           {| courses.mentor_id := Some sample.mia;
              courses.is_active := Some true |});
    try reflexivity.
  exists 20%N, (sample.enrolled sample.ann (Some sample.rocq_course) false).
  by vm_compute.
Defined.

Section CreateCourse_facts.
Context {number : Type}.
Variable parseInt : string → number.
Variable to_numeric_10_2 : number → result ().
Variable to_integer : number → result (option Z).

Notation conversion := (convert to_numeric_10_2 to_integer).
Notation submit := (CreateCourse.submit to_numeric_10_2 to_integer).
Notation handleSubmit := (CreateCourse.handleSubmit parseInt).
Notation values := (CreateCourse.values parseInt).

Lemma handleSubmit_result d me id u f :
  users d !! me = Some u →
  courses d !! id = None →
  let row := {| courses.mentor_id := Some me;
                courses.is_active := Some true |} in
  let d' := with_courses (<[id := row]> (courses d)) d in
  let writer := users.role u = Some mentor ∨ users.role u = Some admin in
  match conversion (values me f) with
  | Err e => submit d id (handleSubmit (Some me) f) = Err e
  | Ok hours =>
      (¬ writer →
       submit d id (handleSubmit (Some me) f) = Err insufficient_privilege)
      ∧ (writer → hours = None →
         submit d id (handleSubmit (Some me) f) = Err not_null_violation)
      ∧ (writer → is_Some hours →
         submit d id (handleSubmit (Some me) f) = Ok d'
         ∧ ∀ other, read courses_policy courses d' (authenticated other) !! id
                    = Some row)
  end.
Proof.
  intros Hu Hid row d' writer.
  assert (insert_check (courses_policy d me) id row = true ↔ writer) as Hpol.
  { rewrite courses_insert_check_true. split; [|by eauto].
    intros (u0 & Hu0 & Hr). unfold writer. congruence. }
  unfold CreateCourse.submit, CreateCourse.handleSubmit, insert_courses_json.
  destruct (conversion (values me f)) as [hours|e]; [|done].
  cbn [mbind result_bind]. unfold rls_insert. cbn [as_principal].
  change (courses_json.mentor_id (values me f)) with me. fold row.
  split; [|split].
  - intros Hr. destruct (insert_check _ _ _); [|done].
    destruct Hr. by apply Hpol.
  - intros Hr ->. apply Hpol in Hr. by rewrite Hr.
  - intros Hr [h ->]. apply Hpol in Hr. rewrite Hr.
    unfold courses_constraints, key_check, pk_free. subst row.
    cbn [courses.mentor_id references]. rewrite Hid, Hu. simpl.
    split; [done|]. intros other. unfold read. apply rls_select_lookup.
    subst d'. simpl. by rewrite lookup_insert_eq.
Qed.

Lemma truthy_true (t : string) : CreateCourse.truthy t = true ↔ t ≠ "".
Proof.
  unfold CreateCourse.truthy. rewrite negb_true_iff, <- not_true_iff_false.
  by rewrite String.eqb_eq.
Qed.

(** The numbers of a form that the store reads without error. *)
Lemma convert_values_Ok me f hours :
  conversion (values me f) = Ok hours ↔
  to_numeric_10_2 (CreateCourse.price f) = Ok ()
  ∧ to_integer (CreateCourse.duration_hours f) = Ok hours
  ∧ (CreateCourse.max_students f = ""
     ∨ ∃ m, to_integer (parseInt (CreateCourse.max_students f)) = Ok m).
Proof.
  unfold convert, CreateCourse.values.
  cbn [courses_json.price courses_json.duration_hours
       courses_json.max_students].
  destruct (to_numeric_10_2 _) as [[]|]; simpl; [|naive_solver].
  destruct (to_integer (CreateCourse.duration_hours f)) as [h|]; simpl;
    [|naive_solver].
  destruct (CreateCourse.truthy _) eqn:Ht.
  - apply truthy_true in Ht.
    destruct (to_integer (parseInt _)) as [m|]; simpl; naive_solver.
  - apply not_true_iff_false in Ht. rewrite truthy_true in Ht.
    apply dec_stable in Ht. simpl. naive_solver.
Qed.

Lemma convert_values_Err me f e :
  conversion (values me f) = Err e →
  to_numeric_10_2 (CreateCourse.price f) = Err e
  ∨ to_integer (CreateCourse.duration_hours f) = Err e
  ∨ (CreateCourse.max_students f ≠ ""
     ∧ to_integer (parseInt (CreateCourse.max_students f)) = Err e).
Proof.
  unfold convert, CreateCourse.values.
  cbn [courses_json.price courses_json.duration_hours
       courses_json.max_students].
  destruct (to_numeric_10_2 _) as [[]|]; simpl; [|naive_solver].
  destruct (to_integer (CreateCourse.duration_hours f)) as [h|]; simpl;
    [|naive_solver].
  destruct (CreateCourse.truthy _) eqn:Ht; [|done].
  apply truthy_true in Ht.
  destruct (to_integer (parseInt _)) as [m|]; simpl; naive_solver.
Qed.

(** X16: handleSubmit of CreateCourse, for a signed-in user with a profile
    and a new key.  The request carries the price and the duration_hours
    of the form and, unless the field is empty, parseInt of max_students.
    When the store cannot read one of these numbers into its column, the
    request fails with the error of such a conversion, whoever sends it.
    Otherwise it is refused with insufficient_privilege unless the role of
    the user is mentor or admin; for those it fails with
    not_null_violation when duration_hours is sent as null, and else goes
    through.  The course it stores names the creator as mentor_id and is
    read by every signed-in user. *)
Theorem handleSubmit_creates_own_course d me id u f :
  users d !! me = Some u →
  courses d !! id = None →
  let row := {| courses.mentor_id := Some me;
                courses.is_active := Some true |} in
  let d' := with_courses (<[id := row]> (courses d)) d in
  let writer := users.role u = Some mentor ∨ users.role u = Some admin in
  let answer := submit d id (handleSubmit (Some me) f) in
  let price := to_numeric_10_2 (CreateCourse.price f) in
  let hours := to_integer (CreateCourse.duration_hours f) in
  let students := to_integer (parseInt (CreateCourse.max_students f)) in
  ((∃ e, price = Err e) ∨ (∃ e, hours = Err e)
   ∨ (CreateCourse.max_students f ≠ "" ∧ ∃ e, students = Err e) →
   ∃ e, answer = Err e
        ∧ (price = Err e ∨ hours = Err e ∨ students = Err e))
  ∧ (∀ h, price = Ok () → hours = Ok h →
          (CreateCourse.max_students f = "" ∨ ∃ m, students = Ok m) →
          (¬ writer → answer = Err insufficient_privilege)
          ∧ (writer → h = None → answer = Err not_null_violation)
          ∧ (writer → is_Some h →
             answer = Ok d'
             ∧ ∀ other,
                 read courses_policy courses d' (authenticated other) !! id
                 = Some row)).
Proof.
  intros Hu Hid row d' writer answer price hours students.
  pose proof (handleSubmit_result d me id u f Hu Hid) as H. cbn zeta in H.
  split.
  - intros Hfail.
    destruct (conversion (values me f)) as [h|e] eqn:Hc.
    + apply convert_values_Ok in Hc as (Hp & Hh & Hs).
      subst price hours students.
      destruct Hfail as [[e He]|[[e He]|[Hne [e He]]]]; [congruence..|].
      destruct Hs as [?|[m Hm]]; congruence.
    + exists e. split; [done|].
      apply convert_values_Err in Hc. naive_solver.
  - intros h Hp Hh Hs.
    assert (conversion (values me f) = Ok h) as Hc
      by by apply convert_values_Ok.
    by rewrite Hc in H.
Qed.

Lemma shows_form_true role year :
  CreateCourse.shows_form role year = true ↔
  (role = Some mentor ∨ role = Some admin) ∨ ∃ y, year = Some y ∧ 2 ≤ y.
Proof.
  unfold CreateCourse.shows_form.
  destruct year as [y|];
    repeat case_bool_decide; simpl; split; try done.
  all: try (intros _; right; exists y; split; [done|lia]).
  all: try (intros _; left; destruct role as [[]|]; naive_solver).
  all: try (intros [[|]|(y' & [= <-] & ?)]; done || lia).
  all: try (intros [[|]|(y' & [=] & ?)]; done).
Qed.

(** X26: the form for creating a course is shown to more users than the
    policy lets create one.  For a user with a profile and a form whose
    numbers the store can read, the form is shown and its submission is
    refused with insufficient_privilege exactly when the role is neither
    mentor nor admin and year_of_study is 2 or more; whoever is not shown
    the form would be refused as well. *)
Theorem course_form_is_shown_but_refused d me id u f hours :
  users d !! me = Some u →
  courses d !! id = None →
  to_numeric_10_2 (CreateCourse.price f) = Ok () →
  to_integer (CreateCourse.duration_hours f) = Ok hours →
  (CreateCourse.max_students f = ""
   ∨ ∃ m, to_integer (parseInt (CreateCourse.max_students f)) = Ok m) →
  let shown := CreateCourse.shows_form (users.role u) (users.year_of_study u) in
  let refused := submit d id (handleSubmit (Some me) f)
                 = Err insufficient_privilege in
  (shown = true ∧ refused ↔
   users.role u ≠ Some mentor ∧ users.role u ≠ Some admin
   ∧ ∃ y, users.year_of_study u = Some y ∧ 2 ≤ y)
  ∧ (shown = false → refused).
Proof.
  intros Hu Hid Hp Hh Hs shown refused.
  assert (conversion (values me f) = Ok hours) as Hconv
    by by apply convert_values_Ok.
  pose proof (handleSubmit_result d me id u f Hu Hid) as H.
  rewrite Hconv in H. cbn zeta in H. destruct H as (Hno & Hnull & Hok).
  assert (refused ↔ ¬ (users.role u = Some mentor ∨ users.role u = Some admin))
    as Href.
  { split; [|done]. intros He Hr. unfold refused in He.
    destruct hours as [h|].
    - destruct (Hok Hr) as [Hs' _]; [by eexists|]. rewrite Hs' in He. done.
    - rewrite (Hnull Hr eq_refl) in He. done. }
  pose proof (shows_form_true (users.role u) (users.year_of_study u))
    as Hshown. fold shown in Hshown.
  split.
  - rewrite Hshown, Href. naive_solver.
  - intros Hs'. apply Href. intros Hr.
    assert (shown = true) as Hs'' by (apply Hshown; by left). congruence.
Qed.

End CreateCourse_facts.

Lemma handleSubmit_creates_own_course_witness :
  let row := {| courses.mentor_id := Some sample.mia;
                courses.is_active := Some true |} in
  let d' := with_courses (<[11%N := row]> (courses sample.store))
              sample.store in
  CreateCourse.submit more_samples.whole_to_numeric_10_2
    more_samples.whole_to_integer sample.store 11
    (CreateCourse.handleSubmit more_samples.no_text (Some sample.mia)
       more_samples.form)
  = Ok d'
  ∧ ∀ other, read courses_policy courses d' (authenticated other) !! 11%N
             = Some row.
Proof.
  destruct (handleSubmit_creates_own_course more_samples.no_text
              more_samples.whole_to_numeric_10_2 more_samples.whole_to_integer
              sample.store sample.mia 11%N
              (sample.profile "mia@campus.example" mentor 0 1)
              more_samples.form eq_refl eq_refl) as [_ H].
  destruct (H (Some 12) eq_refl eq_refl (or_introl eq_refl)) as (_ & _ & H').
  apply H'; [by left|by eexists].
Defined.

(** A price that does not fit numeric(10,2) fails the request of a
    mentor as well. *)
Example price_out_of_range :
  CreateCourse.submit more_samples.whole_to_numeric_10_2
    more_samples.whole_to_integer sample.store 11
    (CreateCourse.handleSubmit more_samples.no_text (Some sample.mia)
       more_samples.expensive_form)
  = Err numeric_value_out_of_range.
Proof. reflexivity. Qed.

Lemma course_form_is_shown_but_refused_witness :
  let u := more_samples.sam_profile in
  let shown := CreateCourse.shows_form (users.role u) (users.year_of_study u) in
  let refused :=
    CreateCourse.submit more_samples.whole_to_numeric_10_2
      more_samples.whole_to_integer more_samples.senior_store 11
      (CreateCourse.handleSubmit more_samples.no_text (Some more_samples.sam)
         more_samples.form)
    = Err insufficient_privilege in
  (shown = true ∧ refused ↔
   users.role u ≠ Some mentor ∧ users.role u ≠ Some admin
   ∧ ∃ y, users.year_of_study u = Some y ∧ 2 ≤ y)
  ∧ (shown = false → refused).
Proof.
  apply (course_form_is_shown_but_refused more_samples.no_text
           more_samples.whole_to_numeric_10_2 more_samples.whole_to_integer
           more_samples.senior_store more_samples.sam 11%N
           more_samples.sam_profile more_samples.form (Some 12));
    try reflexivity.
  by left.
Defined.

Lemma int4_in_range (v : Z) :
  int4_min ≤ v ≤ int4_max → int4 (Some v) = Ok (Some v).
Proof. intros H. unfold int4. by rewrite bool_decide_eq_true_2. Qed.

(** X17: signUp.  The profile a new user inserts for the own id is
    refused with unique_violation when the id or the email is taken, and
    stored otherwise; it is a student at level 1 with 0 xp_points, and the
    level invariant of the users holds after it if it held before. *)
Theorem signUp_creates_student d uid email year :
  int4_min ≤ year ≤ int4_max →
  let taken :=
    is_Some (users d !! uid)
    ∨ ∃ k u, users d !! k = Some u ∧ users.email u = email in
  let row := {| users.email := email; users.year_of_study := Some year;
                users.role := Some student; users.xp_points := Some 0;
                users.level_number := Some 1;
                users.is_verified := Some false |} in
  let d' := with_users (<[uid := row]> (users d)) d in
  (taken → send d (Some (signUp uid email year)) = Err unique_violation)
  ∧ (¬ taken →
     send d (Some (signUp uid email year)) = Ok d'
     ∧ (level_invariant d → level_invariant d')).
Proof.
  intros Hy taken row d'.
  assert (send d (Some (signUp uid email year))
          = match users d !! uid with
            | Some _ => Err unique_violation
            | None =>
                if exists_row
                     (λ id u, bool_decide (id ≠ uid)
                              && bool_decide (users.email u = email))
                     (users d)
                then Err unique_violation else Ok d'
            end) as Hsend.
  { unfold send, signUp, exec, exec_users, rls_insert.
    cbn [as_principal users_policy insert_check].
    rewrite holds_eq_col_refl.
    unfold users_constraints, key_check, pk_free.
    cbn [users.year_of_study users.xp_points users.level_number users.email].
    rewrite !int4_in_range by (unfold int4_min, int4_max in *; lia).
    simpl. destruct (users d !! uid); [done|]. simpl.
    by destruct (exists_row _ _). }
  rewrite Hsend. split.
  - intros [[u Hu]|(k & u & Hk & He)].
    + by rewrite Hu.
    + destruct (users d !! uid) eqn:Hu; [done|].
      assert (exists_row
                (λ id u0, bool_decide (id ≠ uid)
                          && bool_decide (users.email u0 = email))
                (users d) = true) as ->; [|done].
      apply exists_row_true. exists k, u. split; [done|].
      rewrite !bool_decide_eq_true_2; [done..|congruence].
  - intros Hn. destruct (users d !! uid) eqn:Hu;
      [destruct Hn; left; by eexists|].
    destruct (exists_row _ _) eqn:He.
    { apply exists_row_true in He as (k & u & Hk & [_ He]%andb_true_iff).
      apply bool_decide_eq_true in He. destruct Hn. right. by exists k, u. }
    split; [done|]. intros Hinv k u x Hk Hx. subst d'. simpl in Hk.
    destruct (decide (k = uid)) as [->|Hne].
    + rewrite lookup_insert_eq in Hk. injection Hk as <-.
      simpl in Hx. by injection Hx as <-.
    + rewrite lookup_insert_ne in Hk by done. by eapply Hinv.
Qed.

Lemma signUp_creates_student_witness :
  send sample.store (Some (signUp 4%N "mia@campus.example" 2))
  = Err unique_violation.
Proof.
  apply (signUp_creates_student sample.store 4%N "mia@campus.example" 2);
    [unfold int4_min, int4_max; lia|].
  right. exists sample.mia, (sample.profile "mia@campus.example" mentor 0 1).
  by vm_compute.
Defined.

(** ** The menu and the policies *)

(** X18: the menu offers Create Course exactly to the profiles that the
    policy for creating courses accepts: the item is in menuItems for the
    role of a user if and only if the INSERT policy on courses holds for
    that user.  Every item of every menu has a case of its own in
    renderContent, and no two items of a menu have the same id. *)
Theorem create_course_item_matches_policy :
  (∀ d me u k r,
     users d !! me = Some u →
     ("create-course" ∈ Sidebar.id <$> Sidebar.menuItems (users.role u)
      ↔ insert_check (courses_policy d me) k r = true))
  ∧ (∀ role it, it ∈ Sidebar.menuItems role →
                is_Some (App.case_of (Sidebar.id it)))
  ∧ (∀ role, NoDup (Sidebar.id <$> Sidebar.menuItems role)).
Proof.
  split; [|split].
  - intros d me u k r Hu. rewrite courses_insert_check_true. split.
    + intros Hin. exists u. split; [done|].
      destruct (users.role u) as [[]|]; [|by left|by right|];
        apply (bool_decide_pack _) in Hin; by vm_compute in Hin.
    + intros (u0 & Hu0 & Hr). assert (u0 = u) as -> by congruence.
      destruct Hr as [-> | ->]; apply (bool_decide_unpack _); by vm_compute.
  - intros role it Hin.
    assert (Forall (λ it, is_Some (App.case_of (Sidebar.id it)))
              (Sidebar.menuItems role)) as Hall
      by (destruct role as [[]|]; apply (bool_decide_unpack _);
          by vm_compute).
    rewrite Forall_forall in Hall. by apply Hall.
  - intros role.
    destruct role as [[]|]; apply (bool_decide_unpack _); by vm_compute.
Qed.

Lemma create_course_item_matches_policy_witness :
  "create-course" ∈ Sidebar.id <$> Sidebar.menuItems
                      (users.role (sample.profile "mia@campus.example" mentor 0 1))
  ↔ insert_check (courses_policy sample.store sample.mia) 11%N
      {| courses.mentor_id := Some sample.mia;
         courses.is_active := Some true |} = true.
Proof.
  apply (proj1 create_course_item_matches_policy sample.store sample.mia
           (sample.profile "mia@campus.example" mentor 0 1)).
  reflexivity.
Defined.

(** X19: nextLevelXP of the dashboard.  For a user with xp_points ≥ 0
    whose level_number is the level of the xp_points, the number shown is
    between 1 and 100 and is exactly what is missing: with that many more
    xp_points the level is one higher, and with any fewer it is the same. *)
Theorem nextLevelXP_is_what_is_missing xp :
  0 ≤ xp →
  let n := Dashboard.nextLevelXP (level_of xp) xp in
  1 ≤ n ≤ 100
  ∧ level_of (xp + n) = level_of xp + 1
  ∧ ∀ y, 0 ≤ y < n → level_of (xp + y) = level_of xp.
Proof.
  intros Hxp n. subst n. unfold Dashboard.nextLevelXP, level_of.
  repeat split; try intros y Hy; Z.div_mod_to_equations; lia.
Qed.

Lemma nextLevelXP_is_what_is_missing_witness :
  let n := Dashboard.nextLevelXP (level_of 130) 130 in
  1 ≤ n ≤ 100
  ∧ level_of (130 + n) = level_of 130 + 1
  ∧ ∀ y, 0 ≤ y < n → level_of (130 + y) = level_of 130.
Proof. apply (nextLevelXP_is_what_is_missing 130). lia. Defined.

(** ** Tables with a policy FOR ALL *)

(** A statement under a policy that ties writes to the rows whose column
    [f] is the acting user: rows of others stay, and what is new or
    changed belongs to the acting user. *)
Lemma exec_stmt_own_rows {Row} (f : Row → option N) (me : N)
    (pol : policy Row) chk (t t' : gmap N Row) (s : stmt Row) :
  (∀ k r, insert_check pol k r = true → f r = Some me) →
  (∀ k r, update_using pol k r = true → f r = Some me) →
  (∀ k r, update_check pol k r = true → f r = Some me) →
  (∀ k r, delete_using pol k r = true → f r = Some me) →
  (∀ k r, chk true k r = Ok () → t !! k = None) →
  exec_stmt pol chk t s = Ok t' →
  (∀ k r, t !! k = Some r → f r ≠ Some me → t' !! k = Some r)
  ∧ (∀ k r, t' !! k = Some r → t !! k ≠ Some r → f r = Some me).
Proof.
  intros Hi Hu Hc Hd Hfresh He. destruct s as [k0 r0|k0 set|k0]; simpl in He.
  - apply rls_insert_Ok in He as (Hi' & Hchk & ->). apply Hi in Hi'.
    apply Hfresh in Hchk. split; intros k r Hl Hne.
    + rewrite lookup_insert_ne; [done|congruence].
    + destruct (decide (k0 = k)) as [->|Hk].
      * rewrite lookup_insert_eq in Hl. by injection Hl as <-.
      * by rewrite lookup_insert_ne in Hl.
  - apply bind_Ok in He as ([hit t1] & Hup & [= <-]).
    apply rls_update_Ok in Hup
      as [(_ & -> & _)|(old & new & _ & -> & Hk & _ & _ & Hu' & Hc' & _)];
      [done|].
    apply Hu in Hu'. apply Hc in Hc'. split; intros k r Hl Hne.
    + rewrite lookup_insert_ne; [done|congruence].
    + destruct (decide (k0 = k)) as [->|Hk'].
      * rewrite lookup_insert_eq in Hl. by injection Hl as <-.
      * by rewrite lookup_insert_ne in Hl.
  - injection He as <-. unfold rls_delete.
    destruct (t !! k0) as [old|] eqn:Hk; [|done].
    destruct (select_using pol k0 old && delete_using pol k0 old) eqn:Hdel;
      [|done].
    apply andb_true_iff in Hdel as [_ Hdel%Hd]. simpl. split; intros k r Hl Hne.
    + rewrite lookup_delete_ne; [done|congruence].
    + by apply lookup_delete_Some in Hl as [_ Hl].
Qed.

Lemma sessions_constraints_fresh d t k r :
  sessions_constraints d t true k r = Ok () → t !! k = None.
Proof.
  unfold sessions_constraints. intros H.
  do 3 apply bind_Ok in H as (? & _ & H).
  by apply bind_Ok in H as ([] & ?%key_check_fresh & _).
Qed.

Lemma user_projects_constraints_fresh d t k r :
  user_projects_constraints d t true k r = Ok () → t !! k = None.
Proof.
  unfold user_projects_constraints. intros H.
  by apply bind_Ok in H as ([] & ?%key_check_fresh & _).
Qed.

(** X20: sessions and user_projects, the two tables with a policy FOR
    ALL.  Whatever statement a signed-in user runs on them, the sessions of
    other mentors and the projects of other users stay as they are; a row
    that is new or changed afterwards names the acting user; so nobody can
    plant or hand over a row in another name.  For sessions the policy has
    only USING, and it is the check of new rows as well. *)
Theorem for_all_policies_bind_rows_to_their_user :
  (∀ d me t s t',
     exec_sessions d t (authenticated me) s = Ok t' →
     (∀ k r, t !! k = Some r → sessions.mentor_id r ≠ Some me →
             t' !! k = Some r)
     ∧ (∀ k r, t' !! k = Some r → t !! k ≠ Some r →
               sessions.mentor_id r = Some me))
  ∧ (∀ d me t s t',
       exec_user_projects d t (authenticated me) s = Ok t' →
       (∀ k r, t !! k = Some r → user_projects.user_id r ≠ Some me →
               t' !! k = Some r)
       ∧ (∀ k r, t' !! k = Some r → t !! k ≠ Some r →
                 user_projects.user_id r = Some me)).
Proof.
  split; intros d me t s t' He;
    (eapply exec_stmt_own_rows; [| | | | |exact He]);
    try (intros k r Hp; cbn in Hp; by apply holds_eq_col_Some in Hp).
  - intros k r. apply sessions_constraints_fresh.
  - intros k r. apply user_projects_constraints_fresh.
Qed.

Lemma for_all_policies_bind_rows_to_their_user_witness :
  let t : gmap N sessions.row := {[ 60%N := more_samples.talk ]} in
  (∀ k r, t !! k = Some r → sessions.mentor_id r ≠ Some sample.ann →
          t !! k = Some r)
  ∧ (∀ k r, t !! k = Some r → t !! k ≠ Some r →
            sessions.mentor_id r = Some sample.ann).
Proof.
  apply (proj1 for_all_policies_bind_rows_to_their_user sample.store
           sample.ann {[ 60%N := more_samples.talk ]} (DELETE 60%N)).
  vm_compute. reflexivity.
Defined.

(** ** Deleting a user *)

Lemma refers_is (k : N) (fk : option N) :
  refers (λ u, bool_decide (u = k)) fk = true ↔ fk = Some k.
Proof.
  destruct fk as [x|]; simpl; [|naive_solver].
  rewrite bool_decide_eq_true. naive_solver.
Qed.

(** X21: a user who is named as reviewer of a mentor request of somebody
    else cannot be deleted: the deletion fails with foreign_key_violation
    exactly then, and there is no other way for it to fail.  (The requests
    of the user go with the user; reviewed_by has no ON DELETE action.) *)
Theorem reviewer_cannot_be_deleted k d :
  (delete_user k d = Err foreign_key_violation ↔
   ∃ j r, mentor_requests d !! j = Some r ∧
          mentor_requests.reviewed_by r = Some k ∧
          mentor_requests.student_id r ≠ Some k)
  ∧ (∀ e, delete_user k d = Err e → e = foreign_key_violation).
Proof.
  unfold delete_user.
  set (is_k := λ u : N, bool_decide (u = k)).
  match goal with
  | |- context [guard (negb (exists_row ?P ?t)) _] =>
      assert (exists_row P t = true ↔
              ∃ j r, mentor_requests d !! j = Some r ∧
                     mentor_requests.reviewed_by r = Some k ∧
                     mentor_requests.student_id r ≠ Some k) as Hex;
      [|destruct (exists_row P t)]
  end.
  { rewrite exists_row_true. simpl. split.
    - intros (j & r & [Hl Hp]%map_lookup_filter_Some & Hr).
      apply refers_is in Hr. simpl in Hp. exists j, r.
      repeat split; [done..|]. intros Hs%refers_is. subst is_k. congruence.
    - intros (j & r & Hl & Hr & Hs). exists j, r.
      split; [|by apply refers_is].
      apply map_lookup_filter_Some. split; [done|]. simpl.
      destruct (refers _ _) eqn:Hf; [|done]. by apply refers_is in Hf. }
  - simpl. split; [|by intros e [= <-]]. split; [intros _; by apply Hex|done].
  - simpl. split; [|done]. split; [done|]. intros H. by apply Hex in H.
Qed.

Lemma reviewer_cannot_be_deleted_witness :
  delete_user sample.mia
    (with_mentor_requests {[ 51%N := sample.approved_request ]} sample.store)
  = Err foreign_key_violation.
Proof.
  apply (proj1 (reviewer_cannot_be_deleted sample.mia
           (with_mentor_requests {[ 51%N := sample.approved_request ]}
              sample.store))).
  exists 51%N, sample.approved_request. by vm_compute.
Defined.

(** ** When the completion goes through *)

Lemma exec_integrity d p q d' :
  exec d p q = Ok d' → referential_integrity d → referential_integrity d'.
Proof.
  intros He%exec_writes. induction He as [|d1 d2 d3 Hw _ IH]; [done|].
  intros Hri. apply IH. by eapply write_integrity.
Qed.

Lemma exec_unique d p q d' :
  exec d p q = Ok d' → unique_constraints d → unique_constraints d'.
Proof.
  intros He%exec_writes. induction He as [|d1 d2 d3 Hw _ IH]; [done|].
  intros Hu. apply IH. by eapply write_unique.
Qed.

(** The constraints of an enrollment hold for a row that keeps the student
    and the course of the row it replaces, in a consistent database. *)
Lemma enrollments_constraints_same_pair d k e e' :
  referential_integrity d → unique_constraints d →
  enrollments d !! k = Some e →
  enrollments.student_id e' = enrollments.student_id e →
  enrollments.course_id e' = enrollments.course_id e →
  enrollments_constraints false d k e' = Ok ().
Proof.
  intros Hri Huq Hk Hs Hc. unfold enrollments_constraints, key_check.
  rewrite Hs, Hc. simpl.
  assert (exists_row
            (λ id e0, bool_decide (id ≠ k)
               && holds (tv_and (eq_col (enrollments.student_id e0)
                                        (enrollments.student_id e))
                                (eq_col (enrollments.course_id e0)
                                        (enrollments.course_id e))))
            (enrollments d) = false) as ->.
  { apply exists_row_false. intros j e0 Hj.
    destruct (bool_decide (j ≠ k)) eqn:Hjk; [|done].
    apply bool_decide_eq_true in Hjk. simpl.
    destruct (holds _) eqn:Hh; [|done]. destruct Hjk.
    apply holds_and in Hh as [(s & Hs0 & Hs1)%holds_eq_col
                              (c & Hc0 & Hc1)%holds_eq_col].
    eapply (uq_enrollments_pair d Huq j k e0 e (s, c)); [done..| |];
      unfold enrollment_pair; by rewrite ?Hs0, ?Hc0, ?Hs1, ?Hc1. }
  simpl.
  rewrite (proj2 (references_resolves (enrollments.student_id e) (users d)))
    by apply (ri_enrollments_student d Hri k e Hk).
  simpl. apply references_resolves.
  apply (ri_enrollments_course d Hri k e Hk).
Qed.

Lemma users_constraints_same_email d k u u' :
  unique_on (λ u, Some (users.email u)) (users d) →
  users d !! k = Some u →
  users.email u' = users.email u →
  int4 (users.year_of_study u') = Ok (users.year_of_study u') →
  int4 (users.xp_points u') = Ok (users.xp_points u') →
  int4 (users.level_number u') = Ok (users.level_number u') →
  users_constraints false d k u' = Ok ().
Proof.
  intros Huq Hk He Hy Hx Hl. unfold users_constraints, key_check.
  rewrite Hy, Hx, Hl, He. simpl.
  assert (exists_row
            (λ id u0, bool_decide (id ≠ k)
                      && bool_decide (users.email u0 = users.email u))
            (users d) = false) as ->; [|done].
  apply exists_row_false. intros j u0 Hj.
  destruct (bool_decide (j ≠ k)) eqn:Hjk; [|done].
  apply bool_decide_eq_true in Hjk. simpl.
  apply bool_decide_eq_false. intros He0. destruct Hjk.
  by eapply (Huq j k u0 u (users.email u)); [done..|f_equal|].
Qed.

Lemma references_Some {Row} (k : N) (t : gmap N Row) :
  is_Some (t !! k) → references (Some k) t = Ok ().
Proof. intros H. apply references_resolves. by intros ? [= <-]. Qed.

Lemma owner_completion_result d k e sid cid u x g :
  referential_integrity d →
  unique_constraints d →
  enrollments d !! k = Some e →
  enrollments.is_completed e = Some false →
  enrollments.student_id e = Some sid →
  enrollments.course_id e = Some cid →
  users d !! sid = Some u →
  users.xp_points u = Some x →
  int4_min ≤ x ≤ 2147483597 →
  int4 (users.year_of_study u) = Ok (users.year_of_study u) →
  certificates d !! certificate_key g = None →
  (∀ j c', certificates d !! j = Some c' →
           certificates.certificate_id c' ≠ certificate_text g) →
  ∃ c, courses d !! cid = Some c ∧
    exec d owner (on_enrollments (UPDATE k (SET_is_completed (Some true))) g)
    = Ok {| users :=
              <[sid := {| users.email := users.email u;
                          users.year_of_study := users.year_of_study u;
                          users.role := users.role u;
                          users.xp_points := Some (x + 50);
                          users.level_number := Some ((x + 50) ÷ 100 + 1);
                          users.is_verified := users.is_verified u |}]>
                (users d);
            courses := courses d;
            enrollments :=
              <[k := {| enrollments.student_id := Some sid;
                        enrollments.course_id := Some cid;
                        enrollments.enrolled_at := enrollments.enrolled_at e;
                        enrollments.completed_at := enrollments.completed_at e;
                        enrollments.is_completed := Some true |}]>
                (enrollments d);
            reviews := reviews d;
            certificates :=
              <[certificate_key g :=
                  {| certificates.student_id := Some sid;
                     certificates.course_id := Some cid;
                     certificates.mentor_id := courses.mentor_id c;
                     certificates.certificate_id := certificate_text g |}]>
                (certificates d);
            mentor_requests := mentor_requests d |}.
Proof.
  intros Hri Huq Hk Hopen Hsid Hcid Hu Hx Hr Hy Hfree Hnew.
  destruct (ri_enrollments_course d Hri k e Hk cid Hcid) as [c Hc].
  exists c. split; [done|].
  destruct (award_set_cases u x Hx) as [(Hgt & _)|(_ & Hau & _)];
    [unfold int4_max; lia|unfold int4_max in *; lia|].
  set (new := {| enrollments.student_id := Some sid;
                 enrollments.course_id := Some cid;
                 enrollments.enrolled_at := enrollments.enrolled_at e;
                 enrollments.completed_at := enrollments.completed_at e;
                 enrollments.is_completed := Some true |}).
  assert (SET_is_completed (Some true) e = Ok new) as Hset
    by (unfold SET_is_completed; subst new; by rewrite Hsid, Hcid).
  assert (enrollments_constraints false d k new = Ok ()) as Hchk
    by by eapply enrollments_constraints_same_pair.
  rewrite (owner_completion_commits d k _ g e new sid cid u _ c
             Hk Hset Hchk Hopen eq_refl eq_refl eq_refl Hu Hau Hc); [done| |].
  - eapply (users_constraints_same_email
              (with_enrollments (<[k := new]> (enrollments d)) d) sid u);
      simpl; try done.
    + apply (uq_users_email d Huq).
    + apply int4_in_range. unfold int4_min, int4_max in *. lia.
    + apply int4_in_range. unfold int4_min, int4_max in *.
      Z.quot_rem_to_equations. lia.
  - unfold certificates_constraints, key_check, pk_free. simpl.
    rewrite Hfree. simpl.
    assert (exists_row
              (λ id c0, bool_decide (id ≠ certificate_key g)
                 && bool_decide (certificates.certificate_id c0
                                 = certificate_text g))
              (certificates d) = false) as ->.
    { apply exists_row_false. intros j c' Hj.
      rewrite (bool_decide_eq_false_2 (_ = certificate_text g))
        by by eapply Hnew.
      apply andb_false_r. }
    simpl. rewrite lookup_insert_eq. simpl. rewrite Hc. simpl.
    destruct (courses.mentor_id c) as [m|] eqn:Hm; [|done]. simpl.
    destruct (ri_courses_mentor d Hri cid c Hc m Hm) as [um Hum].
    rewrite lookup_insert. case_decide; by rewrite ?Hum.
Qed.



(** The owner's UPDATE of an enrollment that is no completion stores the
    row and nothing else. *)
Lemma owner_update_off_edge d k set g old new :
  enrollments d !! k = Some old →
  set old = Ok new →
  enrollments_constraints false d k new = Ok () →
  ¬ (enrollments.is_completed old = Some false
     ∧ enrollments.is_completed new = Some true) →
  exec d owner (on_enrollments (UPDATE k set) g)
    = Ok (with_enrollments (<[k := new]> (enrollments d)) d).
Proof.
  intros Hk Hset Hchk Hoff.
  unfold exec, exec_enrollments, rls_update. cbn [as_principal].
  rewrite Hk. cbn [bypass select_using update_using update_check andb].
  rewrite Hset. simpl. rewrite Hchk. simpl.
  by apply award_completion_xp_off_edge.
Qed.

(** X23: completed is not final.  The owner can set is_completed of a
    completed enrollment back to false, which awards nothing and takes
    nothing back, and a completion after that awards again: the student
    has another 50 xp_points and a second certificate of the same
    course. *)
Theorem reopened_enrollment_is_awarded_again d k e sid cid u x g :
  referential_integrity d →
  unique_constraints d →
  enrollments d !! k = Some e →
  enrollments.is_completed e = Some true →
  enrollments.student_id e = Some sid →
  enrollments.course_id e = Some cid →
  users d !! sid = Some u →
  users.xp_points u = Some x →
  int4_min ≤ x ≤ 2147483597 →
  int4 (users.year_of_study u) = Ok (users.year_of_study u) →
  certificates d !! certificate_key g = None →
  (∀ j c', certificates d !! j = Some c' →
           certificates.certificate_id c' ≠ certificate_text g) →
  let d1 := run d owner
              (on_enrollments (UPDATE k (SET_is_completed (Some false))) g) in
  let d2 := run d1 owner
              (on_enrollments (UPDATE k (SET_is_completed (Some true))) g) in
  users d1 = users d ∧ certificates d1 = certificates d
  ∧ (∃ u', users d2 !! sid = Some u' ∧ users.xp_points u' = Some (x + 50))
  ∧ ∃ cert, certificates d2
            = <[certificate_key g := cert]> (certificates d)
            ∧ certificates.student_id cert = Some sid
            ∧ certificates.course_id cert = Some cid.
Proof.
  intros Hri Huq Hk Hdone Hsid Hcid Hu Hx Hr Hy Hfree Hnew d1 d2.
  set (e0 := {| enrollments.student_id := enrollments.student_id e;
                enrollments.course_id := enrollments.course_id e;
                enrollments.enrolled_at := enrollments.enrolled_at e;
                enrollments.completed_at := enrollments.completed_at e;
                enrollments.is_completed := Some false |}).
  assert (exec d owner
            (on_enrollments (UPDATE k (SET_is_completed (Some false))) g)
          = Ok (with_enrollments (<[k := e0]> (enrollments d)) d)) as He1.
  { apply (owner_update_off_edge d k _ g e e0); [done|done| |].
    - by eapply enrollments_constraints_same_pair.
    - intros [? _]. congruence. }
  assert (d1 = with_enrollments (<[k := e0]> (enrollments d)) d) as Hd1
    by (subst d1; unfold run; by rewrite He1).
  split; [by rewrite Hd1|]. split; [by rewrite Hd1|].
  destruct (owner_completion_result d1 k e0 sid cid u x g)
    as (c & Hc & He2); try done.
  - subst d1. eapply exec_integrity; [|done].
    unfold run. by rewrite He1.
  - subst d1. eapply exec_unique; [|done]. unfold run. by rewrite He1.
  - rewrite Hd1. simpl. apply lookup_insert_eq.
  - by rewrite Hd1.
  - by rewrite Hd1.
  - by rewrite Hd1.
  - subst d2. unfold run. rewrite He2. simpl. split.
    + eexists. split; [apply lookup_insert_eq|done].
    + eexists. split; [by rewrite Hd1|done].
Qed.

Lemma reopened_enrollment_is_awarded_again_witness :
  let q b := on_enrollments (UPDATE 20%N (SET_is_completed (Some b)))
               more_samples.second_draw in
  let d1 := run more_samples.completed_store owner (q false) in
  let d2 := run d1 owner (q true) in
  users d1 = users more_samples.completed_store
  ∧ certificates d1 = certificates more_samples.completed_store
  ∧ (∃ u', users d2 !! sample.ann = Some u'
           ∧ users.xp_points u' = Some (130 + 50))
  ∧ ∃ cert, certificates d2
            = <[32%N := cert]> (certificates more_samples.completed_store)
            ∧ certificates.student_id cert = Some sample.ann
            ∧ certificates.course_id cert = Some sample.rocq_course.
Proof.
  apply (reopened_enrollment_is_awarded_again more_samples.completed_store
           20%N (sample.enrolled sample.ann (Some sample.rocq_course) true)
           sample.ann sample.rocq_course
           (sample.profile "ann@campus.example" student 130 2) 130
           more_samples.second_draw);
    try (vm_compute; reflexivity).
  - apply referential_integrityb_true. vm_compute. reflexivity.
  - apply unique_constraintsb_true. vm_compute. reflexivity.
  - unfold int4_min. lia.
  - intros j c' Hj. apply elem_of_map_to_list in Hj.
    remember (map_to_list (certificates more_samples.completed_store)) as l
      eqn:Hl.
    vm_compute in Hl. subst l.
    apply elem_of_cons in Hj as [[= -> ->]|Hj];
      [|by apply not_elem_of_nil in Hj].
    intros H. vm_compute in H. discriminate H.
Defined.

(** ** Learning communities *)

Lemma holds_ge_col (a : option Z) (b : Z) :
  holds (ge_col a (Some b)) = true ↔ ∃ y, a = Some y ∧ b ≤ y.
Proof.
  destruct a as [y|]; simpl; [|naive_solver].
  case_bool_decide; naive_solver.
Qed.

Lemma learning_communities_insert_check_true d me k r :
  insert_check (learning_communities_policy d me) k r = true ↔
  ∃ u y, users d !! me = Some u ∧ users.year_of_study u = Some y ∧ 2 ≤ y.
Proof.
  unfold learning_communities_policy. cbn [insert_check].
  rewrite exists_row_true. split.
  - intros (id & u & Hl & Hc). apply rls_select_lookup in Hl as [Hl _].
    apply holds_and in Hc as [Hid Hy].
    apply holds_eq_col in Hid as (x & [= <-] & [= ->]).
    apply holds_ge_col in Hy as (y & Hy & Hle). by exists u, y.
  - intros (u & y & Hl & Hy & Hle). exists me, u. split.
    + by apply rls_select_lookup.
    + apply holds_and. split; [apply holds_eq_col_refl|].
      apply holds_ge_col. by exists y.
Qed.

(** X24: a learning community is created by a signed-in user exactly when
    the year_of_study of the user's own profile is 2 or more; with year 1,
    with NULL, or without a profile the INSERT fails with
    insufficient_privilege.  An UPDATE changes a community only when it
    names the acting user as created_by before and after. *)
Theorem community_needs_second_year :
  (∀ d t me k r,
     learning_communities_constraints d t true k r = Ok () →
     let senior := ∃ u y, users d !! me = Some u ∧
                          users.year_of_study u = Some y ∧ 2 ≤ y in
     (senior →
      exec_learning_communities d t (authenticated me) (INSERT k r)
        = Ok (<[k := r]> t))
     ∧ (¬ senior →
        exec_learning_communities d t (authenticated me) (INSERT k r)
          = Err insufficient_privilege))
  ∧ (∀ d t me k set t',
       exec_learning_communities d t (authenticated me) (UPDATE k set)
         = Ok t' →
       t' !! k ≠ t !! k →
       ∃ old new, t !! k = Some old ∧ t' !! k = Some new ∧
                  learning_communities.created_by old = Some me ∧
                  learning_communities.created_by new = Some me).
Proof.
  split.
  - intros d t me k r Hchk senior.
    unfold exec_learning_communities, exec_stmt, rls_insert.
    cbn [as_principal]. rewrite Hchk.
    pose proof (learning_communities_insert_check_true d me k r) as Hpol.
    destruct (insert_check _ _ _); split; try done.
    + intros Hn. destruct Hn. by apply Hpol.
    + intros Hs. by apply Hpol in Hs.
  - intros d t me k set t' He Hne.
    unfold exec_learning_communities, exec_stmt in He.
    apply bind_Ok in He as ([hit t1] & Hu & [= <-]).
    apply rls_update_Ok in Hu
      as [(_ & -> & _)|(old & new & _ & -> & Hk & _ & _ & Hu & Hc & _)];
      [done|].
    exists old, new. cbn in Hu, Hc.
    apply holds_eq_col_Some in Hu, Hc. by rewrite lookup_insert_eq.
Qed.

Lemma community_needs_second_year_witness :
  let r := {| learning_communities.created_by := Some sample.ann;
              learning_communities.course_id := Some sample.rocq_course;
              learning_communities.is_active := Some true |} in
  let senior := ∃ u y, users sample.store !! sample.ann = Some u ∧
                       users.year_of_study u = Some y ∧ 2 ≤ y in
  (senior →
   exec_learning_communities sample.store ∅ (authenticated sample.ann)
     (INSERT 70%N r) = Ok (<[70%N := r]> ∅))
  ∧ (¬ senior →
     exec_learning_communities sample.store ∅ (authenticated sample.ann)
       (INSERT 70%N r) = Err insufficient_privilege).
Proof.
  apply (proj1 community_needs_second_year sample.store ∅ sample.ann 70%N).
  reflexivity.
Defined.

(** ann is in her first year: she cannot create a community. *)
Example first_year_cannot_create_community :
  exec_learning_communities sample.store ∅ (authenticated sample.ann)
    (INSERT 70%N {| learning_communities.created_by := Some sample.ann;
                    learning_communities.course_id := None;
                    learning_communities.is_active := Some true |})
  = Err insufficient_privilege.
Proof. vm_compute. reflexivity. Qed.

(** ** The course list and enrolling *)

Lemma coursesData_lookup d me c co :
  coursesData d me !! c = Some co ↔
  courses d !! c = Some co ∧ courses.is_active co = Some true.
Proof.
  unfold coursesData, read. rewrite map_lookup_filter_Some, rls_select_lookup.
  cbn [as_principal courses_policy select_using snd].
  rewrite holds_eq_col_Some. naive_solver.
Qed.

Lemma enrolledCourseIds_elem d me c :
  is_Some (coursesData d me !! c) →
  c ∈ enrolledCourseIds d me ↔
  ∃ k e, enrollments d !! k = Some e ∧
         enrollments.student_id e = Some me ∧
         enrollments.course_id e = Some c.
Proof.
  intros Hshown. unfold enrolledCourseIds.
  rewrite elem_of_list_to_set, list_elem_of_omap. split.
  - intros ([k e] & Hin & Hc). apply elem_of_map_to_list in Hin.
    apply map_lookup_filter_Some in Hin as [Hl Hp]. simpl in *.
    apply rls_select_lookup in Hl as [Hl _].
    apply andb_true_iff in Hp as [Hs%holds_eq_col_Some _].
    by exists k, e.
  - intros (k & e & Hl & Hs & Hc). exists (k, e). split; [|done].
    apply elem_of_map_to_list, map_lookup_filter_Some. split.
    + apply rls_select_lookup. split; [done|].
      cbn [as_principal enrollments_policy select_using].
      by rewrite Hs, holds_eq_col_refl.
    + simpl. rewrite Hs, Hc, holds_eq_col_refl. simpl.
      apply bool_decide_eq_true. by apply elem_of_dom.
Qed.

(** X25: the course list and the Enroll button agree with the store.  A
    course that fetchCourses lists is an active course of the store; if it
    is listed with is_enrolled, handleEnroll on it fails with
    unique_violation, and if it is listed without, handleEnroll on it goes
    through. *)
Theorem listed_course_can_be_enrolled_once d me c co b id now g u :
  coursesWithEnrollment d me !! c = Some (co, b) →
  users d !! me = Some u →
  enrollments d !! id = None →
  courses d !! c = Some co
  ∧ courses.is_active co = Some true
  ∧ (b = true →
     send d (handleEnroll (Some me) c id now g) = Err unique_violation)
  ∧ (b = false →
     send d (handleEnroll (Some me) c id now g)
     = Ok (with_enrollments
             (<[id := {| enrollments.student_id := Some me;
                         enrollments.course_id := Some c;
                         enrollments.enrolled_at := Some now;
                         enrollments.completed_at := None;
                         enrollments.is_completed := Some false |}]>
                (enrollments d)) d)).
Proof.
  intros Hl Hu Hid. unfold coursesWithEnrollment in Hl.
  rewrite map_lookup_imap in Hl.
  destruct (coursesData d me !! c) as [co'|] eqn:Hcd; [|done].
  simpl in Hl. injection Hl as -> <-.
  pose proof (proj1 (coursesData_lookup d me c co) Hcd) as [Hc Ha].
  pose proof (enrolledCourseIds_elem d me c ltac:(by rewrite Hcd)) as Hen.
  destruct (handleEnroll_result d me c id now g u co Hu Hc Hid)
    as (Hdup & Hnew & _).
  repeat split; [done..| |].
  - intros Hb%bool_decide_eq_true. apply Hdup. by apply Hen.
  - intros Hb%bool_decide_eq_false. apply Hnew. intros Hal. by apply Hb, Hen.
Qed.

Lemma listed_course_can_be_enrolled_once_witness :
  courses sample.store !! sample.rocq_course
    = Some {| courses.mentor_id := Some sample.mia;
              courses.is_active := Some true |}
  ∧ courses.is_active {| courses.mentor_id := Some sample.mia;
                         courses.is_active := Some true |} = Some true
  ∧ (true = true →
     send sample.store
       (handleEnroll (Some sample.bob) sample.rocq_course 23%N 1754300000
          sample.draw) = Err unique_violation)
  ∧ (true = false →
     send sample.store
       (handleEnroll (Some sample.bob) sample.rocq_course 23%N 1754300000
          sample.draw)
     = Ok (with_enrollments
             (<[23%N := {| enrollments.student_id := Some sample.bob;
                           enrollments.course_id := Some sample.rocq_course;
                           enrollments.enrolled_at := Some 1754300000;
                           enrollments.completed_at := None;
                           enrollments.is_completed := Some false |}]>
                (enrollments sample.store)) sample.store)).
Proof.
  apply (listed_course_can_be_enrolled_once sample.store sample.bob
           sample.rocq_course
           {| courses.mentor_id := Some sample.mia;
              courses.is_active := Some true |}
           true 23%N 1754300000 sample.draw
           (sample.profile "bob@campus.example" student 0 1));
    vm_compute; reflexivity.
Defined.

(** ** Several completion requests for one enrollment *)

(** One completion request leaves the database as it was, or leaves the
    enrollment completed. *)
Lemma completion_step d p k g :
  let d1 := run d p (completion k g) in
  d1 = d ∨ ∃ e', enrollments d1 !! k = Some e'
                 ∧ enrollments.is_completed e' = Some true.
Proof.
  unfold run, completion.
  destruct (exec _ _ _) as [d1|] eqn:He; [|by left].
  apply update_enrollments_Ok in He
    as [[-> _]|(old & new & _ & [= <-] & _ & _ & Ht)]; [by left|].
  right. apply award_completion_xp_frame in Ht as (_ & -> & _). simpl.
  rewrite lookup_insert_eq. by eexists.
Qed.

(** A completion request for an enrollment that is completed awards
    nothing, and the enrollment stays completed. *)
Lemma completion_of_completed d p k g e :
  enrollments d !! k = Some e →
  enrollments.is_completed e = Some true →
  let d1 := run d p (completion k g) in
  users d1 = users d ∧ certificates d1 = certificates d
  ∧ ∃ e', enrollments d1 !! k = Some e'
          ∧ enrollments.is_completed e' = Some true.
Proof.
  intros Hk Hdone. unfold run, completion.
  destruct (exec _ _ _) as [d1|] eqn:He; [|by eauto].
  apply update_enrollments_Ok in He
    as [[-> _]|(old & new & Hk' & [= <-] & _ & _ & Ht)]; [by eauto|].
  rewrite award_completion_xp_off_edge in Ht
    by (intros [? _]; congruence).
  injection Ht as <-. simpl. rewrite lookup_insert_eq. by eauto.
Qed.

Lemma completions_of_completed rs d k e :
  enrollments d !! k = Some e →
  enrollments.is_completed e = Some true →
  users (completions d k rs) = users d
  ∧ certificates (completions d k rs) = certificates d.
Proof.
  revert d e. induction rs as [|[p g] rs IH]; intros d e Hk Hdone; [done|].
  destruct (completion_of_completed d p k g e Hk Hdone)
    as (Hu & Hc & e' & Hk' & Hdone').
  destruct (IH _ _ Hk' Hdone') as [Hu' Hc'].
  unfold completions in *. simpl in *. split; congruence.
Qed.

(** A signed-in user's completion request for an open enrollment changes
    nothing: it finds no row, or it is refused. *)
Lemma authenticated_completion_of_open d me k g e :
  enrollments d !! k = Some e →
  enrollments.is_completed e = Some false →
  run d (authenticated me) (completion k g) = d.
Proof.
  intros Hk Hopen. unfold run, completion.
  destruct (exec _ _ _) as [d1|] eqn:He; [|done].
  pose proof He as He'.
  apply update_enrollments_Ok in He'
    as [[-> _]|(old & new & Hk' & [= <-] & _ & _ & Ht)]; [done|].
  exfalso.
  apply award_completion_xp_frame in Ht as (_ & Hen & _). simpl in Hen.
  eapply (authenticated_cannot_complete d me k _ g d1 e); [exact He|done| |done|].
  - rewrite Hen. apply lookup_insert_eq.
  - done.
Qed.

(** What one completion request awards: nothing, or the SET clause of the
    trigger on one user and at most one certificate under the key drawn. *)
Lemma generate_certificate_Ok p NEW g d d' :
  generate_certificate p NEW g d = Ok d' →
  users d' = users d
  ∧ (certificates d' = certificates d
     ∨ ∃ cert, certificates d !! certificate_key g = None
               ∧ certificates d'
                 = <[certificate_key g := cert]> (certificates d)).
Proof.
  unfold generate_certificate.
  destruct (enrollments.course_id NEW) as [cid|]; [|intros [= <-]; by auto].
  destruct (_ !! cid) as [c|]; [|intros [= <-]; by auto].
  intros H. apply bind_Ok in H as (t & Hi & [= <-]).
  apply rls_insert_Ok in Hi as (_ & Hchk & ->). split; [done|]. right.
  unfold certificates_constraints in Hchk.
  apply bind_Ok in Hchk as ([] & Hfree%key_check_fresh & _).
  by eexists.
Qed.

Lemma completion_awards_once d p k g :
  let d1 := run d p (completion k g) in
  (users d1 = users d
   ∨ ∃ sid u u', users d !! sid = Some u ∧ award_set u = Ok u'
                 ∧ users d1 = <[sid := u']> (users d))
  ∧ (certificates d1 = certificates d
     ∨ ∃ cert, certificates d !! certificate_key g = None
               ∧ certificates d1
                 = <[certificate_key g := cert]> (certificates d)).
Proof.
  unfold run, completion.
  destruct (exec _ _ _) as [d1|] eqn:He; [|by auto].
  apply update_enrollments_Ok in He
    as [[-> _]|(old & new & _ & _ & _ & _ & Ht)]; [by auto|].
  unfold award_completion_xp in Ht.
  destruct (holds _); [|injection Ht as <-; by auto].
  apply bind_Ok in Ht as (d2 & Hau & Hg).
  apply generate_certificate_Ok in Hg as [Hus Hce].
  pose proof (award_update_frame _ _ _ _ Hau) as (_ & _ & _ & Hc2 & _).
  rewrite Hus, Hc2 in *. simpl in Hce. split; [|done].
  apply award_update_Ok in Hau
    as [->|(sid & u & u' & _ & Hu & Hset & ->)]; [by left|].
  right. by exists sid, u, u'.
Qed.

Lemma completions_app d k rs rs' :
  completions d k (rs ++ rs') = completions (completions d k rs) k rs'.
Proof. unfold completions. apply foldl_app. Qed.

Lemma authenticated_completions_of_open rs d k e :
  enrollments d !! k = Some e →
  enrollments.is_completed e = Some false →
  Forall (λ r, r.1 ≠ owner) rs →
  completions d k rs = d.
Proof.
  intros Hk Hopen. induction 1 as [|[[me|] g] rs Hp _ IH]; [done| |done].
  unfold completions in *. simpl.
  by rewrite (authenticated_completion_of_open d me k g e).
Qed.

(** C4, as amended.  N completion requests for one enrollment, by any
    principals and in any order, award at most once: the users and the
    certificates end as they were, or as one of the requests alone leaves
    them; at most one user has changed, by 50 xp_points (NULL stays
    NULL), and at most one certificate has come.  When one of the requests is the owner's (the first such draws
    [g]), on an open enrollment that names a course, in a consistent
    database, with at most 2147483597 xp_points on the student and a new
    key and certificate_id drawn, the result is exactly one award of 50
    xp_points and exactly one certificate, whatever the requests before and
    after it are. *)
Theorem completions_award_at_most_once :
  (∀ d k rs,
     let d' := completions d k rs in
     (users d' = users d ∧ certificates d' = certificates d)
     ∨ ∃ p g, (p, g) ∈ rs
              ∧ users d' = users (run d p (completion k g))
              ∧ certificates d' = certificates (run d p (completion k g)))
  ∧ (∀ d k rs,
       let d' := completions d k rs in
       (users d' = users d
        ∨ ∃ sid u u', users d !! sid = Some u
                      ∧ users d' = <[sid := u']> (users d)
                      ∧ users.xp_points u'
                        = num_add (users.xp_points u) (Some 50))
       ∧ (certificates d' = certificates d
          ∨ ∃ key cert, certificates d !! key = None
                        ∧ certificates d' = <[key := cert]> (certificates d)))
  ∧ (∀ d k e sid cid u x g before after,
       referential_integrity d →
       unique_constraints d →
       enrollments d !! k = Some e →
       enrollments.is_completed e = Some false →
       enrollments.student_id e = Some sid →
       enrollments.course_id e = Some cid →
       users d !! sid = Some u →
       users.xp_points u = Some x →
       int4_min ≤ x ≤ 2147483597 →
       int4 (users.year_of_study u) = Ok (users.year_of_study u) →
       certificates d !! certificate_key g = None →
       (∀ j c', certificates d !! j = Some c' →
                certificates.certificate_id c' ≠ certificate_text g) →
       Forall (λ r, r.1 ≠ owner) before →
       let d' := completions d k (before ++ (owner, g) :: after) in
       users d' =
         <[sid := {| users.email := users.email u;
                     users.year_of_study := users.year_of_study u;
                     users.role := users.role u;
                     users.xp_points := Some (x + 50);
                     users.level_number := Some ((x + 50) ÷ 100 + 1);
                     users.is_verified := users.is_verified u |}]> (users d)
       ∧ ∃ c, courses d !! cid = Some c ∧
           certificates d' =
             <[certificate_key g :=
                 {| certificates.student_id := Some sid;
                    certificates.course_id := Some cid;
                    certificates.mentor_id := courses.mentor_id c;
                    certificates.certificate_id := certificate_text g |}]>
               (certificates d)).
Proof.
  assert (∀ d k rs,
            let d' := completions d k rs in
            (users d' = users d ∧ certificates d' = certificates d)
            ∨ ∃ p g, (p, g) ∈ rs
                ∧ users d' = users (run d p (completion k g))
                ∧ certificates d'
                  = certificates (run d p (completion k g))) as Hone.
  { intros d k rs. revert d.
    induction rs as [|[p g] rs IH]; intros d; [by left|].
    change (completions d k ((p, g) :: rs))
      with (completions (run d p (completion k g)) k rs).
    destruct (completion_step d p k g) as [Hsame|(e' & Hk' & Hdone)].
    + cbn zeta. rewrite Hsame.
      destruct (IH d) as [?|(p' & g' & Hin & ?)]; [by left|].
      right. exists p', g'. split; [by right|done].
    + right. exists p, g. split; [by left|].
      by apply (completions_of_completed rs _ k e'). }
  split; [exact Hone|]. split.
  - intros d k rs d'.
    destruct (Hone d k rs) as [[Hu Hc]|(p & g & _ & Hu & Hc)];
      [split; by left|].
    fold d' in Hu, Hc. rewrite Hu, Hc.
    destruct (completion_awards_once d p k g) as [Hus Hcs]. split.
    + destruct Hus as [?|(sid & u & u' & Hl & Hset & ?)]; [by left|].
      right. exists sid, u, u'. split; [done|]. split; [done|].
      by apply award_set_Ok in Hset as (_ & _ & _ & _ & ? & _).
    + destruct Hcs as [?|(cert & ? & ?)]; [by left|].
      right. by exists (certificate_key g), cert.
  - intros d k e sid cid u x g before after Hri Huq Hk Hopen Hsid Hcid Hu Hx
      Hr Hy Hfree Hnew Hbefore d'. subst d'.
    rewrite completions_app,
      (authenticated_completions_of_open before d k e) by done.
    destruct (owner_completion_result d k e sid cid u x g)
      as (c & Hc & He); try done.
    change (completions d k ((owner, g) :: after))
      with (completions (run d owner (completion k g)) k after).
    unfold run, completion. rewrite He.
    match goal with
    | |- context [completions ?D k after] =>
        destruct (completions_of_completed after D k
                    {| enrollments.student_id := Some sid;
                       enrollments.course_id := Some cid;
                       enrollments.enrolled_at := enrollments.enrolled_at e;
                       enrollments.completed_at := enrollments.completed_at e;
                       enrollments.is_completed := Some true |})
          as [Hu' Hc']; [apply lookup_insert_eq|done|]
    end.
    rewrite Hu', Hc'. split; [done|]. by exists c.
Qed.

Lemma completions_award_at_most_once_witness :
  let d' := completions sample.store 20
              ([ (authenticated sample.mia, more_samples.second_draw) ]
               ++ (owner, sample.draw)
               :: [ (owner, more_samples.second_draw);
                    (authenticated sample.mia, more_samples.colliding_draw) ])
  in
  users d' =
    <[sample.ann := sample.profile "ann@campus.example" student
                      (80 + 50) ((80 + 50) ÷ 100 + 1)]>
      (users sample.store)
  ∧ ∃ c, courses sample.store !! sample.rocq_course = Some c ∧
      certificates d' =
        <[certificate_key sample.draw :=
            {| certificates.student_id := Some sample.ann;
               certificates.course_id := Some sample.rocq_course;
               certificates.mentor_id := courses.mentor_id c;
               certificates.certificate_id := certificate_text sample.draw |}]>
          (certificates sample.store).
Proof.
  apply (proj2 (proj2 completions_award_at_most_once) sample.store 20%N
           (sample.enrolled sample.ann (Some sample.rocq_course) false)
           sample.ann sample.rocq_course
           (sample.profile "ann@campus.example" student 80 1) 80 sample.draw);
    try reflexivity.
  - apply referential_integrityb_true. vm_compute. reflexivity.
  - apply unique_constraintsb_true. vm_compute. reflexivity.
  - unfold int4_min. lia.
  - intros j c' Hj. vm_compute in Hj. discriminate Hj.
  - repeat constructor. discriminate.
Defined.

(** C4 as stated fails: enrollment 21 names no course.  Two completion
    requests of the owner give ann her 50 points once, and no certificate
    at all.  And three completion requests of mia, the mentor of the
    course, for the open enrollment 20 are refused one after the other:
    there is no award and no certificate. *)
Lemma completions_without_course_give_no_certificate :
  (let d' := completions sample.store 21
               [ (owner, sample.draw); (owner, more_samples.second_draw) ] in
   users d' !! sample.ann
     = Some (sample.profile "ann@campus.example" student 130 2)
   ∧ enrollments d' !! 21%N = Some (sample.enrolled sample.ann None true)
   ∧ certificates d' = ∅)
  ∧ exec sample.store (authenticated sample.mia) (completion 20 sample.draw)
    = Err insufficient_privilege
  ∧ completions sample.store 20
      [ (authenticated sample.mia, sample.draw);
        (authenticated sample.mia, more_samples.second_draw);
        (authenticated sample.mia, more_samples.colliding_draw) ]
    = sample.store.
Proof. vm_compute. done. Qed.

(** ** Denial *)

Lemma read_denied {Row} (pol : db → N → policy Row) (t : db → gmap N Row)
    d me k r :
  t d !! k = Some r → select_using (pol d me) k r = false →
  read pol t d (authenticated me) !! k = None.
Proof.
  intros Hk Hs. unfold read. cbn [as_principal].
  destruct (rls_select _ _ !! k) as [r'|] eqn:Hl; [|done].
  apply rls_select_lookup in Hl as [Hl Hs']. congruence.
Qed.

Lemma read_granted {Row} (pol : db → N → policy Row) (t : db → gmap N Row)
    d me k :
  (∀ r, select_using (pol d me) k r = true) →
  read pol t d (authenticated me) !! k = t d !! k.
Proof.
  intros Hs. unfold read. cbn [as_principal]. apply option_eq. intros r.
  rewrite rls_select_lookup. naive_solver.
Qed.

Lemma holds_eq_col_false `{EqDecision A} (a : option A) (y : A) :
  a ≠ Some y → holds (eq_col a (Some y)) = false.
Proof.
  intros H. destruct (holds _) eqn:He; [|done].
  by apply holds_eq_col_Some in He.
Qed.

Lemma rls_update_skipped {Row} (pol : policy Row) chk k set
    (t : gmap N Row) :
  (∀ old, t !! k = Some old →
          select_using pol k old && update_using pol k old = false) →
  rls_update pol chk k set t = Ok (None, t).
Proof.
  intros H. unfold rls_update. destruct (t !! k) as [old|]; [|done].
  by rewrite H.
Qed.

(** C9, as amended, for the tables users, courses, enrollments, reviews,
    certificates and mentor_requests and a signed-in user [me], on
    statements whose values are of the types of their columns.
    - A read that the SELECT policy denies leaves the row out and is no
      error; no read of a user or of a review is denied.
    - An INSERT that the policy denies fails with insufficient_privilege:
      a profile under another id, a course by a user who is neither
      mentor nor admin, an enrollment, a review or a mentor request in
      another name, and every certificate.  So does the UPDATE of an own
      active course whose new row names another mentor or is not active.
    - An UPDATE that the policy denies is no error and changes nothing:
      on the profile of another user, on a course that is not active or
      names another mentor, on an enrollment of a course of another
      mentor, and every UPDATE on reviews, certificates and
      mentor_requests.  So is every DELETE, on all six tables.
    - A statement that fails leaves the database as it was. *)
Theorem denial_by_policy d me :
  let p := authenticated me in
  ((∀ k, read users_policy users d p !! k = users d !! k)
   ∧ (∀ k, read reviews_policy reviews d p !! k = reviews d !! k)
   ∧ (∀ k c, courses d !! k = Some c →
             courses.is_active c ≠ Some true →
             read courses_policy courses d p !! k = None)
   ∧ (∀ k e, enrollments d !! k = Some e →
             enrollments.student_id e ≠ Some me →
             mentor_of_course d me e = false →
             read enrollments_policy enrollments d p !! k = None)
   ∧ (∀ k c, certificates d !! k = Some c →
             certificates.student_id c ≠ Some me →
             certificates.mentor_id c ≠ Some me →
             read certificates_policy certificates d p !! k = None)
   ∧ (∀ k r, mentor_requests d !! k = Some r →
             mentor_requests.student_id r ≠ Some me →
             read mentor_requests_policy mentor_requests d p !! k = None))
  ∧ ((∀ k r, users_in_type r = true → k ≠ me →
             exec d p (on_users (INSERT k r)) = Err insufficient_privilege)
     ∧ (∀ k r, courses_in_type r = true →
               (∀ u, users d !! me = Some u →
                     users.role u ≠ Some mentor ∧ users.role u ≠ Some admin) →
               exec d p (on_courses (INSERT k r))
               = Err insufficient_privilege)
     ∧ (∀ k r g, enrollments_in_type r = true →
                 enrollments.student_id r ≠ Some me →
                 exec d p (on_enrollments (INSERT k r) g)
                 = Err insufficient_privilege)
     ∧ (∀ k r, reviews_in_type r = true →
               reviews.student_id r ≠ Some me →
               exec d p (on_reviews (INSERT k r))
               = Err insufficient_privilege)
     ∧ (∀ k r, certificates_in_type r = true →
               exec d p (on_certificates (INSERT k r))
               = Err insufficient_privilege)
     ∧ (∀ k r, mentor_requests_in_type r = true →
               mentor_requests.student_id r ≠ Some me →
               exec d p (on_mentor_requests (INSERT k r))
               = Err insufficient_privilege))
  ∧ (∀ k set c c',
       courses d !! k = Some c →
       courses.mentor_id c = Some me →
       courses.is_active c = Some true →
       set c = Ok c' → courses_in_type c' = true →
       courses.mentor_id c' ≠ Some me ∨ courses.is_active c' ≠ Some true →
       exec d p (on_courses (UPDATE k set)) = Err insufficient_privilege)
  ∧ ((∀ k set, raises_nothing users_in_type set → k ≠ me →
               exec d p (on_users (UPDATE k set)) = Ok d)
     ∧ (∀ k set, raises_nothing courses_in_type set →
                 (∀ c, courses d !! k = Some c →
                       courses.mentor_id c ≠ Some me
                       ∨ courses.is_active c ≠ Some true) →
                 exec d p (on_courses (UPDATE k set)) = Ok d)
     ∧ (∀ k set g, raises_nothing enrollments_in_type set →
                   (∀ e, enrollments d !! k = Some e →
                         mentor_of_course d me e = false) →
                   exec d p (on_enrollments (UPDATE k set) g) = Ok d)
     ∧ (∀ k set, raises_nothing reviews_in_type set →
                 exec d p (on_reviews (UPDATE k set)) = Ok d)
     ∧ (∀ k set, raises_nothing certificates_in_type set →
                 exec d p (on_certificates (UPDATE k set)) = Ok d)
     ∧ (∀ k set, raises_nothing mentor_requests_in_type set →
                 exec d p (on_mentor_requests (UPDATE k set)) = Ok d))
  ∧ (∀ k g,
       exec d p (on_users (DELETE k)) = Ok d
       ∧ exec d p (on_courses (DELETE k)) = Ok d
       ∧ exec d p (on_enrollments (DELETE k) g) = Ok d
       ∧ exec d p (on_reviews (DELETE k)) = Ok d
       ∧ exec d p (on_certificates (DELETE k)) = Ok d
       ∧ exec d p (on_mentor_requests (DELETE k)) = Ok d)
  ∧ (∀ q e, exec d p q = Err e → run d p q = d).
Proof.
  intros p. subst p.
  split; [|split; [|split; [|split; [|split]]]].
  - split; [|split; [|split; [|split; [|split]]]].
    + intros k. by apply read_granted.
    + intros k. by apply read_granted.
    + intros k c Hk Ha. apply (read_denied courses_policy courses _ _ _ c Hk).
      cbn. by apply holds_eq_col_false.
    + intros k e Hk Hs Hm.
      apply (read_denied enrollments_policy enrollments _ _ _ e Hk).
      cbn [enrollments_policy select_using].
      by rewrite Hm, holds_eq_col_false.
    + intros k c Hk Hs Hm.
      apply (read_denied certificates_policy certificates _ _ _ c Hk).
      cbn [certificates_policy select_using].
      by rewrite !holds_eq_col_false.
    + intros k r Hk Hs.
      apply (read_denied mentor_requests_policy mentor_requests _ _ _ r Hk).
      cbn [mentor_requests_policy select_using].
      by rewrite holds_eq_col_false.
  - split; [|split; [|split; [|split; [|split]]]].
    + intros k r _ Hk. unfold exec, exec_users, rls_insert.
      cbn [as_principal].
      destruct (insert_check _ _ _) eqn:Hc; [|done].
      by apply users_insert_own in Hc.
    + intros k r _ Hno. unfold exec, exec_courses, rls_insert.
      cbn [as_principal].
      destruct (insert_check _ _ _) eqn:Hc; [|done].
      apply courses_insert_check_true in Hc as (u & Hu & Hr).
      destruct (Hno u Hu). by destruct Hr.
    + intros k r g _ Hs. unfold exec, exec_enrollments, rls_insert.
      cbn [as_principal enrollments_policy insert_check].
      by rewrite holds_eq_col_false.
    + intros k r _ Hs. rewrite exec_reviews_insert.
      destruct (insert_check _ _ _) eqn:Hc; [|done].
      by apply reviews_insert_check_true in Hc as [? _].
    + intros k r _. done.
    + intros k r _ Hs. unfold exec, exec_mentor_requests, rls_insert.
      cbn [as_principal mentor_requests_policy insert_check].
      by rewrite holds_eq_col_false.
  - intros k set c c' Hk Hm Ha Hset _ Hnew.
    unfold exec, exec_courses, rls_update. cbn [as_principal].
    rewrite Hk. cbn [courses_policy select_using update_using update_check].
    rewrite Hm, Ha, !holds_eq_col_refl. cbn [andb]. rewrite Hset. simpl.
    destruct Hnew as [Hnew|Hnew]; rewrite (holds_eq_col_false _ _ Hnew);
      by rewrite ?andb_false_r.
  - split; [|split; [|split; [|split; [|split]]]].
    + intros k set _ Hk. unfold exec, exec_users.
      rewrite rls_update_skipped; [simpl; by rewrite with_users_id|].
      intros old _. cbn. case_bool_decide; [congruence|done].
    + intros k set _ Hno. unfold exec, exec_courses.
      rewrite rls_update_skipped; [simpl; by rewrite with_courses_id|].
      intros old Hk. cbn [as_principal courses_policy select_using update_using].
      destruct (Hno old Hk) as [H|H]; rewrite (holds_eq_col_false _ _ H);
        by rewrite ?andb_false_r.
    + intros k set g _ Hno. unfold exec, exec_enrollments.
      rewrite rls_update_skipped; [simpl; by rewrite with_enrollments_id|].
      intros old Hk. cbn [as_principal enrollments_policy update_using].
      by rewrite (Hno old Hk), andb_false_r.
    + intros k set _. unfold exec, exec_reviews.
      rewrite rls_update_skipped; [simpl; by rewrite with_reviews_id|].
      intros old _. apply andb_false_r.
    + intros k set _. unfold exec, exec_certificates.
      rewrite rls_update_skipped; [simpl; by rewrite with_certificates_id|].
      intros old _. apply andb_false_r.
    + intros k set _. unfold exec, exec_mentor_requests.
      rewrite rls_update_skipped; [simpl; by rewrite with_mentor_requests_id|].
      intros old _. apply andb_false_r.
  - intros k g. unfold exec, exec_users, exec_courses, exec_enrollments,
      exec_reviews, exec_certificates, exec_mentor_requests.
    rewrite !rls_delete_denied by done. cbn [fst snd].
    by rewrite with_enrollments_id, with_reviews_id, with_certificates_id,
      with_mentor_requests_id.
  - intros q e He. unfold run. by rewrite He.
Qed.

Lemma denial_by_policy_witness :
  exec sample.store (authenticated sample.bob)
    (on_reviews (INSERT 40 (sample.review sample.ann sample.rocq_course 5)))
  = Err insufficient_privilege.
Proof.
  apply (proj1 (proj2 (proj2 (proj2 (proj1 (proj2
           (denial_by_policy sample.store sample.bob))))))).
  - reflexivity.
  - intros [=].
Defined.

(** C9 as stated fails for writes: ann may not update the profile of bob;
    her UPDATE of it is no error, and nothing changes. *)
Lemma denied_update_is_no_error :
  update_using (users_policy sample.store sample.ann) sample.bob
    (sample.profile "bob@campus.example" student 0 1) = false
  ∧ exec sample.store (authenticated sample.ann)
      (on_users (UPDATE sample.bob (sample.set_xp_points 9000)))
    = Ok sample.store.
Proof. split; vm_compute; reflexivity. Qed.
